(** * Chatbot-App: the GPT trainers of [model/gpt.py]

    A shallow embedding of [GPTPretrain] and [GPT] (the fine-tuning
    orchestrator): checkpointing, the partial-freeze policy, the windowed
    training loops and greedy decoding.

    Python objects are modelled as follows.
    - A [torch.nn.Parameter] is an object with identity: parameters live in
      a heap keyed by object id, and modules hold ids.  What one module sets
      is therefore seen by every module holding the same object.
    - A tensor is its shape and the bit patterns of its elements; a Python
      float is its IEEE-754 bit pattern.  Arithmetic on floats, the forward
      and backward passes and the random permutation of a shuffling
      [DataLoader] are operations of a [Backend].
    - The file system maps a path to the checkpoint pickled there, and
      [torch.save] followed by [torch.load] gives the pickled value back;
      writing a file always succeeds.  Standard output is the list of
      lines printed so far.
    - A Python exception is the [Raise] result; the trainer it leaves
      behind is not observed.
    - A batch fed to [predict] holds one sequence, which is what its test
      [token == end_token] and its concatenation require. *)

From Stdlib Require Import ZArith Lia.
From stdpp Require Import base option list gmap strings.

Set Default Proof Using "Type".

(** ** Values *)

Definition token := Z.
Definition float := Z.

(** [0.0] has every bit clear. *)
Definition f0 : float := 0%Z.

Record tensor := Tensor { t_shape : list nat; t_data : list Z }.

Record param := Param { p_data : tensor; requires_grad : bool }.

Definition set_data (v : tensor) (p : param) : param :=
  {| p_data := v; requires_grad := requires_grad p |}.

Definition set_requires_grad (b : bool) (p : param) : param :=
  {| p_data := p_data p; requires_grad := b |}.

(** The heap of parameter objects. *)
Abbreviation heap := (gmap nat param).

(** The named parameters of a module: dotted name and object id. *)
Abbreviation named_params := (list (string * nat)).

Inductive exn :=
| FileNotFoundError
| AttributeError
| RuntimeError
| ValueError
| IndexError
| ZeroDivisionError
| UnboundLocalError
| AssertionError
| OverflowError
| TypeError.

Inductive result (A : Type) :=
| Ok (a : A)
| Raise (e : exn).
Arguments Ok {A} a.
Arguments Raise {A} e.

Global Instance result_ret : MRet result := λ A a, Ok a.
Global Instance result_bind : MBind result := λ A B f m,
  match m with
  | Ok a => f a
  | Raise e => Raise e
  end.

(** ** Modules ([torch.nn.Module]) *)

Definition prefixed (pre : string) (np : named_params) : named_params :=
  (λ '(n, i), (pre +:+ n, i)) <$> np.

(** [Decoder] is defined outside [gpt.py]; the file uses its attribute
    [linear], the final output projection.  Its other parameters are
    [blocks], under their dotted names. *)
Record Decoder := { blocks : named_params; linear : named_params }.

Record GPTModel := { embedding_layer : named_params; decoder : Decoder }.

(** [Classifier] is defined outside [gpt.py]: a module with parameters. *)
Record GPTFineTune := { pretrained_model : GPTModel; classifier : named_params }.

Definition Decoder_named_parameters (d : Decoder) : named_params :=
  blocks d ++ prefixed "linear." (linear d).

Definition GPTModel_named_parameters (m : GPTModel) : named_params :=
  prefixed "embedding_layer." (embedding_layer m)
  ++ prefixed "decoder." (Decoder_named_parameters (decoder m)).

Definition GPTFineTune_named_parameters (m : GPTFineTune) : named_params :=
  prefixed "pretrained_model." (GPTModel_named_parameters (pretrained_model m))
  ++ prefixed "classifier." (classifier m).

(** [module.parameters()] *)
Definition parameters (np : named_params) : list nat := np.*2.

(** [module.state_dict()]: name to value. *)
Definition state_dict (np : named_params) (h : heap) : gmap string tensor :=
  foldr (λ '(n, i) acc,
           match h !! i with
           | Some p => <[n := p_data p]> acc
           | None => acc
           end) ∅ np.

Definition shape_matches (sd : gmap string tensor) (h : heap) (e : string * nat) : bool :=
  match sd !! e.1, h !! e.2 with
  | Some v, Some p => bool_decide (t_shape v = t_shape (p_data p))
  | _, _ => true
  end.

(** The in-place copy of [load_state_dict]: [param.copy_(input_param)]
    keeps the object and its [requires_grad]. *)
Definition copy_state (np : named_params) (sd : gmap string tensor) (h : heap) : heap :=
  foldl (λ h '(n, i),
           match sd !! n with
           | Some v => alter (set_data v) i h
           | None => h
           end) h np.

(** [module.load_state_dict(sd)] with [strict=True]: missing keys,
    unexpected keys and size mismatches raise [RuntimeError]. *)
Definition load_state_dict (np : named_params) (sd : gmap string tensor) (h : heap)
  : result heap :=
  if bool_decide (dom sd = list_to_set np.*1) then
    if forallb (shape_matches sd h) np then Ok (copy_state np sd h)
    else Raise RuntimeError
  else Raise RuntimeError.

(** [for p in ids: p.requires_grad = b], also [module.requires_grad_(b)]. *)
Definition requires_grad_ (b : bool) (ids : list nat) (h : heap) : heap :=
  foldl (λ h i, alter (set_requires_grad b) i h) h ids.

(** The freeze applied after loading: every backbone parameter is frozen,
    then the decoder's [linear] is made trainable again. *)
Definition freeze_backbone (m : GPTModel) (h : heap) : heap :=
  requires_grad_ true (parameters (linear (decoder m)))
    (requires_grad_ false (parameters (GPTModel_named_parameters m)) h).

(** ** Optimizers ([torch.optim]) *)

Inductive optimizer_class := Adam | AdamW | SGD | RMSprop | Adagrad.

(** The per-parameter state of an optimizer (for Adam: [step], [exp_avg],
    [exp_avg_sq]). *)
Abbreviation param_state := (list (string * tensor)).

(** One parameter group.  [opt_state] is keyed by the position of the
    parameter in [opt_params], the key [state_dict()] packs it under. *)
Record Optimizer := {
  opt_class : optimizer_class;
  opt_params : list nat;
  opt_lr : float;
  opt_state : gmap nat param_state
}.

Record opt_state_dict := {
  sd_state : gmap nat param_state;
  sd_lr : float;
  sd_n_params : nat
}.

Definition new_optimizer (c : optimizer_class) (ids : list nat) (lr : float) : Optimizer :=
  {| opt_class := c; opt_params := ids; opt_lr := lr; opt_state := ∅ |}.

Definition optimizer_state (o : Optimizer) : opt_state_dict :=
  {| sd_state := opt_state o; sd_lr := opt_lr o; sd_n_params := length (opt_params o) |}.

(** [optimizer.load_state_dict(sd)]: a group of another size raises
    [ValueError]. *)
Definition optimizer_load_state_dict (sd : opt_state_dict) (o : Optimizer)
  : result Optimizer :=
  if bool_decide (sd_n_params sd = length (opt_params o)) then
    Ok {| opt_class := opt_class o; opt_params := opt_params o;
          opt_lr := sd_lr sd; opt_state := sd_state sd |}
  else Raise ValueError.

(** ** The world outside the trainer *)

Record checkpoint_file := {
  model_state_dict : gmap string tensor;
  optimizer_state_dict : opt_state_dict;
  ck_epoch : Z
}.

Inductive out_line :=
| ModelSavedAt (path : string)
| ModelIsSavedAt (path : string)
| CheckpointNotFound
| LoadedPretrainedModel
| PretrainProgress (epoch batch : Z) (loss ppl : float)
| FineTuneProgress (epoch batch : Z) (loss : float)
| Summary.

Record World := {
  fs : gmap string checkpoint_file;
  stdout : list out_line;
  rng : nat
}.

Definition print (l : out_line) (w : World) : World :=
  {| fs := fs w; stdout := stdout w ++ [l]; rng := rng w |}.

Definition os_path_exists (path : string) (w : World) : bool :=
  bool_decide (is_Some (fs w !! path)).

(** [torch.load(path)]: [None] is not a file and a missing file cannot be
    opened. *)
Definition torch_load (path : option string) (w : World) : result checkpoint_file :=
  match path with
  | None => Raise AttributeError
  | Some p =>
      match fs w !! p with
      | Some f => Ok f
      | None => Raise FileNotFoundError
      end
  end.

Definition torch_save (f : checkpoint_file) (path : string) (w : World) : World :=
  {| fs := <[path := f]> (fs w); stdout := stdout w; rng := rng w |}.

(** ** The numeric backend

    What [gpt.py] takes from PyTorch and from the modules next to it:
    float arithmetic, the forward pass of the fine-tune model on one
    sequence in evaluation mode (mask, embedding, decoder, classifier; one row
    of logits per position), the effect of one optimisation step (zero_grad,
    forward, batch-mean cross entropy, backward, optimizer step) with the
    loss it measured, and the order a shuffling sampler draws. *)
Class Backend := {
  fadd : float → float → float;
  fdiv : float → Z → float;
  flt : float → float → bool;
  perplexity_loss : float → float;
  model_forward : GPTFineTune → heap → list token → list (list float);
  pretrain_update :
    GPTModel → heap → Optimizer → list (list token) → list (list token)
    → heap * Optimizer * float;
  finetune_update :
    GPTFineTune → heap → Optimizer → list (list token) → list (list Z)
    → heap * Optimizer * float;
  shuffle_order : nat → nat → list nat
}.

(** ** Python control structures *)

(** [for a in l: s = body(s, a)], stopping at the first exception. *)
Fixpoint for_each {S A : Type} (body : S → A → result S) (s : S) (l : list A)
  : result S :=
  match l with
  | [] => Ok s
  | a :: l' => s' ← body s a; for_each body s' l'
  end.

(** [for _ in range(n): s = body(s)] *)
Fixpoint for_range {S : Type} (n : nat) (body : S → result S) (s : S) : result S :=
  match n with
  | O => Ok s
  | S n' => s' ← body s; for_range n' body s'
  end.

(** [enumerate(l, start)] *)
Fixpoint enumerate {A : Type} (start : Z) (l : list A) : list (Z * A) :=
  match l with
  | [] => []
  | a :: l' => (start, a) :: enumerate (start + 1) l'
  end.

(** [row[:-1]] and [row[1:]] *)
Definition slice_to_last {A : Type} (row : list A) : list A :=
  take (length row - 1) row.

Definition slice_from_1 {A : Type} (row : list A) : list A := drop 1 row.

(** ** [torch.utils.data.DataLoader] *)

Record DataLoader (A : Type) := {
  dataset : list A;
  batch_size : Z;
  shuffle : bool
}.
Arguments dataset {A} _.
Arguments batch_size {A} _.
Arguments shuffle {A} _.

(** [DataLoader(dataset, batch_size, shuffle)]: the batch sampler refuses a
    batch size that is not positive, and the random sampler of a shuffling
    loader refuses an empty dataset; both with [ValueError]. *)
Definition new_DataLoader {A : Type} (ds : list A) (bsz : Z) (sh : bool)
  : result (DataLoader A) :=
  if bool_decide (bsz ≤ 0)%Z then Raise ValueError
  else if sh && bool_decide (length ds = 0) then Raise ValueError
  else Ok {| dataset := ds; batch_size := bsz; shuffle := sh |}.

(** [len(dataloader)] *)
Definition DataLoader_len {A : Type} (dl : DataLoader A) : Z :=
  ((Z.of_nat (length (dataset dl)) + batch_size dl - 1) `div` batch_size dl)%Z.

Fixpoint chunks_fuel {A : Type} (fuel n : nat) (l : list A) : list (list A) :=
  match fuel with
  | O => []
  | S fuel' =>
      match l with
      | [] => []
      | _ => take n l :: chunks_fuel fuel' n (drop n l)
      end
  end.

Definition chunks {A : Type} (n : nat) (l : list A) : list (list A) :=
  chunks_fuel (length l) n l.

(** One pass over the loader: the batches in the order drawn. *)
Definition DataLoader_iter `{!Backend} {A : Type} (dl : DataLoader A) (w : World)
  : list (list A) * World :=
  let n := length (dataset dl) in
  let order := if shuffle dl then shuffle_order (rng w) n else seq 0 n in
  let w' := if shuffle dl
            then {| fs := fs w; stdout := stdout w; rng := S (rng w) |}
            else w in
  (chunks (Z.to_nat (batch_size dl)) (omap (λ i, dataset dl !! i) order), w').

(** The test both [fit] loops print on:
    [index%mini_batch == mini_batch-1 or index == batches-1]. *)
Definition report_due (index mini_batch batches : Z) : result bool :=
  if bool_decide (mini_batch = 0)%Z then Raise ZeroDivisionError
  else Ok ((index `mod` mini_batch =? mini_batch - 1)%Z || (index =? batches - 1)%Z).

(** ** [class GPTPretrain] *)

Module GPTPretrain.

Record t := {
  model : GPTModel;
  params : heap;
  optimizer : Optimizer;
  checkpoint : option string;
  entropy_loss : float;
  perplexity : float;
  epoch : Z;
  train_mode : bool
}.

Definition set_checkpoint (c : option string) (self : t) : t :=
  {| model := model self; params := params self; optimizer := optimizer self;
     checkpoint := c; entropy_loss := entropy_loss self;
     perplexity := perplexity self; epoch := epoch self;
     train_mode := train_mode self |}.

Definition set_epoch (e : Z) (self : t) : t :=
  {| model := model self; params := params self; optimizer := optimizer self;
     checkpoint := checkpoint self; entropy_loss := entropy_loss self;
     perplexity := perplexity self; epoch := e;
     train_mode := train_mode self |}.

Definition set_train_mode (b : bool) (self : t) : t :=
  {| model := model self; params := params self; optimizer := optimizer self;
     checkpoint := checkpoint self; entropy_loss := entropy_loss self;
     perplexity := perplexity self; epoch := epoch self;
     train_mode := b |}.

Definition set_counters (l p : float) (self : t) : t :=
  {| model := model self; params := params self; optimizer := optimizer self;
     checkpoint := checkpoint self; entropy_loss := l;
     perplexity := p; epoch := epoch self;
     train_mode := train_mode self |}.

Definition set_loaded (h : heap) (o : Optimizer) (e : Z) (self : t) : t :=
  {| model := model self; params := h; optimizer := o;
     checkpoint := checkpoint self; entropy_loss := entropy_loss self;
     perplexity := perplexity self; epoch := e;
     train_mode := train_mode self |}.

Definition __save_model (path : string) (self : t) (w : World) : World :=
  print (ModelSavedAt path)
    (torch_save {| model_state_dict :=
                     state_dict (GPTModel_named_parameters (model self)) (params self);
                   optimizer_state_dict := optimizer_state (optimizer self);
                   ck_epoch := epoch self |} path w).

Definition __load_model (path : string) (self : t) (w : World) : result t :=
  if os_path_exists path w then
    checkpoint_data ← torch_load (Some path) w;
    h ← load_state_dict (GPTModel_named_parameters (model self))
          (model_state_dict checkpoint_data) (params self);
    o ← optimizer_load_state_dict (optimizer_state_dict checkpoint_data) (optimizer self);
    Ok (set_loaded h o (ck_epoch checkpoint_data) self)
  else Ok self.

Definition save_model (path : option string) (self : t) (w : World) : t * World :=
  match path with
  | Some p => (set_checkpoint (Some p) self, __save_model p self w)
  | None =>
      match checkpoint self with
      | Some c => (self, __save_model c self w)
      | None => (self, print CheckpointNotFound w)
      end
  end.

Definition load_model (path : option string) (self : t) (w : World)
  : result (t * World) :=
  match path with
  | Some p => self' ← __load_model p self w; Ok (set_checkpoint (Some p) self', w)
  | None =>
      match checkpoint self with
      | Some c => self' ← __load_model c self w; Ok (self', w)
      | None => Ok (self, print CheckpointNotFound w)
      end
  end.

(** The constructor.  [m] and [h] are the freshly built [GPTModel] and its
    parameter objects. *)
Definition __init__ (m : GPTModel) (h : heap) (learning_rate : float)
    (opt : optimizer_class) (ckpt : option string) (w : World) : result (t * World) :=
  let self :=
    {| model := m; params := h;
       optimizer := new_optimizer opt (parameters (GPTModel_named_parameters m)) learning_rate;
       checkpoint := ckpt; entropy_loss := f0; perplexity := f0; epoch := 0;
       train_mode := true |} in
  match ckpt with
  | Some c => load_model (Some c) self w
  | None => Ok (self, w)
  end.

Definition sumary (self : t) (w : World) : World := print Summary w.

Definition build_pretrain_dataset (data : list (list token)) (bsz : Z) (sh : bool)
  : result (DataLoader (list token)) :=
  new_DataLoader data bsz sh.

Section methods.
Context `{!Backend}.

Definition pretrain_inputs (data : list (list token)) : list (list token) :=
  slice_to_last <$> data.

Definition pretrain_labels (data : list (list token)) : list (list token) :=
  slice_from_1 <$> data.

Definition pretrain_step (data : list (list token)) (self : t) : t :=
  let inputs := pretrain_inputs data in
  let labels := pretrain_labels data in
  let '(h, o, loss) :=
    pretrain_update (model self) (params self) (optimizer self) inputs labels in
  set_counters (fadd (entropy_loss self) loss)
               (fadd (perplexity self) (perplexity_loss loss))
    (set_loaded h o (epoch self) self).

(** The body of the inner loop of [fit], for one [(index, batch)].  The
    local [epoch_loss] it also adds to is read by [mean_loss] alone, which
    nothing reads. *)
Definition fit_batch (mini_batch batches : Z) (st : t * World)
    (ib : Z * list (list token)) : result (t * World) :=
  let '(self, w) := st in
  let '(index, batch) := ib in
  let self := pretrain_step batch self in
  due ← report_due index mini_batch batches;
  if due : bool then
    Ok (set_counters f0 f0 self,
        print (PretrainProgress (epoch self + 1) (index + 1)
                 (fdiv (entropy_loss self) mini_batch)
                 (fdiv (perplexity self) mini_batch)) w)
  else Ok (self, w).

(** One epoch.  [index] is the local variable of [fit]: it is unbound until
    some epoch has had a batch, and [mean_loss] reads it. *)
Definition fit_epoch (dl : DataLoader (list token)) (mini_batch batches : Z)
    (st : t * World * option Z) : result (t * World * option Z) :=
  let '(self, w, index) := st in
  let '(bs, w) := DataLoader_iter dl w in
  '(self, w) ← for_each (fit_batch mini_batch batches) (self, w) (enumerate 0 bs);
  let index := match bs with
               | [] => index
               | _ => Some (Z.of_nat (length bs) - 1)%Z
               end in
  let self := set_epoch (epoch self + 1) self in
  match index with
  | None => Raise UnboundLocalError
  | Some _ => Ok (self, w, index)
  end.

Definition fit (data : list (list token)) (bsz epochs : Z) (sh : bool)
    (mini_batch : Z) (self : t) (w : World) : result (t * World) :=
  '(self, w) ← match checkpoint self with
               | Some c => load_model (Some c) self w
               | None => Ok (self, w)
               end;
  let self := set_train_mode true self in
  let w := sumary self w in
  dataloader ← build_pretrain_dataset data bsz sh;
  let batches := DataLoader_len dataloader in
  '(self, w, _) ← for_range (Z.to_nat epochs)
                    (fit_epoch dataloader mini_batch batches) (self, w, None);
  match checkpoint self with
  | Some c => Ok (self, __save_model c self w)
  | None => Ok (self, w)
  end.

End methods.
End GPTPretrain.

(** ** [class GPT] *)

Module GPT.

Record t := {
  model : GPTFineTune;
  params : heap;
  optimizer : Optimizer;
  epoch : Z;
  checkpoint : option string;
  entropy_loss : float;
  training : bool;
  train_mode : bool
}.

Definition set_checkpoint (c : option string) (self : t) : t :=
  {| model := model self; params := params self; optimizer := optimizer self;
     epoch := epoch self; checkpoint := c; entropy_loss := entropy_loss self;
     training := training self; train_mode := train_mode self |}.

Definition set_epoch (e : Z) (self : t) : t :=
  {| model := model self; params := params self; optimizer := optimizer self;
     epoch := e; checkpoint := checkpoint self; entropy_loss := entropy_loss self;
     training := training self; train_mode := train_mode self |}.

Definition set_train_mode (b : bool) (self : t) : t :=
  {| model := model self; params := params self; optimizer := optimizer self;
     epoch := epoch self; checkpoint := checkpoint self;
     entropy_loss := entropy_loss self;
     training := training self; train_mode := b |}.

Definition set_entropy_loss (l : float) (self : t) : t :=
  {| model := model self; params := params self; optimizer := optimizer self;
     epoch := epoch self; checkpoint := checkpoint self; entropy_loss := l;
     training := training self; train_mode := train_mode self |}.

Definition set_params (h : heap) (self : t) : t :=
  {| model := model self; params := h; optimizer := optimizer self;
     epoch := epoch self; checkpoint := checkpoint self;
     entropy_loss := entropy_loss self;
     training := training self; train_mode := train_mode self |}.

Definition set_optimizer (o : Optimizer) (self : t) : t :=
  {| model := model self; params := params self; optimizer := o;
     epoch := epoch self; checkpoint := checkpoint self;
     entropy_loss := entropy_loss self;
     training := training self; train_mode := train_mode self |}.

Definition set_training (b : bool) (self : t) : t :=
  {| model := model self; params := params self; optimizer := optimizer self;
     epoch := epoch self; checkpoint := checkpoint self;
     entropy_loss := entropy_loss self;
     training := b; train_mode := train_mode self |}.

Definition __load_model (path : string) (self : t) (w : World) : result t :=
  if os_path_exists path w then
    ckpt ← torch_load (Some path) w;
    h ← load_state_dict (GPTFineTune_named_parameters (model self))
          (model_state_dict ckpt) (params self);
    o ← optimizer_load_state_dict (optimizer_state_dict ckpt) (optimizer self);
    let self := set_epoch (ck_epoch ckpt) (set_optimizer o (set_params h self)) in
    let self :=
      set_params (freeze_backbone (pretrained_model (model self)) (params self)) self in
    Ok (set_training true self)
  else Ok self.

Definition load_model (path : option string) (self : t) (w : World)
  : result (t * World) :=
  match path, checkpoint self with
  | None, Some c => self' ← __load_model c self w; Ok (self', w)
  | _, _ =>
      match path with
      | Some p => self' ← __load_model p self w; Ok (set_checkpoint (Some p) self', w)
      | None => Ok (self, w)
      end
  end.

Definition __save_model (path : string) (self : t) (w : World) : World :=
  print (ModelIsSavedAt path)
    (torch_save {| model_state_dict :=
                     state_dict (GPTFineTune_named_parameters (model self)) (params self);
                   optimizer_state_dict := optimizer_state (optimizer self);
                   ck_epoch := epoch self |} path w).

Definition save_model (path : option string) (self : t) (w : World) : t * World :=
  match path, checkpoint self with
  | None, Some c => (self, __save_model c self w)
  | _, _ =>
      match path with
      | Some p => (set_checkpoint (Some p) self, __save_model p self w)
      | None => (self, w)
      end
  end.

(** [fit] passes its [pretrained_path], which defaults to [None]. *)
Definition load_pretrained_model (path : option string) (self : t) (w : World)
  : result (t * World) :=
  ckpt ← torch_load path w;
  h ← load_state_dict (GPTModel_named_parameters (pretrained_model (model self)))
        (model_state_dict ckpt) (params self);
  let self := set_params (freeze_backbone (pretrained_model (model self)) h) self in
  Ok (self, print LoadedPretrainedModel w).

(** The constructor.  [m] and [h] are the freshly built [GPTFineTune] and
    its parameter objects; [opt] is the [optimizer] argument. *)
Definition __init__ (m : GPTFineTune) (h : heap) (opt : optimizer_class)
    (learning_rate : float) (ckpt : option string) (w : World) : result (t * World) :=
  let self :=
    {| model := m; params := h;
       optimizer :=
         new_optimizer Adam (parameters (GPTFineTune_named_parameters m)) learning_rate;
       epoch := 0; checkpoint := ckpt; entropy_loss := f0;
       training := false; train_mode := true |} in
  match ckpt with
  | Some c => load_model (Some c) self w
  | None => Ok (self, w)
  end.

(** [TensorDataset(inputs, labels)] asserts equal first dimensions. *)
Definition build_dataset (inputs : list (list token)) (labels : list (list Z))
    (bsz : Z) (sh : bool) : result (DataLoader (list token * list Z)) :=
  if bool_decide (length inputs = length labels) then new_DataLoader (zip inputs labels) bsz sh
  else Raise AssertionError.

Definition sumary (self : t) (w : World) : result (t * World) :=
  '(self, w) ← match checkpoint self with
               | Some c => load_model (Some c) self w
               | None => Ok (self, w)
               end;
  Ok (self, print Summary w).

Section methods.
Context `{!Backend}.

Definition train_step (inputs : list (list token)) (labels : list (list Z)) (self : t) : t :=
  let '(h, o, loss) :=
    finetune_update (model self) (params self) (optimizer self) inputs labels in
  set_entropy_loss (fadd (entropy_loss self) loss) (set_optimizer o (set_params h self)).

(** The body of the inner loop of [fit], for one [(index, data)]. *)
Definition fit_batch (mini_batch total_batch : Z) (st : t * World)
    (ib : Z * list (list token * list Z)) : result (t * World) :=
  let '(self, w) := st in
  let '(index, data) := ib in
  let inputs := data.*1 in
  let labels := data.*2 in
  let self := train_step inputs labels self in
  due ← report_due index mini_batch total_batch;
  if due : bool then
    Ok (set_entropy_loss f0 self,
        print (FineTuneProgress (epoch self + 1) (index + 1)
                 (fdiv (entropy_loss self) mini_batch)) w)
  else Ok (self, w).

Definition fit_epoch (dl : DataLoader (list token * list Z)) (mini_batch : Z)
    (st : t * World) : result (t * World) :=
  let '(self, w) := st in
  let total_batch := DataLoader_len dl in
  let '(bs, w) := DataLoader_iter dl w in
  '(self, w) ← for_each (fit_batch mini_batch total_batch) (self, w) (enumerate 0 bs);
  Ok (set_epoch (epoch self + 1) self, w).

Definition fit (inputs : list (list token)) (labels : list (list Z))
    (pretrained_path : option string) (bsz epochs mini_batch : Z)
    (shuffle_data : bool) (self : t) (w : World) : result (t * World) :=
  '(self, w) ← match checkpoint self with
               | Some c => load_model (Some c) self w
               | None => Ok (self, w)
               end;
  '(self, w) ← (if training self then Ok (self, w)
                else load_pretrained_model pretrained_path self w);
  let self := set_train_mode true self in
  '(self, w) ← sumary self w;
  dataloader ← build_dataset inputs labels bsz shuffle_data;
  '(self, w) ← for_range (Z.to_nat epochs) (fit_epoch dataloader mini_batch) (self, w);
  match checkpoint self with
  | Some c => Ok (self, __save_model c self w)
  | None => Ok (self, w)
  end.

(** [torch.max(row, dim=-1)]: the index of the greatest logit, the first
    one when several are greatest; an empty row raises. *)
Fixpoint argmax_from (best_i : Z) (best : float) (i : Z) (row : list float) : Z :=
  match row with
  | [] => best_i
  | x :: row' =>
      if flt best x then argmax_from i x (i + 1) row'
      else argmax_from best_i best (i + 1) row'
  end.

Definition argmax (row : list float) : result Z :=
  match row with
  | [] => Raise IndexError
  | x :: row' => Ok (argmax_from 0 x 1 row')
  end.

(** [outputs[:, -1, :]] raises when there is no position. *)
Definition __predict_token (input : list token) (self : t) : result token :=
  let outputs := model_forward (model self) (params self) input in
  match last outputs with
  | None => Raise IndexError
  | Some predict => argmax predict
  end.

(** [token == end_token], an int64 tensor against a Python int: the int is
    made a scalar first, which raises [OverflowError] when it fits neither
    a signed nor an unsigned 64-bit integer. *)
Definition token_equals (tok : token) (end_token : Z) : result bool :=
  if bool_decide (- 2 ^ 63 ≤ end_token < 2 ^ 64)%Z
  then Ok (bool_decide (tok = end_token))
  else Raise OverflowError.

Fixpoint predict_loop (n : nat) (end_token : token) (self : t) (data : list token)
  : result (list token) :=
  match n with
  | O => Ok data
  | S n' =>
      tok ← __predict_token data self;
      stop ← token_equals tok end_token;
      if stop : bool then Ok data
      else predict_loop n' end_token self (data ++ [tok])
  end.

Definition predict (data : list token) (limit_tokens : Z) (end_token : token)
    (self : t) : result (t * list token) :=
  let self := set_train_mode false self in
  out ← predict_loop (Z.to_nat limit_tokens) end_token self data;
  Ok (self, out).

End methods.
End GPT.

(** ** A small instance

    A backend over integers and a five-parameter model, on which the
    statements below are evaluated.  The forward pass puts the greatest logit
    of each position at the successor of its token modulo 3. *)

Definition tiny_row (t : token) : list float :=
  (λ j, if bool_decide (j = (t + 1) `mod` 3)%Z then 1%Z else 0%Z) <$> [0; 1; 2]%Z.

Definition tiny_backend : Backend := {|
  fadd := Z.add;
  fdiv := Z.div;
  flt := Z.ltb;
  perplexity_loss := λ x, x;
  model_forward := λ _ _ x, tiny_row <$> x;
  pretrain_update := λ _ h o _ _, (h, o, 1%Z);
  finetune_update := λ _ h o _ _, (h, o, 1%Z);
  shuffle_order := λ _ n, reverse (seq 0 n)
|}.

Definition tiny_decoder : Decoder :=
  {| blocks := [("layers.0.weight", 1)]; linear := [("weight", 2); ("bias", 3)] |}.

Definition tiny_backbone : GPTModel :=
  {| embedding_layer := [("weight", 0)]; decoder := tiny_decoder |}.

Definition tiny_model : GPTFineTune :=
  {| pretrained_model := tiny_backbone; classifier := [("weight", 4)] |}.

Definition tiny_heap (v : Z) (g : bool) : heap :=
  list_to_map
    [(0, Param (Tensor [2] [v; v]) g); (1, Param (Tensor [1] [v]) g);
     (2, Param (Tensor [1] [(v + 1)%Z]) g); (3, Param (Tensor [1] [(v + 2)%Z]) g);
     (4, Param (Tensor [1] [(v + 3)%Z]) g)].

Definition tiny_pretrain (v : Z) (e : Z) : GPTPretrain.t :=
  {| GPTPretrain.model := tiny_backbone;
     GPTPretrain.params := tiny_heap v true;
     GPTPretrain.optimizer :=
       {| opt_class := SGD; opt_params := [0; 1; 2; 3]; opt_lr := v;
          opt_state := {[ 0 := [("momentum_buffer", Tensor [2] [v; v])] ]} |};
     GPTPretrain.checkpoint := None;
     GPTPretrain.entropy_loss := f0;
     GPTPretrain.perplexity := f0;
     GPTPretrain.epoch := e;
     GPTPretrain.train_mode := true |}.

Definition tiny_gpt (v : Z) (e : Z) : GPT.t :=
  {| GPT.model := tiny_model;
     GPT.params := tiny_heap v true;
     GPT.optimizer :=
       {| opt_class := Adam; opt_params := [0; 1; 2; 3; 4]; opt_lr := v;
          opt_state := {[ 4 := [("exp_avg", Tensor [1] [v])] ]} |};
     GPT.epoch := e;
     GPT.checkpoint := None;
     GPT.entropy_loss := f0;
     GPT.training := false;
     GPT.train_mode := true |}.

Definition empty_world : World := {| fs := ∅; stdout := []; rng := 0 |}.

(** A world holding a pretraining checkpoint and a fine-tune checkpoint. *)
Definition tiny_world : World :=
  GPT.__save_model "gpt.pt" (tiny_gpt 7 3)
    (GPTPretrain.__save_model "pretrain.pt" (tiny_pretrain 5 2) empty_world).


(** ** Vocabulary of the statements *)

(** The path a save or a load acts on: the argument, else the configured
    checkpoint. *)
Definition checkpoint_target (path configured : option string) : option string :=
  match path with
  | Some p => Some p
  | None => configured
  end.

(** The partial freeze, between the heap [h] before a load and the heap
    [h'] after it: a backbone parameter tracks gradients exactly when it
    belongs to the decoder's [linear]; the flag of every other parameter
    object is the one it had. *)
Definition frozen_except_linear (m : GPTFineTune) (h h' : heap) : Prop :=
  (∀ i, i ∈ parameters (GPTModel_named_parameters (pretrained_model m)) →
        is_Some (h !! i) →
        requires_grad <$> h' !! i
        = Some (bool_decide (i ∈ parameters (linear (decoder (pretrained_model m))))))
  ∧ (∀ i, i ∉ parameters (GPTModel_named_parameters (pretrained_model m)) →
          requires_grad <$> h' !! i = requires_grad <$> h !! i).

(** The tokens of [x] are ids of a vocabulary of [V] tokens, the only ones
    the embedding layer accepts. *)
Definition in_vocabulary (V : Z) (x : list token) : Prop :=
  Forall (λ tok, 0 ≤ tok < V)%Z x.

(** The forward pass gives, for a sequence of ids of the vocabulary that is
    not empty, at least one position, and a last row with at least one logit
    and no more logits than the vocabulary has tokens. *)
Definition yields_logits `{!Backend} (V : Z) (self : GPT.t) : Prop :=
  ∀ x, x ≠ [] → in_vocabulary V x →
       ∃ row, last (model_forward (GPT.model self) (GPT.params self) x) = Some row
              ∧ row ≠ []
              ∧ (Z.of_nat (length row) ≤ V)%Z.

(** The running sequence after [k] greedy tokens were appended, whatever
    they are. *)
Fixpoint greedy_run `{!Backend} (k : nat) (self : GPT.t) (data : list token)
  : result (list token) :=
  match k with
  | O => Ok data
  | S k' => tok ← GPT.__predict_token data self; greedy_run k' self (data ++ [tok])
  end.

(** The named parameters [np] of a module are well formed in a heap: names
    are distinct, as the keys of a [state_dict] are, and every object is
    allocated. *)
Definition wf_params (np : named_params) (h : heap) : Prop :=
  NoDup np.*1 ∧ Forall (λ i, is_Some (h !! i)) (parameters np).

(** Two heaps give the parameters [np] the same shapes; training changes
    values and never shapes. *)
Definition same_shapes (np : named_params) (h h' : heap) : Prop :=
  Forall (λ i, t_shape ∘ p_data <$> h !! i = t_shape ∘ p_data <$> h' !! i)
         (parameters np).

(** A progress report of one of the two [fit] loops. *)
Definition is_progress (l : out_line) : bool :=
  match l with
  | PretrainProgress _ _ _ _ | FineTuneProgress _ _ _ => true
  | _ => false
  end.

Definition count_reports (out : list out_line) : nat :=
  length (filter (λ l, is_progress l = true) out).

(** [ceil(T / M)] for [M >= 1]. *)
Definition ceil_div (T M : Z) : Z := ((T + M - 1) `div` M)%Z.

(** The value of the test of [report_due] when it does not raise. *)
Definition window_closes (index mini_batch batches : Z) : bool :=
  (index `mod` mini_batch =? mini_batch - 1)%Z || (index =? batches - 1)%Z.

(** How many of the [n] indices from [start] on close a window. *)
Fixpoint count_due (mini_batch batches start : Z) (n : nat) : nat :=
  match n with
  | O => 0
  | S n' =>
      (if window_closes start mini_batch batches then 1 else 0)
      + count_due mini_batch batches (start + 1) n'
  end.

(** What one iteration of a [fit] loop does to the output, from [st] to
    [st'] at [index]: when the window closes, one progress report more and
    the window counters [zeroed]; otherwise nothing printed. *)
Definition step_reports {St : Type} (zeroed : St → Prop) (mini_batch batches : Z)
    (st st' : St * World) (index : Z) : Prop :=
  if window_closes index mini_batch batches
  then (∃ line, is_progress line = true ∧ stdout st'.2 = stdout st.2 ++ [line])
       ∧ zeroed st'.1
  else stdout st'.2 = stdout st.2.

(** The comparison of logits is that of a total order: irreflexive, and
    what is not above [a] is not above anything above [a].  Floats other
    than NaN compare so. *)
Definition logit_order `{!Backend} : Prop :=
  (∀ a, flt a a = false)
  ∧ (∀ a b c, flt a b = true → flt a c = false → flt b c = false).

(** The record the two [__save_model] pickle. *)
Definition GPTPretrain_snapshot (self : GPTPretrain.t) : checkpoint_file :=
  {| model_state_dict :=
       state_dict (GPTModel_named_parameters (GPTPretrain.model self))
         (GPTPretrain.params self);
     optimizer_state_dict := optimizer_state (GPTPretrain.optimizer self);
     ck_epoch := GPTPretrain.epoch self |}.

Definition GPT_snapshot (self : GPT.t) : checkpoint_file :=
  {| model_state_dict :=
       state_dict (GPTFineTune_named_parameters (GPT.model self)) (GPT.params self);
     optimizer_state_dict := optimizer_state (GPT.optimizer self);
     ck_epoch := GPT.epoch self |}.

(** A shuffling sampler draws every index once. *)
Definition valid_sampler `{!Backend} : Prop :=
  ∀ r n, shuffle_order r n ≡ₚ seq 0 n.

(** The flag [training] is set only on a trainer with a configured
    checkpoint. *)
Definition trained_has_checkpoint (self : GPT.t) : Prop :=
  GPT.training self = true → is_Some (GPT.checkpoint self).

(** The epoch a [fit] starts from: the one of the configured checkpoint
    when its file exists, else the trainer's. *)
Definition starting_epoch (configured : option string) (epoch : Z) (w : World) : Z :=
  match configured with
  | Some c =>
      match fs w !! c with
      | Some f => ck_epoch f
      | None => epoch
      end
  | None => epoch
  end.

(** An error about the configuration, as a check of the arguments of
    [fit] would raise it: Python's classes for an argument of a wrong value
    or of a wrong type.  [gpt.py] has no [raise] of its own. *)
Definition configuration_error (e : exn) : Prop :=
  e = ValueError ∨ e = TypeError.

(** The epoch and the batch a progress report names, both counted from 1. *)
Definition report_epoch (l : out_line) : option Z :=
  match l with
  | PretrainProgress e _ _ _ | FineTuneProgress e _ _ => Some e
  | _ => None
  end.

Definition report_batch (l : out_line) : option Z :=
  match l with
  | PretrainProgress _ b _ _ | FineTuneProgress _ b _ => Some b
  | _ => None
  end.

(** The batches, counted from 1, at which a loop over the [n] indices from
    [start] on reports. *)
Fixpoint due_batches (mini_batch batches start : Z) (n : nat) : list Z :=
  match n with
  | O => []
  | S n' =>
      (if window_closes start mini_batch batches then [(start + 1)%Z] else [])
      ++ due_batches mini_batch batches (start + 1) n'
  end.

(** The batches of an epoch of [T] batches, counted from 1, after which a
    report is expected with windows of [M]: every [M]-th one, and the last
    one. *)
Definition report_points (M T : Z) : list Z :=
  filter (λ b, b `mod` M = 0 ∨ b = T)%Z (seqZ 1 T).

(** The lines one epoch of [batches] batches prints: a progress report
    naming epoch [e] at each of the [report_points], in order, and nothing
    else. *)
Definition epoch_reports (mini_batch batches e : Z) (out : list out_line) : Prop :=
  Forall2 (λ l b, is_progress l = true
                  ∧ report_epoch l = Some e
                  ∧ report_batch l = Some b)
          out (report_points mini_batch batches).

(** What one iteration of a [fit] loop does, from [st] to [st'] at
    [index]: the epoch counter [ep] stays; when the window closes, one
    report is printed, naming the epoch and the batch, and the window
    counters are [zeroed]; otherwise nothing is printed. *)
Definition step_prints {St : Type} (ep : St → Z) (zeroed : St → Prop)
    (mini_batch batches : Z) (st st' : St * World) (index : Z) : Prop :=
  ep st'.1 = ep st.1
  ∧ if window_closes index mini_batch batches
    then (∃ line, is_progress line = true
                  ∧ report_epoch line = Some (ep st.1 + 1)%Z
                  ∧ report_batch line = Some (index + 1)%Z
                  ∧ stdout st'.2 = stdout st.2 ++ [line])
         ∧ zeroed st'.1
    else stdout st'.2 = stdout st.2.

(** ** Heap lemmas *)

Lemma lookup_requires_grad_ b ids (h : heap) (i : nat) :
  requires_grad_ b ids h !! i
  = if decide (i ∈ ids) then set_requires_grad b <$> h !! i else h !! i.
Proof.
  unfold requires_grad_. revert h. induction ids as [|j ids IH]; intros h; cbn [foldl].
  - case_decide as Hin; [by apply elem_of_nil in Hin|done].
  - rewrite IH. destruct (decide (i = j)) as [->|Hne].
    + rewrite lookup_alter_eq.
      rewrite (decide_True (P := j ∈ j :: ids)); [|apply elem_of_cons; by left].
      destruct (decide (j ∈ ids)); [|done].
      destruct (h !! j); done.
    + rewrite lookup_alter_ne by done.
      destruct (decide (i ∈ ids)) as [Hin|Hin].
      * rewrite decide_True; [done|apply elem_of_cons; by right].
      * rewrite decide_False; [done|].
        intros [?|?]%elem_of_cons; done.
Qed.

Lemma lookup_copy_state_flag np sd (h : heap) (i : nat) :
  requires_grad <$> copy_state np sd h !! i = requires_grad <$> h !! i.
Proof.
  unfold copy_state. revert h. induction np as [|[n j] np IH]; intros h; cbn [foldl]; [done|].
  rewrite IH. destruct (sd !! n); [|done].
  destruct (decide (i = j)) as [->|Hne].
  - rewrite lookup_alter_eq. by destruct (h !! j).
  - by rewrite lookup_alter_ne.
Qed.

Lemma copy_state_is_Some np sd (h : heap) (i : nat) :
  is_Some (copy_state np sd h !! i) ↔ is_Some (h !! i).
Proof.
  rewrite <-!(fmap_is_Some requires_grad). by rewrite lookup_copy_state_flag.
Qed.

Lemma parameters_prefixed pre np : parameters (prefixed pre np) = parameters np.
Proof.
  unfold parameters, prefixed. induction np as [|[n i] np IH]; [done|].
  cbn. f_equal. exact IH.
Qed.

Lemma parameters_app np1 np2 :
  parameters (np1 ++ np2) = parameters np1 ++ parameters np2.
Proof. unfold parameters. by rewrite fmap_app. Qed.

Lemma linear_in_backbone (m : GPTModel) (i : nat) :
  i ∈ parameters (linear (decoder m)) →
  i ∈ parameters (GPTModel_named_parameters m).
Proof.
  intros Hi. unfold GPTModel_named_parameters, Decoder_named_parameters.
  rewrite parameters_app, !parameters_prefixed, parameters_app, parameters_prefixed.
  rewrite !elem_of_app. auto.
Qed.

Lemma freeze_backbone_flag (m : GPTModel) (h : heap) (i : nat) :
  requires_grad <$> freeze_backbone m h !! i
  = if decide (i ∈ parameters (GPTModel_named_parameters m))
    then (λ _, bool_decide (i ∈ parameters (linear (decoder m)))) <$> h !! i
    else requires_grad <$> h !! i.
Proof.
  unfold freeze_backbone. rewrite !lookup_requires_grad_.
  destruct (decide (i ∈ parameters (linear (decoder m)))) as [Hl|Hl].
  - apply linear_in_backbone in Hl as Hb.
    destruct (decide (i ∈ parameters (GPTModel_named_parameters m))); [|done].
    rewrite bool_decide_eq_true_2 by done. by destruct (h !! i).
  - rewrite bool_decide_eq_false_2 by done.
    destruct (decide (i ∈ parameters (GPTModel_named_parameters m))); [|done].
    by destruct (h !! i).
Qed.

Lemma freeze_backbone_data (m : GPTModel) (h : heap) (i : nat) :
  p_data <$> freeze_backbone m h !! i = p_data <$> h !! i.
Proof.
  unfold freeze_backbone. rewrite !lookup_requires_grad_.
  repeat case_decide; by destruct (h !! i).
Qed.

(** ** Loading, step by step *)

Lemma load_state_dict_Ok np sd (h h' : heap) :
  load_state_dict np sd h = Ok h' → h' = copy_state np sd h.
Proof.
  unfold load_state_dict. repeat case_match; congruence.
Qed.

Lemma os_path_exists_true path w : is_Some (fs w !! path) → os_path_exists path w = true.
Proof. intros. unfold os_path_exists. by apply bool_decide_eq_true_2. Qed.

Lemma os_path_exists_false path w : fs w !! path = None → os_path_exists path w = false.
Proof.
  intros Hn. unfold os_path_exists. apply bool_decide_eq_false_2.
  rewrite Hn. by intros [? ?].
Qed.

Lemma frozen_after_copy (m : GPTFineTune) np sd (h : heap) :
  frozen_except_linear m h (freeze_backbone (pretrained_model m) (copy_state np sd h)).
Proof.
  split; intros i Hi.
  - intros [p Hp]. rewrite freeze_backbone_flag, decide_True by done.
    assert (is_Some (copy_state np sd h !! i)) as [q ->]; [|done].
    apply copy_state_is_Some. eauto.
  - rewrite freeze_backbone_flag, decide_False by done.
    apply lookup_copy_state_flag.
Qed.

Lemma GPT__load_model_existing path self w self' :
  is_Some (fs w !! path) →
  GPT.__load_model path self w = Ok self' →
  ∃ ckpt h o,
    fs w !! path = Some ckpt
    ∧ load_state_dict (GPTFineTune_named_parameters (GPT.model self))
        (model_state_dict ckpt) (GPT.params self) = Ok h
    ∧ optimizer_load_state_dict (optimizer_state_dict ckpt) (GPT.optimizer self) = Ok o
    ∧ self' = GPT.set_training true
                (GPT.set_params (freeze_backbone (pretrained_model (GPT.model self)) h)
                   (GPT.set_epoch (ck_epoch ckpt)
                      (GPT.set_optimizer o (GPT.set_params h self)))).
Proof.
  intros Hex. unfold GPT.__load_model. rewrite os_path_exists_true by done.
  destruct Hex as [ckpt Hck]. simpl. rewrite Hck. simpl.
  destruct (load_state_dict _ _ _) as [h|] eqn:Hh; simpl; [|done].
  destruct (optimizer_load_state_dict _ _) as [o|] eqn:Ho; simpl; [|done].
  intros [= <-]. by exists ckpt, h, o.
Qed.

Lemma GPT__load_model_missing path self w :
  fs w !! path = None → GPT.__load_model path self w = Ok self.
Proof. intros. unfold GPT.__load_model. by rewrite os_path_exists_false. Qed.

Lemma GPT_load_model_target path self w self' w' :
  GPT.load_model path self w = Ok (self', w') →
  w' = w ∧
  match checkpoint_target path (GPT.checkpoint self) with
  | Some p => ∃ s1, GPT.__load_model p self w = Ok s1
                    ∧ self' = match path with
                              | Some _ => GPT.set_checkpoint (Some p) s1
                              | None => s1
                              end
  | None => self' = self
  end.
Proof.
  unfold GPT.load_model, checkpoint_target.
  destruct path as [p|], (GPT.checkpoint self) as [c|]; simpl;
    try (destruct (GPT.__load_model _ self w) as [s1|] eqn:E; simpl; [|done]);
    intros [= <- <-]; eauto.
Qed.

(** C1.  When [GPT.load_pretrained_model] returns, and when [GPT.load_model]
    returns after loading a checkpoint file that exists, every parameter of
    the backbone [pretrained_model] has [requires_grad] false, except those
    of [decoder.linear], which have it true; every parameter object outside
    the backbone, the classifier's among them, keeps its flag. *)
Theorem freeze_after_load (self : GPT.t) (w : World) :
  (∀ path self' w',
     GPT.load_pretrained_model path self w = Ok (self', w') →
     GPT.model self' = GPT.model self
     ∧ frozen_except_linear (GPT.model self) (GPT.params self) (GPT.params self'))
  ∧ (∀ path p self' w',
       checkpoint_target path (GPT.checkpoint self) = Some p →
       is_Some (fs w !! p) →
       GPT.load_model path self w = Ok (self', w') →
       GPT.model self' = GPT.model self
       ∧ GPT.training self' = true
       ∧ frozen_except_linear (GPT.model self) (GPT.params self) (GPT.params self')).
Proof.
  split.
  - intros path self' w'. unfold GPT.load_pretrained_model.
    destruct (torch_load path w) as [ckpt|]; simpl; [|done].
    destruct (load_state_dict _ _ _) as [h|] eqn:Hh; simpl; [|done].
    intros [= <- <-]. split; [done|]. simpl.
    apply load_state_dict_Ok in Hh as ->. apply frozen_after_copy.
  - intros path p self' w' Ht Hex Hload.
    apply GPT_load_model_target in Hload as [-> Hload]. rewrite Ht in Hload.
    destruct Hload as (s1 & Hs1 & ->).
    apply GPT__load_model_existing in Hs1 as (ckpt & h & o & _ & Hh & _ & ->); [|done].
    apply load_state_dict_Ok in Hh as ->.
    destruct path; simpl; (split; [done|]); (split; [done|]); apply frozen_after_copy.
Qed.

Lemma freeze_after_load_witness :
  (∃ self' w',
     GPT.load_pretrained_model (Some "pretrain.pt") (tiny_gpt 1 0) tiny_world
     = Ok (self', w')
     ∧ frozen_except_linear tiny_model (tiny_heap 1 true) (GPT.params self'))
  ∧ (∃ self' w',
       GPT.load_model (Some "gpt.pt") (tiny_gpt 1 0) tiny_world = Ok (self', w')
       ∧ GPT.training self' = true
       ∧ frozen_except_linear tiny_model (tiny_heap 1 true) (GPT.params self')).
Proof.
  destruct (freeze_after_load (tiny_gpt 1 0) tiny_world) as [Hpre Hfull].
  split.
  - destruct (GPT.load_pretrained_model (Some "pretrain.pt") (tiny_gpt 1 0) tiny_world)
      as [[self' w']|e] eqn:E.
    + exists self', w'. split; [reflexivity|]. eapply Hpre. exact E.
    + vm_compute in E. discriminate E.
  - destruct (GPT.load_model (Some "gpt.pt") (tiny_gpt 1 0) tiny_world)
      as [[self' w']|e] eqn:E.
    + exists self', w'. split; [reflexivity|].
      eapply (Hfull (Some "gpt.pt") "gpt.pt"); [reflexivity| |exact E].
      vm_compute. eexists. reflexivity.
    + vm_compute in E. discriminate E.
Defined.

(** On the small instance: embedding (0) and decoder block (1) frozen, the
    two parameters of [linear] (2, 3) and the classifier (4) trainable. *)
Example freeze_tiny :
  (λ r, match r with
        | Ok (self', _) =>
            (λ i, requires_grad <$> GPT.params self' !! i) <$> [0; 1; 2; 3; 4]
        | Raise _ => []
        end)
    (GPT.load_pretrained_model (Some "pretrain.pt") (tiny_gpt 1 0) tiny_world)
  = [Some false; Some false; Some true; Some true; Some true].
Proof. vm_compute. reflexivity. Qed.

(** ** Greedy decoding *)

Section Decoding.
Context `{!Backend}.

Lemma argmax_Ok (row : list float) : row ≠ [] → ∃ t, GPT.argmax row = Ok t.
Proof. destruct row; [done|]. intros _. simpl. eauto. Qed.

Lemma argmax_from_range (row : list float) :
  ∀ best_i best i,
    (0 ≤ best_i < i)%Z →
    (0 ≤ GPT.argmax_from best_i best i row < i + Z.of_nat (length row))%Z.
Proof.
  induction row as [|x row IH]; intros best_i best i Hi; simpl; [lia|].
  destruct (flt best x).
  - specialize (IH i x (i + 1)%Z ltac:(lia)). lia.
  - specialize (IH best_i best (i + 1)%Z ltac:(lia)). lia.
Qed.

Lemma argmax_range (row : list float) (t : Z) :
  GPT.argmax row = Ok t → (0 ≤ t < Z.of_nat (length row))%Z.
Proof.
  destruct row as [|x row]; [done|]. simpl. intros [= <-].
  pose proof (argmax_from_range row 0 x 1 ltac:(lia)). lia.
Qed.

Lemma token_equals_Ok (tok end_token : Z) (b : bool) :
  GPT.token_equals tok end_token = Ok b → b = bool_decide (tok = end_token).
Proof. unfold GPT.token_equals. case_bool_decide; [|done]. by intros [= <-]. Qed.

Lemma token_equals_int64 (tok end_token : Z) :
  (- 2 ^ 63 ≤ end_token < 2 ^ 63)%Z →
  GPT.token_equals tok end_token = Ok (bool_decide (tok = end_token)).
Proof. intros He. unfold GPT.token_equals. rewrite bool_decide_eq_true_2; [done|lia]. Qed.

Lemma predict_token_Ok (V : Z) (self : GPT.t) (x : list token) :
  yields_logits V self → x ≠ [] → in_vocabulary V x →
  ∃ t, GPT.__predict_token x self = Ok t ∧ (0 ≤ t < V)%Z.
Proof.
  intros Hc Hx Hv. destruct (Hc x Hx Hv) as (row & Hlast & Hrow & Hlen).
  unfold GPT.__predict_token. rewrite Hlast.
  destruct (argmax_Ok row Hrow) as [t Ht]. exists t. split; [done|].
  apply argmax_range in Ht. lia.
Qed.

Lemma predict_loop_returns (V : Z) (self : GPT.t) (end_token : token) (n : nat) :
  yields_logits V self →
  (- 2 ^ 63 ≤ end_token < 2 ^ 63)%Z →
  ∀ data, data ≠ [] → in_vocabulary V data →
    ∃ suffix, GPT.predict_loop n end_token self data = Ok (data ++ suffix)
              ∧ length suffix ≤ n
              ∧ in_vocabulary V suffix.
Proof.
  intros Hc He. induction n as [|n IH]; intros data Hd Hv; simpl.
  - exists []. rewrite app_nil_r. split; [done|]. split; [simpl; lia|constructor].
  - destruct (predict_token_Ok V self data Hc Hd Hv) as (tok & -> & Htok). simpl.
    rewrite token_equals_int64 by done. simpl. case_bool_decide.
    + exists []. rewrite app_nil_r. split; [done|]. split; [simpl; lia|constructor].
    + destruct (IH (data ++ [tok])) as (suffix & -> & Hlen & Hsuf).
      { by destruct data. }
      { apply Forall_app. split; [done|]. by constructor. }
      exists (tok :: suffix). rewrite <-app_assoc.
      split; [done|]. split; [simpl; lia|by constructor].
Qed.

Lemma greedy_run_length (self : GPT.t) (k : nat) :
  ∀ data dk, greedy_run k self data = Ok dk → length dk = length data + k.
Proof.
  induction k as [|k IH]; intros data dk; simpl.
  - intros [= <-]. lia.
  - destruct (GPT.__predict_token data self) as [tok|]; simpl; [|done].
    intros Hk. apply IH in Hk. rewrite length_app in Hk. simpl in Hk. lia.
Qed.

Lemma predict_loop_first_end (self : GPT.t) (end_token : token) (k : nat) :
  (- 2 ^ 63 ≤ end_token < 2 ^ 63)%Z →
  ∀ n data dk,
    k < n →
    greedy_run k self data = Ok dk →
    GPT.__predict_token dk self = Ok end_token →
    (∀ j dj, j < k → greedy_run j self data = Ok dj →
             GPT.__predict_token dj self ≠ Ok end_token) →
    GPT.predict_loop n end_token self data = Ok dk.
Proof.
  intros He. induction k as [|k IH]; intros n data dk Hn Hrun Hend Hfirst;
    (destruct n as [|n]; [lia|]); simpl in *.
  - injection Hrun as <-. rewrite Hend. simpl.
    rewrite token_equals_int64 by done. simpl. by rewrite bool_decide_eq_true_2.
  - destruct (GPT.__predict_token data self) as [tok|] eqn:Htok; simpl in *; [|done].
    rewrite token_equals_int64 by done. simpl. rewrite bool_decide_eq_false_2.
    + apply IH; [lia|done|done|].
      intros j dj Hj Hdj. apply (Hfirst (S j) dj); [lia|].
      simpl. by rewrite Htok.
    + intros ->. by apply (Hfirst 0 data); [lia| |].
Qed.

Lemma predict_token_eval_mode (self : GPT.t) (b : bool) (x : list token) :
  GPT.__predict_token x (GPT.set_train_mode b self) = GPT.__predict_token x self.
Proof. reflexivity. Qed.

Lemma predict_loop_eval_mode (self : GPT.t) (end_token : token) (n : nat) :
  ∀ data, GPT.predict_loop n end_token (GPT.set_train_mode false self) data
          = GPT.predict_loop n end_token self data.
Proof.
  induction n as [|n IH]; intros data; simpl; [done|].
  rewrite predict_token_eval_mode.
  destruct (GPT.__predict_token data self) as [tok|]; simpl; [|done].
  destruct (GPT.token_equals tok end_token) as [[|]|]; simpl; [done| |done]. apply IH.
Qed.

End Decoding.

(** C2, as the code has it.  For a prompt that is not empty and made of ids
    of the vocabulary, every [limit_tokens = N >= 0] and every [end_token]
    that fits a signed 64-bit integer, over a forward pass that yields
    logits on such sequences, [GPT.predict] returns; what it returns has
    length at most [P + N], starts with the prompt and is made of ids of the
    vocabulary; and when the greedy token first equals [end_token] at
    iteration [k < N], it returns the running sequence of that iteration,
    of length [P + k], the end token left out. *)
Theorem predict_greedy `{!Backend} (V : Z) (self : GPT.t) (data : list token)
    (limit_tokens : Z) (end_token : token) :
  yields_logits V self →
  data ≠ [] →
  in_vocabulary V data →
  (0 ≤ limit_tokens)%Z →
  (- 2 ^ 63 ≤ end_token < 2 ^ 63)%Z →
  ∃ out,
    GPT.predict data limit_tokens end_token self = Ok (GPT.set_train_mode false self, out)
    ∧ (Z.of_nat (length out) ≤ Z.of_nat (length data) + limit_tokens)%Z
    ∧ take (length data) out = data
    ∧ in_vocabulary V out
    ∧ ∀ k dk,
        (Z.of_nat k < limit_tokens)%Z →
        greedy_run k self data = Ok dk →
        GPT.__predict_token dk self = Ok end_token →
        (∀ j dj, j < k → greedy_run j self data = Ok dj →
                 GPT.__predict_token dj self ≠ Ok end_token) →
        out = dk ∧ length out = length data + k.
Proof.
  intros Hc Hd Hv HN He. unfold GPT.predict. rewrite predict_loop_eval_mode.
  destruct (predict_loop_returns V self end_token (Z.to_nat limit_tokens) Hc He data Hd Hv)
    as (suffix & Hloop & Hlen & Hsuf).
  exists (data ++ suffix). rewrite Hloop. simpl.
  split; [done|]. split; [|split; [|split]].
  - rewrite length_app. lia.
  - by rewrite take_app_length.
  - by apply Forall_app.
  - intros k dk Hk Hrun Hend Hfirst.
    assert (GPT.predict_loop (Z.to_nat limit_tokens) end_token self data = Ok dk) as Hdk.
    { apply (predict_loop_first_end self end_token k He); [lia|done..]. }
    rewrite Hloop in Hdk. injection Hdk as Hdk. split; [done|].
    rewrite Hdk. by apply greedy_run_length in Hrun.
Qed.

Lemma tiny_yields_logits (self : GPT.t) : @yields_logits tiny_backend 3 self.
Proof.
  intros x Hx _. simpl. rewrite fmap_last.
  destruct (last x) as [t|] eqn:Hl.
  - exists (tiny_row t). split; [done|]. by unfold tiny_row.
  - by apply last_None in Hl.
Qed.

Lemma predict_greedy_witness :
  ∃ out,
    @GPT.predict tiny_backend [1%Z] 5%Z 0%Z (tiny_gpt 1 0)
    = Ok (GPT.set_train_mode false (tiny_gpt 1 0), out)
    ∧ (Z.of_nat (length out) ≤ Z.of_nat (length [1%Z]) + 5)%Z
    ∧ take (length [1%Z]) out = [1%Z]
    ∧ in_vocabulary 3 out
    ∧ ∀ k dk,
        (Z.of_nat k < 5)%Z →
        @greedy_run tiny_backend k (tiny_gpt 1 0) [1%Z] = Ok dk →
        @GPT.__predict_token tiny_backend dk (tiny_gpt 1 0) = Ok 0%Z →
        (∀ j dj, j < k → @greedy_run tiny_backend j (tiny_gpt 1 0) [1%Z] = Ok dj →
                 @GPT.__predict_token tiny_backend dj (tiny_gpt 1 0) ≠ Ok 0%Z) →
        out = dk ∧ length out = length [1%Z] + k.
Proof.
  apply (@predict_greedy tiny_backend 3%Z (tiny_gpt 1 0) [1%Z] 5%Z 0%Z).
  - apply tiny_yields_logits.
  - discriminate.
  - repeat constructor; lia.
  - lia.
  - lia.
Defined.

(** On the small instance the prompt [1] is continued by [2], and the next
    greedy token, [0], ends the decoding. *)
Example predict_tiny :
  @GPT.predict tiny_backend [1%Z] 5%Z 0%Z (tiny_gpt 1 0)
  = Ok (GPT.set_train_mode false (tiny_gpt 1 0), [1%Z; 2%Z]).
Proof. reflexivity. Qed.

Example predict_tiny_limit :
  @GPT.predict tiny_backend [0%Z] 1%Z 0%Z (tiny_gpt 1 0)
  = Ok (GPT.set_train_mode false (tiny_gpt 1 0), [0%Z; 1%Z]).
Proof. reflexivity. Qed.

(** C2 as stated fails on the empty prompt: the forward pass has one row
    per position, so there is no last position to read.  It fails as well
    on an [end_token] beyond 64 bits, which the comparison with the token
    cannot take. *)
Lemma predict_empty_prompt_raises :
  (∀ m h x, length (@model_forward tiny_backend m h x) = length x)
  ∧ @GPT.predict tiny_backend [] 1%Z 0%Z (tiny_gpt 1 0) = Raise IndexError
  ∧ @GPT.predict tiny_backend [1%Z] 1%Z (2 ^ 64)%Z (tiny_gpt 1 0) = Raise OverflowError.
Proof. split; [intros; apply length_fmap|]. split; reflexivity. Qed.

(** ** The shifted targets of pretraining *)

Lemma length_slice_to_last {A} (row : list A) :
  length (slice_to_last row) = length row - 1.
Proof. unfold slice_to_last. rewrite length_take. lia. Qed.

Lemma length_slice_from_1 {A} (row : list A) :
  length (slice_from_1 row) = length row - 1.
Proof. unfold slice_from_1. by rewrite length_drop. Qed.

Lemma lookup_slice_to_last {A} (row : list A) (t : nat) :
  t < length row - 1 → slice_to_last row !! t = row !! t.
Proof. intros. unfold slice_to_last. by rewrite lookup_take_lt. Qed.

Lemma lookup_slice_from_1 {A} (row : list A) (t : nat) :
  slice_from_1 row !! t = row !! (t + 1).
Proof. unfold slice_from_1. rewrite lookup_drop. f_equal. lia. Qed.

(** C3.  For a batch whose sequences have length [L >= 2],
    [GPTPretrain.pretrain_step] derives [inputs] as positions [0..L-2] and
    [labels] as positions [1..L-1] of every sequence: both have length
    [L - 1], and [labels[t]] is the sequence's token at [t + 1]; the
    optimisation step is run on exactly these. *)
Theorem pretrain_shifted_targets `{!Backend} (data : list (list token)) (L : nat) :
  2 ≤ L →
  Forall (λ row, length row = L) data →
  (∀ self,
     GPTPretrain.params (GPTPretrain.pretrain_step data self)
     = (pretrain_update (GPTPretrain.model self) (GPTPretrain.params self)
          (GPTPretrain.optimizer self)
          (GPTPretrain.pretrain_inputs data) (GPTPretrain.pretrain_labels data)).1.1)
  ∧ length (GPTPretrain.pretrain_inputs data) = length data
  ∧ length (GPTPretrain.pretrain_labels data) = length data
  ∧ ∀ b row,
      data !! b = Some row →
      ∃ inputs labels,
        GPTPretrain.pretrain_inputs data !! b = Some inputs
        ∧ GPTPretrain.pretrain_labels data !! b = Some labels
        ∧ length inputs = L - 1
        ∧ length labels = L - 1
        ∧ ∀ t, t < L - 1 →
               inputs !! t = row !! t
               ∧ labels !! t = row !! (t + 1)
               ∧ is_Some (labels !! t).
Proof.
  intros HL Hlen. split; [|split; [|split]].
  - intros self. unfold GPTPretrain.pretrain_step.
    by destruct (pretrain_update _ _ _ _ _) as [[h o] loss].
  - apply length_fmap.
  - apply length_fmap.
  - intros b row Hb.
    assert (length row = L) as Hrow.
    { rewrite Forall_forall in Hlen. apply Hlen. by eapply list_elem_of_lookup_2. }
    exists (slice_to_last row), (slice_from_1 row).
    unfold GPTPretrain.pretrain_inputs, GPTPretrain.pretrain_labels.
    rewrite !list_lookup_fmap, Hb. simpl.
    rewrite length_slice_to_last, length_slice_from_1, Hrow.
    repeat split; try done.
    + apply lookup_slice_to_last. lia.
    + apply lookup_slice_from_1.
    + rewrite lookup_slice_from_1. apply lookup_lt_is_Some. lia.
Qed.

Lemma pretrain_shifted_targets_witness :
  GPTPretrain.pretrain_inputs [[5; 6; 7]%Z] = [[5; 6]%Z]
  ∧ GPTPretrain.pretrain_labels [[5; 6; 7]%Z] = [[6; 7]%Z]
  ∧ ∀ b row,
      [[5; 6; 7]%Z] !! b = Some row →
      ∃ inputs labels,
        GPTPretrain.pretrain_inputs [[5; 6; 7]%Z] !! b = Some inputs
        ∧ GPTPretrain.pretrain_labels [[5; 6; 7]%Z] !! b = Some labels
        ∧ length inputs = 3 - 1
        ∧ length labels = 3 - 1
        ∧ ∀ t, t < 3 - 1 →
               inputs !! t = row !! t
               ∧ labels !! t = row !! (t + 1)
               ∧ is_Some (labels !! t).
Proof.
  split; [reflexivity|]. split; [reflexivity|].
  apply (@pretrain_shifted_targets tiny_backend [[5; 6; 7]%Z] 3).
  - lia.
  - repeat constructor.
Defined.

(** ** Saving and loading a [state_dict] *)

Lemma elem_of_parameters (np : named_params) (n : string) (i : nat) :
  (n, i) ∈ np → i ∈ parameters np.
Proof. intros Hin. unfold parameters. apply list_elem_of_fmap. by exists (n, i). Qed.

Lemma elem_of_names (np : named_params) (n : string) (i : nat) :
  (n, i) ∈ np → n ∈ np.*1.
Proof. intros Hin. apply list_elem_of_fmap. by exists (n, i). Qed.

Lemma state_dict_lookup np (h : heap) n i p :
  NoDup np.*1 → (n, i) ∈ np → h !! i = Some p →
  state_dict np h !! n = Some (p_data p).
Proof.
  induction np as [|[n0 i0] np IH]; intros Hnd Hin Hp.
  - by apply elem_of_nil in Hin.
  - cbn in Hnd. apply NoDup_cons in Hnd as [Hn0 Hnd].
    cbn [state_dict foldr]. apply elem_of_cons in Hin as [[= -> ->]|Hin].
    + rewrite Hp. apply lookup_insert_eq.
    + assert (n ≠ n0) as Hne.
      { intros ->. apply Hn0. by eapply elem_of_names. }
      specialize (IH Hnd Hin Hp). fold (state_dict np h).
      destruct (h !! i0); [|done]. by rewrite lookup_insert_ne.
Qed.

Lemma state_dict_dom np (h : heap) :
  Forall (λ i, is_Some (h !! i)) (parameters np) →
  dom (state_dict np h) = list_to_set np.*1.
Proof.
  induction np as [|[n0 i0] np IH]; intros Hall; cbn [state_dict foldr].
  - cbn. apply dom_empty_L.
  - cbn in Hall. apply Forall_cons in Hall as [[p Hp] Hall].
    rewrite Hp. fold (state_dict np h). rewrite dom_insert_L, IH by done. done.
Qed.

Lemma copy_state_cons n i np sd (h : heap) :
  copy_state ((n, i) :: np) sd h
  = copy_state np sd match sd !! n with
                     | Some v => alter (set_data v) i h
                     | None => h
                     end.
Proof. done. Qed.

Lemma copy_state_lookup_notin np sd (h : heap) (i : nat) :
  i ∉ parameters np → copy_state np sd h !! i = h !! i.
Proof.
  unfold copy_state. revert h.
  induction np as [|[n j] np IH]; intros h Hi; cbn [foldl]; [done|].
  cbn in Hi. apply not_elem_of_cons in Hi as [Hne Hi].
  rewrite IH by done. destruct (sd !! n); [|done]. by rewrite lookup_alter_ne.
Qed.

Lemma copy_state_lookup np sd (h h' : heap) :
  (∀ n i, (n, i) ∈ np → sd !! n = p_data <$> h !! i) →
  ∀ i, i ∈ parameters np → is_Some (h !! i) → is_Some (h' !! i) →
       p_data <$> copy_state np sd h' !! i = p_data <$> h !! i.
Proof.
  revert h'. induction np as [|[n0 i0] np IH]; intros h' Hsd i Hi Hh Hh'.
  - by apply elem_of_nil in Hi.
  - rewrite copy_state_cons.
    assert (sd !! n0 = p_data <$> h !! i0) as Hn0.
    { apply Hsd. apply elem_of_cons. by left. }
    assert (∀ n j, (n, j) ∈ np → sd !! n = p_data <$> h !! j) as Hsd'.
    { intros n j Hin. apply Hsd. apply elem_of_cons. by right. }
    destruct (decide (i ∈ parameters np)) as [Hin|Hnin].
    + apply IH; [done..|].
      destruct (sd !! n0); [|done].
      destruct (decide (i = i0)) as [->|Hne].
      * rewrite lookup_alter_eq. by apply fmap_is_Some.
      * by rewrite lookup_alter_ne.
    + assert (i = i0) as ->.
      { cbn in Hi. apply elem_of_cons in Hi as [?|?]; done. }
      rewrite copy_state_lookup_notin by done.
      destruct Hh as [p Hp]. destruct Hh' as [p' Hp'].
      rewrite Hn0, Hp. simpl. rewrite lookup_alter_eq, Hp'. done.
Qed.

Lemma state_dict_ext np (h h' : heap) :
  (∀ i, i ∈ parameters np → p_data <$> h !! i = p_data <$> h' !! i) →
  state_dict np h = state_dict np h'.
Proof.
  induction np as [|[n0 i0] np IH]; intros Heq; [done|].
  cbn [state_dict foldr]. fold (state_dict np h) (state_dict np h').
  rewrite IH.
  - specialize (Heq i0). cbn in Heq.
    assert (p_data <$> h !! i0 = p_data <$> h' !! i0) as Hi0.
    { apply Heq. apply elem_of_cons. by left. }
    destruct (h !! i0), (h' !! i0); simplify_eq/=; congruence.
  - intros i Hi. apply Heq. cbn. apply elem_of_cons. by right.
Qed.

Lemma load_saved_state_dict np (h h' : heap) :
  wf_params np h → same_shapes np h h' →
  load_state_dict np (state_dict np h) h' = Ok (copy_state np (state_dict np h) h')
  ∧ ∀ i, i ∈ parameters np →
         p_data <$> copy_state np (state_dict np h) h' !! i = p_data <$> h !! i.
Proof.
  intros [Hnd Hall] Hsh.
  rewrite Forall_forall in Hall. unfold same_shapes in Hsh. rewrite Forall_forall in Hsh.
  assert (∀ n i, (n, i) ∈ np → state_dict np h !! n = p_data <$> h !! i) as Hsd.
  { intros n i Hin. destruct (Hall i) as [p Hp]; [by eapply elem_of_parameters|].
    rewrite Hp. simpl. by eapply state_dict_lookup. }
  split.
  - unfold load_state_dict.
    rewrite bool_decide_eq_true_2 by (apply state_dict_dom; by apply Forall_forall).
    assert (forallb (shape_matches (state_dict np h) h') np = true) as ->; [|done].
    apply forallb_forall. intros [n i] Hin%list_elem_of_In.
    unfold shape_matches. simpl. rewrite (Hsd n i Hin).
    specialize (Hsh i (elem_of_parameters _ _ _ Hin)).
    destruct (h !! i) as [p|], (h' !! i) as [p'|]; simpl in *; try done.
    apply bool_decide_eq_true_2. congruence.
  - intros i Hi. apply copy_state_lookup; [done|done|by apply Hall|].
    specialize (Hsh i Hi). destruct (Hall i Hi) as [p Hp]. rewrite Hp in Hsh.
    destruct (h' !! i); [done|discriminate].
Qed.

Lemma optimizer_load_saved (o o' : Optimizer) :
  length (opt_params o') = length (opt_params o) →
  ∃ o'', optimizer_load_state_dict (optimizer_state o) o' = Ok o''
         ∧ optimizer_state o'' = optimizer_state o
         ∧ opt_class o'' = opt_class o'
         ∧ opt_params o'' = opt_params o'.
Proof.
  intros Hlen. unfold optimizer_load_state_dict. simpl.
  rewrite bool_decide_eq_true_2 by done. eexists. split; [done|].
  unfold optimizer_state. simpl. by rewrite Hlen.
Qed.

Lemma GPTPretrain_saved_file path self w :
  fs (GPTPretrain.save_model (Some path) self w).2 !! path
  = Some {| model_state_dict :=
              state_dict (GPTModel_named_parameters (GPTPretrain.model self))
                (GPTPretrain.params self);
            optimizer_state_dict := optimizer_state (GPTPretrain.optimizer self);
            ck_epoch := GPTPretrain.epoch self |}.
Proof. simpl. apply lookup_insert_eq. Qed.

Lemma GPT_saved_file path self w :
  fs (GPT.save_model (Some path) self w).2 !! path
  = Some {| model_state_dict :=
              state_dict (GPTFineTune_named_parameters (GPT.model self)) (GPT.params self);
            optimizer_state_dict := optimizer_state (GPT.optimizer self);
            ck_epoch := GPT.epoch self |}.
Proof.
  unfold GPT.save_model. destruct (GPT.checkpoint self); simpl; apply lookup_insert_eq.
Qed.



(** On the small instance: a trainer whose values moved from 5 to 9 and
    whose epoch moved from 2 to 4 gets the saved ones back. *)
Example roundtrip_tiny :
  (λ r, match r with
        | Ok (self2, _) =>
            Some (p_data <$> GPTPretrain.params self2 !! 0, GPTPretrain.epoch self2)
        | Raise _ => None
        end)
    (GPTPretrain.load_model (Some "ckpt.pt") (tiny_pretrain 9 4)
       (GPTPretrain.save_model (Some "ckpt.pt") (tiny_pretrain 5 2) empty_world).2)
  = Some (Some (Tensor [2] [5; 5]%Z), 2%Z).
Proof. vm_compute. reflexivity. Qed.

(** ** The flag [training] and the missing file *)

Lemma load_pretrained_model_keeps_flag path self w self' w' :
  GPT.load_pretrained_model path self w = Ok (self', w') →
  GPT.training self' = GPT.training self ∧ GPT.checkpoint self' = GPT.checkpoint self.
Proof.
  unfold GPT.load_pretrained_model.
  destruct (torch_load path w) as [ckpt|]; simpl; [|done].
  destruct (load_state_dict _ _ _) as [h|]; simpl; [|done].
  by intros [= <- <-].
Qed.

Lemma GPT_load_model_existing_flag path p self w self' w' :
  checkpoint_target path (GPT.checkpoint self) = Some p →
  is_Some (fs w !! p) →
  GPT.load_model path self w = Ok (self', w') →
  w' = w ∧ GPT.training self' = true.
Proof.
  intros Ht Hex Hload.
  apply GPT_load_model_target in Hload as [-> Hload]. rewrite Ht in Hload.
  destruct Hload as (s1 & Hs1 & ->).
  apply GPT__load_model_existing in Hs1 as (ckpt & h & o & _ & _ & _ & ->); [|done].
  by destruct path.
Qed.

(** C5, on the code.  [GPT.load_pretrained_model] succeeds on the small
    instance and leaves [training] false, where [load_model] on a full
    checkpoint sets it; the [fit] that follows, given no [pretrained_path],
    loads the backbone again and raises. *)
Theorem load_pretrained_model_leaves_flag_false :
  ∃ self' w',
    GPT.load_pretrained_model (Some "pretrain.pt") (tiny_gpt 1 0) tiny_world
    = Ok (self', w')
    ∧ GPT.training self' = false
    ∧ @GPT.fit tiny_backend [[1; 2]%Z] [[0]%Z] None 1 1 1 false self' w'
      = Raise AttributeError
    ∧ ∃ full, GPT.load_model (Some "gpt.pt") (tiny_gpt 1 0) tiny_world = Ok (full, tiny_world)
              ∧ GPT.training full = true.
Proof.
  destruct (GPT.load_pretrained_model (Some "pretrain.pt") (tiny_gpt 1 0) tiny_world)
    as [[self' w']|e] eqn:E; [|vm_compute in E; discriminate E].
  exists self', w'. split; [done|].
  destruct (load_pretrained_model_keeps_flag _ _ _ _ _ E) as [Hflag Hck].
  split; [done|]. split.
  - unfold GPT.fit. rewrite Hck. simpl. rewrite Hflag. reflexivity.
  - destruct (GPT.load_model (Some "gpt.pt") (tiny_gpt 1 0) tiny_world)
      as [[full w1]|e] eqn:E1; [|vm_compute in E1; discriminate E1].
    destruct (GPT_load_model_existing_flag (Some "gpt.pt") "gpt.pt" (tiny_gpt 1 0)
                tiny_world full w1) as [Hw Ht]; [done|by vm_compute; eexists|done|].
    subst w1. eauto.
Qed.

Lemma GPTPretrain__load_model_missing path self w :
  fs w !! path = None → GPTPretrain.__load_model path self w = Ok self.
Proof. intros. unfold GPTPretrain.__load_model. by rewrite os_path_exists_false. Qed.

(** C6 as stated fails for [GPT.load_pretrained_model]: it opens the file
    without asking whether it exists. *)
Lemma load_pretrained_model_missing_raises :
  fs empty_world !! "missing.pt" = None
  ∧ GPT.load_pretrained_model (Some "missing.pt") (tiny_gpt 1 0) empty_world
    = Raise FileNotFoundError.
Proof. split; reflexivity. Qed.

(** C6, as the code has it.  [GPTPretrain.load_model] and [GPT.load_model],
    acting on a path whose file does not exist, do not raise: parameters,
    optimizer state, epoch counter and the flag [training] are the ones
    before, nothing is printed, and the path is the configured checkpoint
    afterwards.  [GPT.load_pretrained_model] raises on such a path. *)
Theorem load_missing_file (p : string) (w : World) :
  fs w !! p = None →
  (∀ path (self : GPTPretrain.t),
     checkpoint_target path (GPTPretrain.checkpoint self) = Some p →
     ∃ self',
       GPTPretrain.load_model path self w = Ok (self', w)
       ∧ GPTPretrain.params self' = GPTPretrain.params self
       ∧ GPTPretrain.optimizer self' = GPTPretrain.optimizer self
       ∧ GPTPretrain.epoch self' = GPTPretrain.epoch self
       ∧ GPTPretrain.checkpoint self' = Some p)
  ∧ (∀ path (self : GPT.t),
       checkpoint_target path (GPT.checkpoint self) = Some p →
       ∃ self',
         GPT.load_model path self w = Ok (self', w)
         ∧ GPT.params self' = GPT.params self
         ∧ GPT.optimizer self' = GPT.optimizer self
         ∧ GPT.epoch self' = GPT.epoch self
         ∧ GPT.training self' = GPT.training self
         ∧ GPT.checkpoint self' = Some p)
  ∧ (∀ self : GPT.t,
       GPT.load_pretrained_model (Some p) self w = Raise FileNotFoundError).
Proof.
  intros Hmiss. split; [|split].
  - intros path self Ht. unfold GPTPretrain.load_model.
    destruct path as [q|]; simpl in Ht.
    + injection Ht as ->. rewrite GPTPretrain__load_model_missing by done.
      simpl. eauto 10.
    + rewrite Ht. rewrite GPTPretrain__load_model_missing by done.
      simpl. eauto 10.
  - intros path self Ht. unfold GPT.load_model.
    destruct path as [q|]; simpl in Ht.
    + injection Ht as ->. rewrite GPT__load_model_missing by done.
      destruct (GPT.checkpoint self); simpl; eauto 10.
    + rewrite Ht. rewrite GPT__load_model_missing by done.
      simpl. eauto 10.
  - intros self. unfold GPT.load_pretrained_model. simpl. by rewrite Hmiss.
Qed.

Lemma load_missing_file_witness :
  (∃ self',
     GPTPretrain.load_model (Some "missing.pt") (tiny_pretrain 5 2) tiny_world
     = Ok (self', tiny_world)
     ∧ GPTPretrain.params self' = tiny_heap 5 true
     ∧ GPTPretrain.epoch self' = 2%Z)
  ∧ (∃ self',
       GPT.load_model (Some "missing.pt") (tiny_gpt 5 2) tiny_world = Ok (self', tiny_world)
       ∧ GPT.params self' = tiny_heap 5 true
       ∧ GPT.epoch self' = 2%Z)
  ∧ GPT.load_pretrained_model (Some "missing.pt") (tiny_gpt 5 2) tiny_world
    = Raise FileNotFoundError.
Proof.
  destruct (load_missing_file "missing.pt" tiny_world) as (Hpre & Hgpt & Hraise).
  - vm_compute. reflexivity.
  - split; [|split].
    + destruct (Hpre (Some "missing.pt") (tiny_pretrain 5 2)) as (s & H1 & H2 & _ & H3 & _);
        [reflexivity|]. exists s. auto.
    + destruct (Hgpt (Some "missing.pt") (tiny_gpt 5 2)) as (s & H1 & H2 & _ & H3 & _);
        [reflexivity|]. exists s. auto.
    + apply Hraise.
Defined.

(** ** [fit] without a backbone *)

(** C7, as the code has it.  [GPT.fit] on a trainer with no configured
    checkpoint and the flag [training] false, given no [pretrained_path],
    raises the [AttributeError] of [torch.load(None)], whatever the data
    and the settings: no training step is run and no state is returned. *)
Theorem fit_without_pretrained_raises `{!Backend} (self : GPT.t)
    (inputs : list (list token)) (labels : list (list Z))
    (bsz epochs mini_batch : Z) (shuffle_data : bool) (w : World) :
  GPT.checkpoint self = None →
  GPT.training self = false →
  GPT.fit inputs labels None bsz epochs mini_batch shuffle_data self w
  = Raise AttributeError.
Proof. intros Hck Hflag. unfold GPT.fit. rewrite Hck. simpl. by rewrite Hflag. Qed.

Lemma fit_without_pretrained_raises_witness :
  @GPT.fit tiny_backend [[1; 2]%Z] [[0]%Z] None 1 1 1 true (tiny_gpt 1 0) tiny_world
  = Raise AttributeError.
Proof.
  apply (@fit_without_pretrained_raises tiny_backend); reflexivity.
Defined.

(** C7 as stated fails on what is raised: the error of that [fit] is the
    one [torch.load] raises on [None], reached through
    [load_pretrained_model], and not an error about the configuration. *)
Lemma fit_error_is_not_configuration_error :
  ∃ e,
    @GPT.fit tiny_backend [[1; 2]%Z] [[0]%Z] None 1 1 1 true (tiny_gpt 1 0) tiny_world
    = Raise e
    ∧ GPT.load_pretrained_model None (tiny_gpt 1 0) tiny_world = Raise e
    ∧ torch_load None tiny_world = Raise e
    ∧ ¬ configuration_error e.
Proof.
  exists AttributeError. split; [reflexivity|]. split; [reflexivity|].
  split; [reflexivity|]. by intros [?|?].
Qed.

(** A [GPT] constructed without a checkpoint is in that state. *)
Lemma GPT_init_unconfigured m h opt lr w :
  ∃ self, GPT.__init__ m h opt lr None w = Ok (self, w)
          ∧ GPT.checkpoint self = None ∧ GPT.training self = false.
Proof. eexists. split; [reflexivity|done]. Qed.

(** ** Which path a save or a load uses *)

Lemma GPT_set_checkpoint_id (self : GPT.t) c :
  GPT.checkpoint self = c → GPT.set_checkpoint c self = self.
Proof. destruct self. simpl. by intros <-. Qed.

Lemma GPTPretrain_set_checkpoint_id (self : GPTPretrain.t) c :
  GPTPretrain.checkpoint self = c → GPTPretrain.set_checkpoint c self = self.
Proof. destruct self. simpl. by intros <-. Qed.

Lemma GPT__load_model_checkpoint p self w self' :
  GPT.__load_model p self w = Ok self' → GPT.checkpoint self' = GPT.checkpoint self.
Proof.
  unfold GPT.__load_model. destruct (os_path_exists p w); [|by intros [= <-]].
  destruct (torch_load (Some p) w) as [ckpt|]; simpl; [|done].
  destruct (load_state_dict _ _ _) as [h|]; simpl; [|done].
  destruct (optimizer_load_state_dict _ _) as [o|]; simpl; [|done].
  by intros [= <-].
Qed.

Lemma GPTPretrain__load_model_checkpoint p self w self' :
  GPTPretrain.__load_model p self w = Ok self' →
  GPTPretrain.checkpoint self' = GPTPretrain.checkpoint self.
Proof.
  unfold GPTPretrain.__load_model. destruct (os_path_exists p w); [|by intros [= <-]].
  destruct (torch_load (Some p) w) as [ckpt|]; simpl; [|done].
  destruct (load_state_dict _ _ _) as [h|]; simpl; [|done].
  destruct (optimizer_load_state_dict _ _) as [o|]; simpl; [|done].
  by intros [= <-].
Qed.

(** C8 as stated fails for [GPT]: with no path and no configured
    checkpoint, [GPT.save_model] and [GPT.load_model] print nothing, where
    [GPTPretrain]'s print the report. *)
Lemma GPT_unconfigured_is_silent :
  GPT.save_model None (tiny_gpt 1 0) empty_world = (tiny_gpt 1 0, empty_world)
  ∧ GPT.load_model None (tiny_gpt 1 0) empty_world = Ok (tiny_gpt 1 0, empty_world)
  ∧ ¬ In CheckpointNotFound (stdout (GPT.save_model None (tiny_gpt 1 0) empty_world).2)
  ∧ stdout (GPTPretrain.save_model None (tiny_pretrain 1 0) empty_world).2
    = [CheckpointNotFound].
Proof.
  split; [reflexivity|]. split; [reflexivity|]. split; [|reflexivity].
  simpl. tauto.
Qed.

(** C8, as the code has it.  In [GPT] as in [GPTPretrain], [save_model] and
    [load_model] act on the path given, else on the configured checkpoint,
    and that path is the configured checkpoint afterwards; with neither,
    nothing is saved or loaded and the trainer is unchanged: [GPTPretrain]
    then prints the report, [GPT] prints nothing. *)
Theorem path_override_semantics (w : World) :
  (∀ (self : GPT.t) path p,
     checkpoint_target path (GPT.checkpoint self) = Some p →
     GPT.save_model path self w
     = (GPT.set_checkpoint (Some p) self, GPT.__save_model p self w)
     ∧ GPT.load_model path self w
       = (self' ← GPT.__load_model p self w; Ok (GPT.set_checkpoint (Some p) self', w)))
  ∧ (∀ (self : GPTPretrain.t) path p,
       checkpoint_target path (GPTPretrain.checkpoint self) = Some p →
       GPTPretrain.save_model path self w
       = (GPTPretrain.set_checkpoint (Some p) self, GPTPretrain.__save_model p self w)
       ∧ GPTPretrain.load_model path self w
         = (self' ← GPTPretrain.__load_model p self w;
            Ok (GPTPretrain.set_checkpoint (Some p) self', w)))
  ∧ (∀ self : GPT.t,
       GPT.checkpoint self = None →
       GPT.save_model None self w = (self, w)
       ∧ GPT.load_model None self w = Ok (self, w))
  ∧ (∀ self : GPTPretrain.t,
       GPTPretrain.checkpoint self = None →
       GPTPretrain.save_model None self w = (self, print CheckpointNotFound w)
       ∧ GPTPretrain.load_model None self w = Ok (self, print CheckpointNotFound w)).
Proof.
  split; [|split; [|split]].
  - intros self path p Ht. unfold GPT.save_model, GPT.load_model.
    destruct path as [q|]; simpl in Ht.
    + injection Ht as ->. by destruct (GPT.checkpoint self).
    + rewrite Ht. rewrite GPT_set_checkpoint_id by done. split; [done|].
      destruct (GPT.__load_model p self w) as [self'|] eqn:E; simpl; [|done].
      apply GPT__load_model_checkpoint in E.
      rewrite GPT_set_checkpoint_id; [done|congruence].
  - intros self path p Ht. unfold GPTPretrain.save_model, GPTPretrain.load_model.
    destruct path as [q|]; simpl in Ht.
    + by injection Ht as ->.
    + rewrite Ht. rewrite GPTPretrain_set_checkpoint_id by done. split; [done|].
      destruct (GPTPretrain.__load_model p self w) as [self'|] eqn:E; simpl; [|done].
      apply GPTPretrain__load_model_checkpoint in E.
      rewrite GPTPretrain_set_checkpoint_id; [done|congruence].
  - intros self Hck. unfold GPT.save_model, GPT.load_model. by rewrite Hck.
  - intros self Hck. unfold GPTPretrain.save_model, GPTPretrain.load_model.
    by rewrite Hck.
Qed.

Lemma path_override_semantics_witness :
  GPT.save_model (Some "a.pt") (GPT.set_checkpoint (Some "b.pt") (tiny_gpt 1 0)) empty_world
  = (GPT.set_checkpoint (Some "a.pt") (tiny_gpt 1 0),
     GPT.__save_model "a.pt" (GPT.set_checkpoint (Some "b.pt") (tiny_gpt 1 0)) empty_world)
  ∧ GPTPretrain.save_model None
      (GPTPretrain.set_checkpoint (Some "b.pt") (tiny_pretrain 1 0)) empty_world
    = (GPTPretrain.set_checkpoint (Some "b.pt") (tiny_pretrain 1 0),
       GPTPretrain.__save_model "b.pt"
         (GPTPretrain.set_checkpoint (Some "b.pt") (tiny_pretrain 1 0)) empty_world)
  ∧ GPT.load_model None (tiny_gpt 1 0) empty_world = Ok (tiny_gpt 1 0, empty_world)
  ∧ GPTPretrain.load_model None (tiny_pretrain 1 0) empty_world
    = Ok (tiny_pretrain 1 0, print CheckpointNotFound empty_world).
Proof.
  destruct (path_override_semantics empty_world) as (Hgpt & Hpre & Hnone & Hnone').
  split; [|split; [|split]].
  - apply (Hgpt (GPT.set_checkpoint (Some "b.pt") (tiny_gpt 1 0)) (Some "a.pt") "a.pt").
    reflexivity.
  - apply (Hpre (GPTPretrain.set_checkpoint (Some "b.pt") (tiny_pretrain 1 0)) None "b.pt").
    reflexivity.
  - apply (Hnone (tiny_gpt 1 0)). reflexivity.
  - apply (Hnone' (tiny_pretrain 1 0)). reflexivity.
Defined.

(** ** The optimizer a trainer is built with *)

Lemma optimizer_load_state_dict_class sd o o' :
  optimizer_load_state_dict sd o = Ok o' →
  opt_class o' = opt_class o ∧ opt_params o' = opt_params o.
Proof.
  unfold optimizer_load_state_dict. case_bool_decide; [|done]. by intros [= <-].
Qed.

Lemma GPT__load_model_optimizer p self w self' :
  GPT.__load_model p self w = Ok self' →
  GPT.model self' = GPT.model self
  ∧ opt_class (GPT.optimizer self') = opt_class (GPT.optimizer self)
  ∧ opt_params (GPT.optimizer self') = opt_params (GPT.optimizer self).
Proof.
  unfold GPT.__load_model. destruct (os_path_exists p w); [|by intros [= <-]].
  destruct (torch_load (Some p) w) as [ckpt|]; simpl; [|done].
  destruct (load_state_dict _ _ _) as [h|]; simpl; [|done].
  destruct (optimizer_load_state_dict _ _) as [o|] eqn:Ho; simpl; [|done].
  intros [= <-]. simpl. apply optimizer_load_state_dict_class in Ho. tauto.
Qed.

Lemma GPTPretrain__load_model_optimizer p self w self' :
  GPTPretrain.__load_model p self w = Ok self' →
  GPTPretrain.model self' = GPTPretrain.model self
  ∧ opt_class (GPTPretrain.optimizer self') = opt_class (GPTPretrain.optimizer self)
  ∧ opt_params (GPTPretrain.optimizer self') = opt_params (GPTPretrain.optimizer self).
Proof.
  unfold GPTPretrain.__load_model. destruct (os_path_exists p w); [|by intros [= <-]].
  destruct (torch_load (Some p) w) as [ckpt|]; simpl; [|done].
  destruct (load_state_dict _ _ _) as [h|]; simpl; [|done].
  destruct (optimizer_load_state_dict _ _) as [o|] eqn:Ho; simpl; [|done].
  intros [= <-]. simpl. apply optimizer_load_state_dict_class in Ho. tauto.
Qed.

(** C10.  [GPT.__init__] does not look at its [optimizer] argument: two
    constructions that differ in it alone give the same result, and the
    optimizer of a constructed [GPT] is an Adam over the parameters of the
    fine-tune model.  [GPTPretrain.__init__] builds the class it is given,
    over the parameters of its model. *)
Theorem GPT_init_ignores_optimizer (m : GPTFineTune) (h : heap)
    (learning_rate : float) (ckpt : option string) (w : World) :
  (∀ opt opt',
     GPT.__init__ m h opt learning_rate ckpt w = GPT.__init__ m h opt' learning_rate ckpt w)
  ∧ (∀ opt self w',
       GPT.__init__ m h opt learning_rate ckpt w = Ok (self, w') →
       opt_class (GPT.optimizer self) = Adam
       ∧ opt_params (GPT.optimizer self) = parameters (GPTFineTune_named_parameters m))
  ∧ (∀ (m0 : GPTModel) opt self w',
       GPTPretrain.__init__ m0 h learning_rate opt ckpt w = Ok (self, w') →
       opt_class (GPTPretrain.optimizer self) = opt
       ∧ opt_params (GPTPretrain.optimizer self)
         = parameters (GPTModel_named_parameters m0)).
Proof.
  split; [done|]. split.
  - intros opt self w'. unfold GPT.__init__.
    destruct ckpt as [c|]; [|by intros [= <- <-]].
    unfold GPT.load_model. simpl.
    destruct (GPT.__load_model c _ w) as [s1|] eqn:E; simpl; [|done].
    intros [= <- <-]. apply GPT__load_model_optimizer in E as (_ & Hc & Hp).
    simpl in *. by rewrite Hc, Hp.
  - intros m0 opt self w'. unfold GPTPretrain.__init__.
    destruct ckpt as [c|]; [|by intros [= <- <-]].
    unfold GPTPretrain.load_model.
    destruct (GPTPretrain.__load_model c _ w) as [s1|] eqn:E; simpl; [|done].
    intros [= <- <-]. apply GPTPretrain__load_model_optimizer in E as (_ & Hc & Hp).
    simpl in *. by rewrite Hc, Hp.
Qed.

Lemma GPT_init_ignores_optimizer_witness :
  (∃ self w',
     GPT.__init__ tiny_model (tiny_heap 1 true) SGD 6%Z (Some "gpt.pt") tiny_world
     = Ok (self, w')
     ∧ opt_class (GPT.optimizer self) = Adam
     ∧ opt_params (GPT.optimizer self) = [0; 1; 2; 3; 4])
  ∧ (∃ self w',
       GPTPretrain.__init__ tiny_backbone (tiny_heap 1 true) 6%Z SGD (Some "pretrain.pt")
         tiny_world = Ok (self, w')
       ∧ opt_class (GPTPretrain.optimizer self) = SGD
       ∧ opt_params (GPTPretrain.optimizer self) = [0; 1; 2; 3]).
Proof.
  destruct (GPT_init_ignores_optimizer tiny_model (tiny_heap 1 true) 6%Z (Some "gpt.pt")
              tiny_world) as (_ & Hgpt & _).
  destruct (GPT_init_ignores_optimizer tiny_model (tiny_heap 1 true) 6%Z
              (Some "pretrain.pt") tiny_world) as (_ & _ & Hpre).
  split.
  - destruct (GPT.__init__ tiny_model (tiny_heap 1 true) SGD 6%Z (Some "gpt.pt") tiny_world)
      as [[self w']|e] eqn:E; [|vm_compute in E; discriminate E].
    exists self, w'. split; [done|]. apply (Hgpt SGD self w' E).
  - destruct (GPTPretrain.__init__ tiny_backbone (tiny_heap 1 true) 6%Z SGD
                (Some "pretrain.pt") tiny_world)
      as [[self w']|e] eqn:E; [|vm_compute in E; discriminate E].
    exists self, w'. split; [done|]. apply (Hpre tiny_backbone SGD self w' E).
Defined.

(** ** Counting the windows *)

Lemma ceil_div_bounds (T M : Z) :
  (1 ≤ M)%Z → ((ceil_div T M - 1) * M < T ≤ ceil_div T M * M)%Z.
Proof.
  intros HM. unfold ceil_div.
  pose proof (Z.div_mod (T + M - 1) M ltac:(lia)) as Hdm.
  pose proof (Z.mod_pos_bound (T + M - 1) M ltac:(lia)) as Hb.
  nia.
Qed.

Lemma div_succ (n M : Z) :
  (1 ≤ M)%Z → (0 ≤ n)%Z →
  ((n + 1) `div` M = n `div` M + if (n `mod` M =? M - 1) then 1 else 0)%Z.
Proof.
  intros HM Hn.
  pose proof (Z.div_mod n M ltac:(lia)) as Hdm.
  pose proof (Z.mod_pos_bound n M ltac:(lia)) as Hb.
  destruct (Z.eqb_spec (n `mod` M) (M - 1)) as [He|He].
  - symmetry. apply (Z.div_unique _ _ _ 0); nia.
  - symmetry. apply (Z.div_unique _ _ _ (n `mod` M + 1)); nia.
Qed.

Lemma count_due_snoc M T start n :
  count_due M T start (S n)
  = count_due M T start n
    + if window_closes (start + Z.of_nat n) M T then 1 else 0.
Proof.
  revert start. induction n as [|n IH]; intros start.
  - simpl. rewrite Z.add_0_r. lia.
  - change (count_due M T start (S (S n)))
      with ((if window_closes start M T then 1 else 0)
            + count_due M T (start + 1) (S n)).
    rewrite IH. simpl.
    replace (start + 1 + Z.of_nat n)%Z with (start + Z.of_nat (S n))%Z by lia. lia.
Qed.

Lemma count_due_before_last M T n :
  (1 ≤ M)%Z → (Z.of_nat n ≤ T - 1)%Z →
  Z.of_nat (count_due M T 0 n) = (Z.of_nat n `div` M)%Z.
Proof.
  intros HM. induction n as [|n IH]; intros Hn.
  - simpl. by rewrite Z.div_0_l by lia.
  - rewrite count_due_snoc, Nat2Z.inj_add, IH by lia.
    replace (Z.of_nat (S n)) with (Z.of_nat n + 1)%Z by lia.
    rewrite div_succ by lia. unfold window_closes. rewrite Z.add_0_l.
    rewrite (proj2 (Z.eqb_neq (Z.of_nat n) (T - 1))) by lia.
    rewrite orb_false_r. by destruct (_ =? _)%Z.
Qed.

Lemma count_due_epoch M n :
  (1 ≤ M)%Z →
  Z.of_nat (count_due M (Z.of_nat n) 0 n) = ceil_div (Z.of_nat n) M.
Proof.
  intros HM. unfold ceil_div. destruct n as [|n].
  - simpl. rewrite Z.div_small; lia.
  - rewrite count_due_snoc, Nat2Z.inj_add, count_due_before_last by lia.
    unfold window_closes. rewrite Z.add_0_l.
    rewrite (proj2 (Z.eqb_eq (Z.of_nat n) (Z.of_nat (S n) - 1))) by lia.
    rewrite orb_true_r.
    replace (Z.of_nat (S n) + M - 1)%Z with (Z.of_nat n + 1 * M)%Z by lia.
    rewrite Z.div_add by lia. lia.
Qed.

Lemma count_reports_app out out' :
  count_reports (out ++ out') = count_reports out + count_reports out'.
Proof. unfold count_reports. by rewrite filter_app, length_app. Qed.

Lemma count_reports_progress line :
  is_progress line = true → count_reports [line] = 1.
Proof.
  intros Hl. unfold count_reports. by rewrite filter_cons_True.
Qed.

Lemma for_each_app {S A} (body : S → A → result S) (s : S) (l1 l2 : list A) :
  for_each body s (l1 ++ l2) = (s' ← for_each body s l1; for_each body s' l2).
Proof.
  revert s. induction l1 as [|a l1 IH]; intros s; simpl; [done|].
  destruct (body s a) as [s'|]; simpl; [apply IH|done].
Qed.

Lemma enumerate_lookup {A} (l : list A) (start : Z) (k : nat) :
  enumerate start l !! k = (λ a, ((start + Z.of_nat k)%Z, a)) <$> (l !! k).
Proof.
  revert start k. induction l as [|a l IH]; intros start [|k]; simpl; try done.
  - by rewrite Z.add_0_r.
  - rewrite IH. destruct (l !! k); simpl; [|done]. do 2 f_equal. lia.
Qed.

(** The inner loop of a [fit], over any trainer state: a body that always
    returns, prints one report and leaves the window counters [zeroed] when
    the window closes, and prints nothing otherwise. *)
Section Windowed.
Context {St B : Type}.
Variable body : St * World → Z * B → result (St * World).
Variables M T : Z.
Variable zeroed : St → Prop.

Hypothesis body_step :
  ∀ st index b,
    ∃ st', body st (index, b) = Ok st' ∧ step_reports zeroed M T st st' index.

Lemma windowed_loop_count (bs : list B) :
  ∀ start st,
    ∃ st', for_each body st (enumerate start bs) = Ok st'
           ∧ count_reports (stdout st'.2)
             = count_reports (stdout st.2) + count_due M T start (length bs).
Proof using body_step.
  induction bs as [|b bs IH]; intros start st; simpl.
  - exists st. split; [done|lia].
  - destruct (body_step st start b) as (st1 & -> & Hstep). simpl.
    destruct (IH (start + 1)%Z st1) as (st' & -> & Hcount).
    exists st'. split; [done|]. rewrite Hcount.
    unfold step_reports in Hstep. destruct (window_closes start M T).
    + destruct Hstep as [(line & Hline & ->) _].
      rewrite count_reports_app, (count_reports_progress line) by done. lia.
    + rewrite Hstep. lia.
Qed.

Lemma windowed_loop_step (bs : list B) (st : St * World) (k : nat) (b : B) :
  bs !! k = Some b →
  ∃ st0 st1,
    for_each body st (take k (enumerate 0 bs)) = Ok st0
    ∧ for_each body st (take (S k) (enumerate 0 bs)) = Ok st1
    ∧ step_reports zeroed M T st0 st1 (Z.of_nat k).
Proof using body_step.
  intros Hk.
  assert (enumerate 0 bs !! k = Some (Z.of_nat k, b)) as Hek.
  { rewrite enumerate_lookup, Hk. simpl. by rewrite Z.add_0_l. }
  assert (∀ l, ∃ st', for_each body st l = Ok st') as Htotal.
  { intros l. revert st. induction l as [|[i a] l IH]; intros st; simpl; [eauto|].
    destruct (body_step st i a) as (st1 & -> & _). simpl. apply IH. }
  destruct (Htotal (take k (enumerate 0 bs))) as [st0 Hst0].
  destruct (body_step st0 (Z.of_nat k) b) as (st1 & Hst1 & Hstep).
  exists st0, st1. split; [done|]. split; [|done].
  rewrite (take_S_r _ _ _ Hek), for_each_app, Hst0. simpl. by rewrite Hst1.
Qed.
End Windowed.

Section Reports.
Context `{!Backend}.

Lemma report_due_Ok index M T :
  (M ≠ 0)%Z → report_due index M T = Ok (window_closes index M T).
Proof. intros HM. unfold report_due. by rewrite bool_decide_eq_false_2. Qed.

Lemma GPTPretrain_fit_batch_step M T :
  (M ≠ 0)%Z →
  ∀ st index b,
    ∃ st', GPTPretrain.fit_batch M T st (index, b) = Ok st'
           ∧ step_reports
               (λ s, GPTPretrain.entropy_loss s = f0 ∧ GPTPretrain.perplexity s = f0)
               M T st st' index.
Proof.
  intros HM [self w] index b. unfold GPTPretrain.fit_batch, step_reports.
  rewrite report_due_Ok by done. simpl.
  destruct (window_closes index M T); eexists; (split; [reflexivity|]); simpl; [|done].
  split; [|done]. eexists. split; [|reflexivity]. done.
Qed.

Lemma GPT_fit_batch_step M T :
  (M ≠ 0)%Z →
  ∀ st index b,
    ∃ st', GPT.fit_batch M T st (index, b) = Ok st'
           ∧ step_reports (λ s, GPT.entropy_loss s = f0) M T st st' index.
Proof.
  intros HM [self w] index b. unfold GPT.fit_batch, step_reports.
  rewrite report_due_Ok by done. simpl.
  destruct (window_closes index M T); eexists; (split; [reflexivity|]); simpl; [|done].
  split; [|done]. eexists. split; [|reflexivity]. done.
Qed.

End Reports.

(** On the small instance, five batches in windows of two: reports after
    batches 2, 4 and 5, the last window holding one batch. *)
Example windowed_reports_tiny :
  (λ r, match r with
        | Ok (_, w) => stdout w
        | Raise _ => []
        end)
    (for_each (@GPTPretrain.fit_batch tiny_backend 2 5) (tiny_pretrain 1 0, empty_world)
       (enumerate 0 (replicate 5 [[1; 2; 3]%Z])))
  = [PretrainProgress 1 2 1%Z 1%Z; PretrainProgress 1 4 1%Z 1%Z;
     PretrainProgress 1 5 0%Z 0%Z].
Proof. vm_compute. reflexivity. Qed.

(** ** The loader and a whole [fit] *)

Lemma chunks_fuel_length {A} (fuel n : nat) (l : list A) :
  1 ≤ n → length l ≤ fuel →
  Z.of_nat (length (chunks_fuel fuel n l)) = ceil_div (Z.of_nat (length l)) (Z.of_nat n).
Proof.
  intros Hn. revert l. induction fuel as [|fuel IH]; intros l Hl.
  - destruct l; [|simpl in Hl; lia]. simpl. unfold ceil_div.
    rewrite Z.div_small; lia.
  - destruct l as [|a l'] eqn:El.
    + simpl. unfold ceil_div. rewrite Z.div_small; lia.
    + rewrite <-El in *. assert (1 ≤ length l) as Hpos by (rewrite El; simpl; lia).
      assert (chunks_fuel (S fuel) n l = take n l :: chunks_fuel fuel n (drop n l)) as ->.
      { by rewrite El. }
      cbn [length]. rewrite Nat2Z.inj_succ, IH by (rewrite length_drop; lia).
      rewrite length_drop. unfold ceil_div.
      destruct (decide (n ≤ length l)) as [Hle|Hgt].
      * replace (Z.of_nat (length l) + Z.of_nat n - 1)%Z
          with (Z.of_nat (length l - n) + Z.of_nat n - 1 + 1 * Z.of_nat n)%Z by lia.
        rewrite Z.div_add by lia. lia.
      * replace (length l - n) with 0 by lia.
        rewrite (Z.div_small (Z.of_nat 0 + _ - 1)) by lia.
        assert (((Z.of_nat (length l) + Z.of_nat n - 1) `div` Z.of_nat n)%Z = 1%Z) as ->;
          [|lia].
        symmetry. apply (Z.div_unique _ _ 1 (Z.of_nat (length l) - 1)); lia.
Qed.

Lemma omap_lookup_seq_from {A} (pre l : list A) :
  omap (λ i, (pre ++ l) !! i) (seq (length pre) (length l)) = l.
Proof.
  revert pre. induction l as [|a l IH]; intros pre; [done|].
  cbn [length seq omap list_omap]. rewrite list_lookup_middle by done.
  f_equal. specialize (IH (pre ++ [a])).
  rewrite <-app_assoc, length_app, Nat.add_1_r in IH. exact IH.
Qed.

Lemma omap_lookup_seq {A} (l : list A) :
  omap (λ i, l !! i) (seq 0 (length l)) = l.
Proof. apply (omap_lookup_seq_from [] l). Qed.

(** Without shuffling, a pass over the loader has [len(dataloader)]
    batches. *)
Lemma DataLoader_iter_length `{!Backend} {A} (dl : DataLoader A) (w : World) :
  (1 ≤ batch_size dl)%Z → shuffle dl = false →
  Z.of_nat (length (DataLoader_iter dl w).1) = DataLoader_len dl.
Proof.
  intros Hb Hs. unfold DataLoader_iter, DataLoader_len. rewrite Hs. simpl.
  rewrite omap_lookup_seq. unfold chunks.
  rewrite chunks_fuel_length by lia. unfold ceil_div. by rewrite Z2Nat.id by lia.
Qed.

(** On the small instance, [GPTPretrain.fit] over five sequences, one per
    batch, in windows of two and for two epochs. *)
Example fit_tiny :
  (λ r, match r with
        | Ok (self, w) => Some (GPTPretrain.epoch self, stdout w)
        | Raise _ => None
        end)
    (@GPTPretrain.fit tiny_backend (replicate 5 [1; 2; 3]%Z) 1 2 true 2
       (tiny_pretrain 1 0) empty_world)
  = Some (2%Z,
          [Summary;
           PretrainProgress 1 2 1%Z 1%Z; PretrainProgress 1 4 1%Z 1%Z;
           PretrainProgress 1 5 0%Z 0%Z;
           PretrainProgress 2 2 1%Z 1%Z; PretrainProgress 2 4 1%Z 1%Z;
           PretrainProgress 2 5 0%Z 0%Z]).
Proof. vm_compute. reflexivity. Qed.

(** An epoch of [GPT.fit] whose pass has [len(dataloader)] batches prints
    [ceil(T / M)] reports and advances the epoch counter. *)
Lemma GPT_fit_epoch_reports `{!Backend} (dl : DataLoader (list token * list Z))
    (M : Z) (self : GPT.t) (w : World) :
  (1 ≤ M)%Z →
  Z.of_nat (length (DataLoader_iter dl w).1) = DataLoader_len dl →
  ∃ self' w',
    GPT.fit_epoch dl M (self, w) = Ok (self', w')
    ∧ Z.of_nat (count_reports (stdout w'))
      = (Z.of_nat (count_reports (stdout w)) + ceil_div (DataLoader_len dl) M)%Z.
Proof.
  intros HM Hlen. unfold GPT.fit_epoch.
  assert (stdout (DataLoader_iter dl w).2 = stdout w) as Hout.
  { unfold DataLoader_iter. simpl. by destruct (shuffle dl). }
  destruct (DataLoader_iter dl w) as [bs w1]. simpl in *. rewrite <-Hlen.
  pose proof (GPT_fit_batch_step M (Z.of_nat (length bs)) ltac:(lia)) as Hstep.
  destruct (windowed_loop_count _ _ _ _ Hstep bs 0%Z (self, w1))
    as ([self' w'] & -> & Hcount).
  simpl in *. eexists _, _. split; [reflexivity|].
  rewrite Hcount, Nat2Z.inj_add, count_due_epoch, Hout by done. done.
Qed.

(** The same for [GPTPretrain.fit], whose epoch must have a batch for
    [index] to be bound. *)
Lemma GPTPretrain_fit_epoch_reports `{!Backend} (dl : DataLoader (list token))
    (M : Z) (self : GPTPretrain.t) (w : World) (index : option Z) :
  (1 ≤ M)%Z →
  (DataLoader_iter dl w).1 ≠ [] →
  ∃ self' w' index',
    GPTPretrain.fit_epoch dl M (Z.of_nat (length (DataLoader_iter dl w).1))
      (self, w, index) = Ok (self', w', index')
    ∧ Z.of_nat (count_reports (stdout w'))
      = (Z.of_nat (count_reports (stdout w))
         + ceil_div (Z.of_nat (length (DataLoader_iter dl w).1)) M)%Z.
Proof.
  intros HM Hne. unfold GPTPretrain.fit_epoch.
  assert (stdout (DataLoader_iter dl w).2 = stdout w) as Hout.
  { unfold DataLoader_iter. simpl. by destruct (shuffle dl). }
  destruct (DataLoader_iter dl w) as [bs w1]. simpl in *.
  pose proof (GPTPretrain_fit_batch_step M (Z.of_nat (length bs)) ltac:(lia)) as Hstep.
  destruct (windowed_loop_count _ _ _ _ Hstep bs 0%Z (self, w1))
    as ([self' w'] & -> & Hcount).
  simpl in *. destruct bs as [|b bs]; [done|].
  eexists _, _, _. split; [reflexivity|].
  rewrite Hcount, Nat2Z.inj_add, count_due_epoch, Hout by done. done.
Qed.

(** * Further properties of the code *)

(** ** Decoding: what [predict] returns *)

Section DecodingMore.
Context `{!Backend}.

Lemma predict_loop_greedy (self : GPT.t) (end_token : token) (n : nat) :
  ∀ data out,
    GPT.predict_loop n end_token self data = Ok out →
    ∃ suffix,
      out = data ++ suffix
      ∧ length suffix ≤ n
      ∧ Forall (λ tok, tok ≠ end_token) suffix
      ∧ greedy_run (length suffix) self data = Ok out
      ∧ (length suffix = n ∨ GPT.__predict_token out self = Ok end_token)
      ∧ ∀ j dj, j < length suffix → greedy_run j self data = Ok dj →
                 GPT.__predict_token dj self ≠ Ok end_token.
Proof.
  induction n as [|n IH]; intros data out; simpl.
  - intros [= <-]. exists []. rewrite app_nil_r. simpl.
    repeat split; auto. intros j dj Hj. lia.
  - destruct (GPT.__predict_token data self) as [tok|] eqn:Htok; simpl; [|done].
    destruct (GPT.token_equals tok end_token) as [stop|] eqn:Hstop'; simpl; [|done].
    apply token_equals_Ok in Hstop'. subst stop.
    case_bool_decide as Hend.
    + intros [= <-]. exists []. rewrite app_nil_r. simpl.
      repeat split; auto; [lia|right; congruence|]. intros j dj Hj. lia.
    + intros Hloop. apply IH in Hloop
        as (suffix & -> & Hlen & Hne & Hrun & Hstop & Hfirst).
      exists (tok :: suffix). rewrite <-app_assoc. simpl.
      split; [done|]. split; [lia|]. split; [by constructor|].
      split; [rewrite Htok; simpl; by rewrite Hrun, <-app_assoc|]. split.
      * destruct Hstop as [Hstop|Hstop]; [left; lia|right].
        by rewrite <-app_assoc in Hstop.
      * intros [|j] dj Hj; simpl.
        -- intros [= <-]. rewrite Htok. congruence.
        -- rewrite Htok. simpl. apply Hfirst. lia.
Qed.

Lemma predict_loop_add (self : GPT.t) (end_token : token) (n1 n2 : nat) :
  ∀ data,
    GPT.predict_loop (n1 + n2) end_token self data
    = GPT.predict_loop n1 end_token self data ≫= GPT.predict_loop n2 end_token self.
Proof.
  induction n1 as [|n1 IH]; intros data; [done|]. simpl.
  destruct (GPT.__predict_token data self) as [tok|] eqn:Htok; simpl; [|done].
  destruct (GPT.token_equals tok end_token) as [[|]|] eqn:Hstop; simpl;
    [|apply IH|done].
  destruct n2 as [|n2]; simpl; [done|].
  rewrite Htok. simpl. by rewrite Hstop.
Qed.

End DecodingMore.

(** X1.  Whatever [GPT.predict] returns is the prompt followed by the greedy
    tokens of the first [k] iterations, for some [k <= max(0, N)]: none of
    the tokens it appended is [end_token], no earlier iteration chose
    [end_token], and it stopped either because the limit was reached or
    because the next greedy token is [end_token].  The trainer it leaves
    differs from the one it got in the evaluation mode alone. *)
Theorem predict_is_greedy `{!Backend} (self self' : GPT.t) (data out : list token)
    (limit_tokens : Z) (end_token : token) :
  GPT.predict data limit_tokens end_token self = Ok (self', out) →
  self' = GPT.set_train_mode false self
  ∧ ∃ suffix,
      out = data ++ suffix
      ∧ (Z.of_nat (length suffix) ≤ Z.max 0 limit_tokens)%Z
      ∧ Forall (λ tok, tok ≠ end_token) suffix
      ∧ greedy_run (length suffix) self data = Ok out
      ∧ (Z.of_nat (length suffix) = Z.max 0 limit_tokens
         ∨ GPT.__predict_token out self = Ok end_token)
      ∧ ∀ j dj, j < length suffix → greedy_run j self data = Ok dj →
                 GPT.__predict_token dj self ≠ Ok end_token.
Proof.
  unfold GPT.predict. rewrite predict_loop_eval_mode.
  destruct (GPT.predict_loop _ _ _ _) as [o|] eqn:Hloop; simpl; [|done].
  intros [= <- <-]. split; [done|].
  apply predict_loop_greedy in Hloop as (suffix & -> & Hlen & Hne & Hrun & Hstop & Hfirst).
  exists suffix. repeat split; auto; [lia|].
  destruct Hstop as [Hstop|Hstop]; [left; lia|by right].
Qed.

Lemma predict_is_greedy_witness :
  ∃ suffix,
    [1; 2]%Z = [1%Z] ++ suffix
    ∧ Forall (λ tok, tok ≠ 0%Z) suffix
    ∧ @greedy_run tiny_backend (length suffix) (tiny_gpt 1 0) [1%Z] = Ok [1; 2]%Z.
Proof.
  destruct (@predict_is_greedy tiny_backend (tiny_gpt 1 0)
              (GPT.set_train_mode false (tiny_gpt 1 0)) [1%Z] [1; 2]%Z 5%Z 0%Z)
    as (_ & suffix & H1 & _ & H2 & H3 & _).
  - reflexivity.
  - exists suffix. auto.
Defined.

(** X2.  Decoding in two calls gives what one call gives: [predict] with
    limit [N1 + N2] returns what [predict] with limit [N2] returns on the
    output of [predict] with limit [N1], and raises when either raises. *)
Theorem predict_in_two_calls `{!Backend} (self : GPT.t) (data : list token)
    (N1 N2 : Z) (end_token : token) :
  (0 ≤ N1)%Z → (0 ≤ N2)%Z →
  GPT.predict data (N1 + N2) end_token self
  = GPT.predict data N1 end_token self
      ≫= λ '(self1, out1), GPT.predict out1 N2 end_token self1.
Proof.
  intros H1 H2. unfold GPT.predict.
  rewrite Z2Nat.inj_add, predict_loop_add by done.
  destruct (GPT.predict_loop (Z.to_nat N1) _ _ _) as [out1|]; simpl; [|done].
  rewrite !predict_loop_eval_mode.
  by destruct (GPT.predict_loop (Z.to_nat N2) _ _ _).
Qed.

Lemma predict_in_two_calls_witness :
  @GPT.predict tiny_backend [0%Z] (1 + 3) 0%Z (tiny_gpt 1 0)
  = @GPT.predict tiny_backend [0%Z] 1 0%Z (tiny_gpt 1 0)
      ≫= λ '(self1, out1), @GPT.predict tiny_backend out1 3 0%Z self1.
Proof. apply (@predict_in_two_calls tiny_backend); lia. Defined.

(** ** The greedy choice *)

Section Argmax.
Context `{!Backend}.

Lemma argmax_from_max (rest : list float) :
  logit_order →
  ∀ seen best_i best,
    (0 ≤ best_i)%Z →
    (seen ++ rest) !! Z.to_nat best_i = Some best →
    (∀ y, y ∈ seen → flt best y = false) →
    ∃ v, (seen ++ rest)
           !! Z.to_nat (GPT.argmax_from best_i best (Z.of_nat (length seen)) rest)
         = Some v
         ∧ ∀ y, y ∈ seen ++ rest → flt v y = false.
Proof.
  intros [Hirr Hord]. induction rest as [|x rest IH]; intros seen best_i best Hi Hb Hseen.
  - simpl. exists best. split; [done|]. by rewrite app_nil_r.
  - simpl. replace (seen ++ x :: rest) with ((seen ++ [x]) ++ rest) in *
      by (by rewrite <-app_assoc).
    replace (Z.of_nat (length seen) + 1)%Z with (Z.of_nat (length (seen ++ [x])))
      by (rewrite length_app; simpl; lia).
    destruct (flt best x) eqn:Hx.
    + apply IH; [lia| |].
      * rewrite Nat2Z.id, <-app_assoc. by apply list_lookup_middle.
      * intros y [Hy|Hy%list_elem_of_singleton]%elem_of_app.
        -- by apply (Hord best x y); [|apply Hseen].
        -- subst y. apply Hirr.
    + apply IH; [done..|].
      intros y [Hy|Hy%list_elem_of_singleton]%elem_of_app; [by apply Hseen|by subst y].
Qed.

End Argmax.

(** X3.  The token [__predict_token] returns is a position of the last row
    of logits, so it is a valid id for a vocabulary of that size; and under
    a total order of logits no logit of that row is above the one at the
    token returned. *)
Theorem predict_token_is_argmax `{!Backend} (self : GPT.t) (input : list token)
    (tok : token) :
  GPT.__predict_token input self = Ok tok →
  ∃ row,
    last (model_forward (GPT.model self) (GPT.params self) input) = Some row
    ∧ (0 ≤ tok < Z.of_nat (length row))%Z
    ∧ (logit_order →
       ∃ v, row !! Z.to_nat tok = Some v ∧ ∀ y, y ∈ row → flt v y = false).
Proof.
  unfold GPT.__predict_token. destruct (last _) as [row|]; [|done].
  intros Hmax. exists row. split; [done|].
  destruct row as [|x row]; [done|]. simpl in Hmax. injection Hmax as <-. split.
  - pose proof (argmax_from_range row 0 x 1 ltac:(lia)). simpl. lia.
  - intros Hord.
    apply (argmax_from_max row Hord [x] 0%Z x); [done|done|].
    intros y ->%list_elem_of_singleton. apply Hord.
Qed.

Lemma tiny_logit_order : @logit_order tiny_backend.
Proof.
  split; simpl.
  - intros a. apply Z.ltb_irrefl.
  - intros a b c Hab%Z.ltb_lt Hac%Z.ltb_ge. apply Z.ltb_ge. lia.
Qed.

Lemma predict_token_is_argmax_witness :
  ∃ row,
    last (@model_forward tiny_backend tiny_model (tiny_heap 1 true) [1; 2]%Z) = Some row
    ∧ (0 ≤ 0 < Z.of_nat (length row))%Z
    ∧ ∃ v, row !! Z.to_nat 0 = Some v ∧ ∀ y, y ∈ row → @flt tiny_backend v y = false.
Proof.
  destruct (@predict_token_is_argmax tiny_backend (tiny_gpt 1 0) [1; 2]%Z 0%Z)
    as (row & Hlast & Hrange & Hmax); [reflexivity|].
  exists row. split; [done|]. split; [done|]. apply Hmax, tiny_logit_order.
Defined.

(** ** From pretraining to fine-tuning *)

Lemma copy_state_lookup_nodup np sd (h : heap) :
  NoDup np.*2 →
  ∀ n i v, (n, i) ∈ np → sd !! n = Some v →
           p_data <$> copy_state np sd h !! i = (λ _, v) <$> h !! i.
Proof.
  revert h. induction np as [|[n0 i0] np IH]; intros h Hnd n i v Hin Hv.
  - by apply elem_of_nil in Hin.
  - cbn in Hnd. apply NoDup_cons in Hnd as [Hi0 Hnd]. rewrite copy_state_cons.
    apply elem_of_cons in Hin as [[= -> ->]|Hin].
    + rewrite copy_state_lookup_notin by done. rewrite Hv, lookup_alter_eq.
      by destruct (h !! i0).
    + rewrite (IH _ Hnd n i v Hin Hv).
      assert (i ≠ i0) as Hne.
      { intros ->. apply Hi0. by eapply elem_of_parameters. }
      destruct (sd !! n0); [|done]. by rewrite lookup_alter_ne.
Qed.

Lemma state_dict_lookup_Some np (h : heap) n v :
  state_dict np h !! n = Some v →
  ∃ i p, (n, i) ∈ np ∧ h !! i = Some p.
Proof.
  induction np as [|[n0 i0] np IH]; cbn [state_dict foldr]; [done|].
  fold (state_dict np h). destruct (h !! i0) as [p0|] eqn:Hp0.
  - destruct (decide (n = n0)) as [->|Hne].
    + intros _. exists i0, p0. split; [apply elem_of_cons; by left|done].
    + rewrite lookup_insert_ne by done. intros (i & p & Hin & Hp)%IH.
      exists i, p. split; [apply elem_of_cons; by right|done].
  - intros (i & p & Hin & Hp)%IH.
    exists i, p. split; [apply elem_of_cons; by right|done].
Qed.

(** A [state_dict] loaded into parameters that are not shared is the
    [state_dict] read back. *)
Lemma state_dict_copy_state np sd (h : heap) :
  wf_params np h → NoDup (parameters np) →
  dom sd = list_to_set np.*1 →
  state_dict np (copy_state np sd h) = sd.
Proof.
  intros [Hnd Hall] Hids Hdom. rewrite Forall_forall in Hall.
  apply map_eq. intros n.
  destruct (sd !! n) as [v|] eqn:Hv.
  - assert (n ∈ np.*1) as Hn.
    { apply (elem_of_list_to_set (C := gset string)). rewrite <-Hdom.
      apply elem_of_dom. eauto. }
    apply list_elem_of_fmap in Hn as ([n' i] & -> & Hin). simpl in *.
    destruct (Hall i) as [p Hp]; [by eapply elem_of_parameters|].
    pose proof (copy_state_lookup_nodup np sd h Hids n' i v Hin Hv) as Hc.
    rewrite Hp in Hc. simpl in Hc.
    destruct (copy_state np sd h !! i) as [p'|] eqn:Hp'; [|done].
    injection Hc as <-. by apply (state_dict_lookup np _ n' i p').
  - destruct (state_dict np (copy_state np sd h) !! n) as [v|] eqn:Hs; [|done].
    apply state_dict_lookup_Some in Hs as (i & p & Hin & _).
    assert (n ∈ dom sd) as [v' Hv']%elem_of_dom; [|congruence].
    rewrite Hdom. apply elem_of_list_to_set. by eapply elem_of_names.
Qed.

Lemma state_dict_freeze_backbone np (m : GPTModel) (h : heap) :
  state_dict np (freeze_backbone m h) = state_dict np h.
Proof. apply state_dict_ext. intros i _. apply freeze_backbone_data. Qed.

Lemma load_state_dict_shapes np sd (h : heap) :
  wf_params np h →
  dom sd = list_to_set np.*1 →
  t_shape <$> state_dict np h = t_shape <$> sd →
  load_state_dict np sd h = Ok (copy_state np sd h).
Proof.
  intros [Hnd Hall] Hdom Hshape. rewrite Forall_forall in Hall.
  unfold load_state_dict. rewrite bool_decide_eq_true_2 by done.
  assert (forallb (shape_matches sd h) np = true) as ->; [|done].
  apply forallb_forall. intros [n i] Hin%list_elem_of_In.
  unfold shape_matches. simpl.
  destruct (Hall i) as [p Hp]; [by eapply elem_of_parameters|]. rewrite Hp.
  destruct (sd !! n) as [v|] eqn:Hv; [|done].
  apply bool_decide_eq_true_2.
  assert ((t_shape <$> state_dict np h) !! n = (t_shape <$> sd) !! n) as Hn
    by (by rewrite Hshape).
  rewrite !lookup_fmap, Hv, (state_dict_lookup np h n i p) in Hn by done.
  simpl in Hn. congruence.
Qed.

(** X4.  The backbone travels from the pretrainer to the fine-tuner through
    the checkpoint: after [GPTPretrain.save_model(path)] and
    [GPT.load_pretrained_model(path)], on a fine-tune model whose backbone
    has the pretrainer's parameter names and shapes and shares no
    parameter, the [state_dict] of the backbone is the pretrainer's, the
    value of every parameter outside the backbone (the classifier's) is the
    one before, and optimizer, epoch and configured checkpoint are
    untouched. *)
Theorem pretrained_transfer (path : string) (pre : GPTPretrain.t) (gpt : GPT.t)
    (w0 w : World) :
  let np_pre := GPTModel_named_parameters (GPTPretrain.model pre) in
  let np := GPTModel_named_parameters (pretrained_model (GPT.model gpt)) in
  wf_params np_pre (GPTPretrain.params pre) →
  wf_params np (GPT.params gpt) →
  NoDup (parameters np) →
  t_shape <$> state_dict np (GPT.params gpt)
  = t_shape <$> state_dict np_pre (GPTPretrain.params pre) →
  fs w !! path = fs (GPTPretrain.save_model (Some path) pre w0).2 !! path →
  ∃ gpt',
    GPT.load_pretrained_model (Some path) gpt w = Ok (gpt', print LoadedPretrainedModel w)
    ∧ state_dict np (GPT.params gpt') = state_dict np_pre (GPTPretrain.params pre)
    ∧ (∀ i, i ∉ parameters np →
            p_data <$> GPT.params gpt' !! i = p_data <$> GPT.params gpt !! i)
    ∧ GPT.optimizer gpt' = GPT.optimizer gpt
    ∧ GPT.epoch gpt' = GPT.epoch gpt
    ∧ GPT.checkpoint gpt' = GPT.checkpoint gpt.
Proof.
  intros np_pre np Hwf_pre Hwf Hids Hshape Hfs.
  rewrite GPTPretrain_saved_file in Hfs. fold np_pre in Hfs.
  set (sd := state_dict np_pre (GPTPretrain.params pre)) in *.
  assert (dom sd = list_to_set np.*1) as Hdom.
  { rewrite <-(state_dict_dom np (GPT.params gpt)) by apply Hwf.
    rewrite <-(dom_fmap_L t_shape sd), <-Hshape. by rewrite dom_fmap_L. }
  eexists. unfold GPT.load_pretrained_model. simpl. rewrite Hfs. simpl. fold np.
  rewrite (load_state_dict_shapes np sd) by done. simpl.
  split; [reflexivity|]. simpl. split; [|split; [|done]].
  - rewrite state_dict_freeze_backbone. by apply state_dict_copy_state.
  - intros i Hi. rewrite freeze_backbone_data. by rewrite copy_state_lookup_notin.
Qed.

Lemma pretrained_transfer_witness :
  ∃ gpt',
    GPT.load_pretrained_model (Some "pre.pt") (tiny_gpt 9 4)
      (GPTPretrain.save_model (Some "pre.pt") (tiny_pretrain 5 2) empty_world).2
    = Ok (gpt', print LoadedPretrainedModel
                  (GPTPretrain.save_model (Some "pre.pt") (tiny_pretrain 5 2) empty_world).2)
    ∧ state_dict (GPTModel_named_parameters tiny_backbone) (GPT.params gpt')
      = state_dict (GPTModel_named_parameters tiny_backbone) (tiny_heap 5 true)
    ∧ (∀ i, i ∉ parameters (GPTModel_named_parameters tiny_backbone) →
            p_data <$> GPT.params gpt' !! i = p_data <$> tiny_heap 9 true !! i).
Proof.
  destruct (pretrained_transfer "pre.pt" (tiny_pretrain 5 2) (tiny_gpt 9 4) empty_world
              (GPTPretrain.save_model (Some "pre.pt") (tiny_pretrain 5 2) empty_world).2)
    as (gpt' & Hload & Hsd & Hout & _).
  - split; apply (bool_decide_unpack _); vm_compute; exact I.
  - split; apply (bool_decide_unpack _); vm_compute; exact I.
  - apply (bool_decide_unpack _); vm_compute; exact I.
  - apply (bool_decide_unpack _); vm_compute; exact I.
  - reflexivity.
  - exists gpt'. auto.
Defined.

(** ** Checkpoints of the other kind *)

Lemma names_prefixed pre np n :
  n ∈ (prefixed pre np).*1 → ∃ x, n = pre +:+ x.
Proof.
  unfold prefixed. rewrite <-list_fmap_compose.
  intros ([x i] & -> & _)%list_elem_of_fmap. by exists x.
Qed.

Lemma names_GPTModel (m : GPTModel) n :
  n ∈ (GPTModel_named_parameters m).*1 →
  ∃ x, n = "embedding_layer." +:+ x ∨ n = "decoder." +:+ x.
Proof.
  unfold GPTModel_named_parameters. rewrite fmap_app.
  intros [[x ->]%names_prefixed|[x ->]%names_prefixed]%elem_of_app; eauto.
Qed.

Lemma names_GPTFineTune (m : GPTFineTune) n :
  n ∈ (GPTFineTune_named_parameters m).*1 →
  ∃ x, n = "pretrained_model." +:+ x ∨ n = "classifier." +:+ x.
Proof.
  unfold GPTFineTune_named_parameters. rewrite fmap_app.
  intros [[x ->]%names_prefixed|[x ->]%names_prefixed]%elem_of_app; eauto.
Qed.

Lemma names_kinds_disjoint (m : GPTModel) (ft : GPTFineTune) n :
  n ∈ (GPTModel_named_parameters m).*1 →
  n ∈ (GPTFineTune_named_parameters ft).*1 → False.
Proof.
  intros [x Hx]%names_GPTModel [y Hy]%names_GPTFineTune.
  destruct Hx as [-> | ->], Hy as [Hy|Hy]; simpl in Hy; discriminate Hy.
Qed.

Lemma load_state_dict_other_keys np sd (h : heap) n :
  n ∈ dom sd → n ∉ np.*1 → load_state_dict np sd h = Raise RuntimeError.
Proof.
  intros Hn Hnot. unfold load_state_dict. rewrite bool_decide_eq_false_2; [done|].
  intros Hdom. apply Hnot. apply (elem_of_list_to_set (C := gset string)).
  by rewrite <-Hdom.
Qed.

Lemma state_dict_has_key np (h : heap) :
  np ≠ [] → Forall (λ i, is_Some (h !! i)) (parameters np) →
  ∃ n, n ∈ np.*1 ∧ n ∈ dom (state_dict np h).
Proof.
  intros Hne Hall. destruct np as [|[n i] np]; [done|].
  exists n. split; [apply elem_of_cons; by left|].
  rewrite state_dict_dom by done. cbn. apply elem_of_union_l, elem_of_singleton. done.
Qed.

(** X5.  The two kinds of checkpoint are not interchangeable.  A file
    written by [GPTPretrain.save_model] makes [GPT.load_model] raise
    [RuntimeError], and a file written by [GPT.save_model] makes
    [GPT.load_pretrained_model] and [GPTPretrain.load_model] raise it: the
    keys of the two state dictionaries differ in their prefixes and the
    load is strict. *)
Theorem checkpoint_kinds_differ (path : string) (pre : GPTPretrain.t) (gpt : GPT.t)
    (w0 w : World) :
  GPTModel_named_parameters (GPTPretrain.model pre) ≠ [] →
  Forall (λ i, is_Some (GPTPretrain.params pre !! i))
         (parameters (GPTModel_named_parameters (GPTPretrain.model pre))) →
  GPTFineTune_named_parameters (GPT.model gpt) ≠ [] →
  Forall (λ i, is_Some (GPT.params gpt !! i))
         (parameters (GPTFineTune_named_parameters (GPT.model gpt))) →
  (fs w !! path = fs (GPTPretrain.save_model (Some path) pre w0).2 !! path →
   ∀ other : GPT.t, GPT.load_model (Some path) other w = Raise RuntimeError)
  ∧ (fs w !! path = fs (GPT.save_model (Some path) gpt w0).2 !! path →
     (∀ other : GPT.t, GPT.load_pretrained_model (Some path) other w = Raise RuntimeError)
     ∧ (∀ other : GPTPretrain.t,
          GPTPretrain.load_model (Some path) other w = Raise RuntimeError)).
Proof.
  intros Hpre Hpre_all Hgpt Hgpt_all. split.
  - rewrite GPTPretrain_saved_file. intros Hfs other.
    destruct (state_dict_has_key _ _ Hpre Hpre_all) as (n & Hn & Hdom).
    unfold GPT.load_model, GPT.__load_model.
    rewrite os_path_exists_true by (rewrite Hfs; eauto).
    simpl. rewrite Hfs. simpl.
    rewrite (load_state_dict_other_keys _ _ _ n Hdom).
    + by destruct (GPT.checkpoint other).
    + intros Hin. by eapply names_kinds_disjoint.
  - rewrite GPT_saved_file. intros Hfs.
    destruct (state_dict_has_key _ _ Hgpt Hgpt_all) as (n & Hn & Hdom).
    split; intros other.
    + unfold GPT.load_pretrained_model. simpl. rewrite Hfs. simpl.
      rewrite (load_state_dict_other_keys _ _ _ n Hdom); [done|].
      intros Hin. by eapply names_kinds_disjoint.
    + unfold GPTPretrain.load_model, GPTPretrain.__load_model.
      rewrite os_path_exists_true by (rewrite Hfs; eauto).
      simpl. rewrite Hfs. simpl.
      rewrite (load_state_dict_other_keys _ _ _ n Hdom); [done|].
      intros Hin. by eapply names_kinds_disjoint.
Qed.

Lemma checkpoint_kinds_differ_witness :
  GPT.load_model (Some "pretrain.pt") (tiny_gpt 1 0) tiny_world = Raise RuntimeError
  ∧ GPT.load_pretrained_model (Some "gpt.pt") (tiny_gpt 1 0) tiny_world = Raise RuntimeError
  ∧ GPTPretrain.load_model (Some "gpt.pt") (tiny_pretrain 1 0) tiny_world
    = Raise RuntimeError.
Proof.
  destruct (checkpoint_kinds_differ "pretrain.pt" (tiny_pretrain 5 2) (tiny_gpt 7 3)
              empty_world tiny_world) as [Hpre _];
    [done|apply (bool_decide_unpack _); vm_compute; exact I|done
    |apply (bool_decide_unpack _); vm_compute; exact I|].
  destruct (checkpoint_kinds_differ "gpt.pt" (tiny_pretrain 5 2) (tiny_gpt 7 3)
              (GPTPretrain.__save_model "pretrain.pt" (tiny_pretrain 5 2) empty_world)
              tiny_world) as [_ Hgpt];
    [done|apply (bool_decide_unpack _); vm_compute; exact I|done
    |apply (bool_decide_unpack _); vm_compute; exact I|].
  split; [apply Hpre; vm_compute; reflexivity|].
  destruct Hgpt as [H1 H2]; [vm_compute; reflexivity|]. split; [apply H1|apply H2].
Defined.

(** ** When [fit] reads [pretrained_path] *)

(** X6.  [GPT.fit] reads [pretrained_path] only when no full checkpoint was
    loaded.  With a configured checkpoint whose file exists, the argument
    is ignored: [fit] does the same with any [pretrained_path] as with
    none.  With a configured checkpoint whose file does not exist yet, a
    trainer whose flag [training] is false and no [pretrained_path], [fit]
    raises as it does without a checkpoint. *)
Theorem fit_pretrained_path `{!Backend} (self : GPT.t) (c : string)
    (inputs : list (list token)) (labels : list (list Z))
    (bsz epochs mini_batch : Z) (shuffle_data : bool) (w : World) :
  GPT.checkpoint self = Some c →
  (is_Some (fs w !! c) →
   ∀ pretrained_path,
     GPT.fit inputs labels pretrained_path bsz epochs mini_batch shuffle_data self w
     = GPT.fit inputs labels None bsz epochs mini_batch shuffle_data self w)
  ∧ (fs w !! c = None →
     GPT.training self = false →
     GPT.fit inputs labels None bsz epochs mini_batch shuffle_data self w
     = Raise AttributeError).
Proof.
  intros Hck. split.
  - intros Hex pretrained_path. unfold GPT.fit. rewrite Hck.
    destruct (GPT.load_model (Some c) self w) as [[s1 w1]|e] eqn:Hload; simpl; [|done].
    destruct (GPT_load_model_existing_flag (Some c) c self w s1 w1) as [_ Hflag];
      [done..|].
    by rewrite Hflag.
  - intros Hmiss Hflag. unfold GPT.fit, GPT.load_model. rewrite Hck.
    rewrite GPT__load_model_missing by done. simpl. by rewrite Hflag.
Qed.

Lemma fit_pretrained_path_witness :
  @GPT.fit tiny_backend [[1; 2]%Z] [[0]%Z] (Some "pretrain.pt") 1 1 1 false
    (GPT.set_checkpoint (Some "gpt.pt") (tiny_gpt 1 0)) tiny_world
  = @GPT.fit tiny_backend [[1; 2]%Z] [[0]%Z] None 1 1 1 false
      (GPT.set_checkpoint (Some "gpt.pt") (tiny_gpt 1 0)) tiny_world
  ∧ @GPT.fit tiny_backend [[1; 2]%Z] [[0]%Z] None 1 1 1 false
      (GPT.set_checkpoint (Some "new.pt") (tiny_gpt 1 0)) tiny_world
    = Raise AttributeError.
Proof.
  split.
  - apply (@fit_pretrained_path tiny_backend
             (GPT.set_checkpoint (Some "gpt.pt") (tiny_gpt 1 0)) "gpt.pt");
      [reflexivity|vm_compute; eexists; reflexivity].
  - apply (@fit_pretrained_path tiny_backend
             (GPT.set_checkpoint (Some "new.pt") (tiny_gpt 1 0)) "new.pt");
      [reflexivity|vm_compute; reflexivity|reflexivity].
Defined.

(** With the file there, the [fit] above returns: the checkpoint is
    loaded, one batch is trained on and reported, and the file is written
    again. *)
Example fit_resume_tiny :
  (λ r, match r with
        | Ok (self, w) => Some (GPT.epoch self, GPT.training self, stdout w)
        | Raise _ => None
        end)
    (@GPT.fit tiny_backend [[1; 2]%Z] [[0]%Z] None 1 1 1 false
       (GPT.set_checkpoint (Some "gpt.pt") (tiny_gpt 1 0)) tiny_world)
  = Some (4%Z, true,
          [ModelSavedAt "pretrain.pt"; ModelIsSavedAt "gpt.pt"; Summary;
           FineTuneProgress 4 1 1%Z; ModelIsSavedAt "gpt.pt"]).
Proof. vm_compute. reflexivity. Qed.

(** ** What a whole [fit] keeps *)

Lemma for_each_inv {S A} (P : S → Prop) (body : S → A → result S) (l : list A) :
  (∀ s a s', P s → body s a = Ok s' → P s') →
  ∀ s s', P s → for_each body s l = Ok s' → P s'.
Proof.
  intros Hbody. induction l as [|a l IH]; intros s s' Hs; simpl.
  - by intros [= <-].
  - destruct (body s a) as [s1|] eqn:Hb; simpl; [|done]. eauto.
Qed.

Lemma for_range_inv {S} (P : S → Prop) (body : S → result S) (n : nat) :
  (∀ s s', P s → body s = Ok s' → P s') →
  ∀ s s', P s → for_range n body s = Ok s' → P s'.
Proof.
  intros Hbody. induction n as [|n IH]; intros s s' Hs; simpl.
  - by intros [= <-].
  - destruct (body s) as [s1|] eqn:Hb; simpl; [|done]. eauto.
Qed.

Lemma DataLoader_iter_fs `{!Backend} {A} (dl : DataLoader A) (w : World) :
  fs (DataLoader_iter dl w).2 = fs w ∧ stdout (DataLoader_iter dl w).2 = stdout w.
Proof. unfold DataLoader_iter. simpl. by destruct (shuffle dl). Qed.

Lemma GPTPretrain_load_model_keeps path self w self' w' :
  GPTPretrain.load_model path self w = Ok (self', w') →
  fs w' = fs w
  ∧ GPTPretrain.checkpoint self' = checkpoint_target path (GPTPretrain.checkpoint self).
Proof.
  unfold GPTPretrain.load_model.
  destruct path as [p|]; simpl.
  - destruct (GPTPretrain.__load_model p self w) as [s1|]; simpl; [|done].
    by intros [= <- <-].
  - destruct (GPTPretrain.checkpoint self) as [c|] eqn:Hck.
    + destruct (GPTPretrain.__load_model c self w) as [s1|] eqn:E; simpl; [|done].
      intros [= <- <-]. apply GPTPretrain__load_model_checkpoint in E. by rewrite E.
    + by intros [= <- <-].
Qed.

Lemma GPT_load_model_keeps path self w self' w' :
  GPT.load_model path self w = Ok (self', w') →
  w' = w ∧ GPT.checkpoint self' = checkpoint_target path (GPT.checkpoint self).
Proof.
  intros Hload. apply GPT_load_model_target in Hload as [-> Hload]. split; [done|].
  destruct (checkpoint_target path (GPT.checkpoint self)) as [p|] eqn:Ht.
  - destruct Hload as (s1 & Hs1 & ->). apply GPT__load_model_checkpoint in Hs1.
    destruct path as [q|]; simpl in *; [done|congruence].
  - subst self'. by destruct path.
Qed.

Section FitKeeps.
Context `{!Backend}.

Lemma GPTPretrain_pretrain_step_keeps data self :
  GPTPretrain.checkpoint (GPTPretrain.pretrain_step data self) = GPTPretrain.checkpoint self
  ∧ GPTPretrain.epoch (GPTPretrain.pretrain_step data self) = GPTPretrain.epoch self
  ∧ GPTPretrain.model (GPTPretrain.pretrain_step data self) = GPTPretrain.model self.
Proof.
  unfold GPTPretrain.pretrain_step.
  by destruct (pretrain_update _ _ _ _ _) as [[h o] loss].
Qed.

Lemma GPT_train_step_keeps inputs labels self :
  GPT.checkpoint (GPT.train_step inputs labels self) = GPT.checkpoint self
  ∧ GPT.epoch (GPT.train_step inputs labels self) = GPT.epoch self
  ∧ GPT.training (GPT.train_step inputs labels self) = GPT.training self
  ∧ GPT.model (GPT.train_step inputs labels self) = GPT.model self.
Proof.
  unfold GPT.train_step.
  by destruct (finetune_update _ _ _ _ _) as [[h o] loss].
Qed.

Lemma GPTPretrain_fit_batch_keeps M T st ib st' :
  GPTPretrain.fit_batch M T st ib = Ok st' →
  GPTPretrain.checkpoint st'.1 = GPTPretrain.checkpoint st.1
  ∧ GPTPretrain.epoch st'.1 = GPTPretrain.epoch st.1
  ∧ fs st'.2 = fs st.2.
Proof.
  destruct st as [self w], ib as [index batch]. unfold GPTPretrain.fit_batch.
  destruct (report_due index M T) as [[|]|]; simpl; [| |done];
    intros [= <-]; simpl;
    by destruct (GPTPretrain_pretrain_step_keeps batch self) as (-> & -> & _).
Qed.

Lemma GPT_fit_batch_keeps M T st ib st' :
  GPT.fit_batch M T st ib = Ok st' →
  GPT.checkpoint st'.1 = GPT.checkpoint st.1
  ∧ GPT.epoch st'.1 = GPT.epoch st.1
  ∧ GPT.training st'.1 = GPT.training st.1
  ∧ fs st'.2 = fs st.2.
Proof.
  destruct st as [self w], ib as [index data]. unfold GPT.fit_batch.
  destruct (report_due index M T) as [[|]|]; simpl; [| |done];
    intros [= <-]; simpl;
    by destruct (GPT_train_step_keeps data.*1 data.*2 self) as (-> & -> & -> & _).
Qed.

Lemma GPTPretrain_fit_epoch_keeps dl M T st st' :
  GPTPretrain.fit_epoch dl M T st = Ok st' →
  GPTPretrain.checkpoint st'.1.1 = GPTPretrain.checkpoint st.1.1
  ∧ GPTPretrain.epoch st'.1.1 = (GPTPretrain.epoch st.1.1 + 1)%Z
  ∧ fs st'.1.2 = fs st.1.2.
Proof.
  destruct st as [[self w] index]. unfold GPTPretrain.fit_epoch.
  pose proof (DataLoader_iter_fs dl w) as [Hfs _].
  destruct (DataLoader_iter dl w) as [bs w1]. simpl in Hfs.
  destruct (for_each _ _ _) as [[s1 w2]|] eqn:Hloop; simpl; [|done].
  apply (for_each_inv
           (λ st, GPTPretrain.checkpoint st.1 = GPTPretrain.checkpoint self
                  ∧ GPTPretrain.epoch st.1 = GPTPretrain.epoch self
                  ∧ fs st.2 = fs w)) in Hloop; [| |done].
  - simpl in Hloop. destruct Hloop as (Hc & He & Hf).
    destruct (match bs with [] => index | _ => _ end); [|done].
    intros [= <-]. simpl. by rewrite He.
  - intros s a s' (Hc & He & Hf) (Hc' & He' & Hf')%GPTPretrain_fit_batch_keeps.
    split; [congruence|]. split; congruence.
Qed.

Lemma GPT_fit_epoch_keeps dl M st st' :
  GPT.fit_epoch dl M st = Ok st' →
  GPT.checkpoint st'.1 = GPT.checkpoint st.1
  ∧ GPT.epoch st'.1 = (GPT.epoch st.1 + 1)%Z
  ∧ GPT.training st'.1 = GPT.training st.1
  ∧ fs st'.2 = fs st.2.
Proof.
  destruct st as [self w]. unfold GPT.fit_epoch.
  pose proof (DataLoader_iter_fs dl w) as [Hfs _].
  destruct (DataLoader_iter dl w) as [bs w1]. simpl in Hfs.
  destruct (for_each _ _ _) as [[s1 w2]|] eqn:Hloop; simpl; [|done].
  apply (for_each_inv
           (λ st, GPT.checkpoint st.1 = GPT.checkpoint self
                  ∧ GPT.epoch st.1 = GPT.epoch self
                  ∧ GPT.training st.1 = GPT.training self
                  ∧ fs st.2 = fs w)) in Hloop; [| |done].
  - simpl in Hloop. destruct Hloop as (Hc & He & Ht & Hf).
    intros [= <-]. simpl. by rewrite He.
  - intros s a s' (Hc & He & Ht & Hf) (Hc' & He' & Ht' & Hf')%GPT_fit_batch_keeps.
    repeat split; congruence.
Qed.

End FitKeeps.

Lemma GPTPretrain__load_model_epoch c self w self' :
  GPTPretrain.__load_model c self w = Ok self' →
  GPTPretrain.epoch self' = starting_epoch (Some c) (GPTPretrain.epoch self) w.
Proof.
  unfold GPTPretrain.__load_model, os_path_exists, starting_epoch.
  case_bool_decide as Hex.
  - destruct Hex as [f Hf]. simpl. rewrite Hf. simpl.
    destruct (load_state_dict _ _ _) as [h|]; simpl; [|done].
    destruct (optimizer_load_state_dict _ _) as [o|]; simpl; [|done].
    by intros [= <-].
  - intros [= <-]. destruct (fs w !! c); [|done]. exfalso. apply Hex. eauto.
Qed.

Lemma GPT__load_model_epoch c self w self' :
  GPT.__load_model c self w = Ok self' →
  GPT.epoch self' = starting_epoch (Some c) (GPT.epoch self) w.
Proof.
  unfold GPT.__load_model, os_path_exists, starting_epoch.
  case_bool_decide as Hex.
  - destruct Hex as [f Hf]. simpl. rewrite Hf. simpl.
    destruct (load_state_dict _ _ _) as [h|]; simpl; [|done].
    destruct (optimizer_load_state_dict _ _) as [o|]; simpl; [|done].
    by intros [= <-].
  - intros [= <-]. destruct (fs w !! c); [|done]. exfalso. apply Hex. eauto.
Qed.

Lemma starting_epoch_idemp c e w :
  starting_epoch (Some c) (starting_epoch (Some c) e w) w = starting_epoch (Some c) e w.
Proof. unfold starting_epoch. by destruct (fs w !! c). Qed.

Section FitFile.
Context `{!Backend}.

Lemma GPTPretrain_epochs_keep dl M T (n : nat) :
  ∀ st st',
    for_range n (GPTPretrain.fit_epoch dl M T) st = Ok st' →
    GPTPretrain.checkpoint st'.1.1 = GPTPretrain.checkpoint st.1.1
    ∧ GPTPretrain.epoch st'.1.1 = (GPTPretrain.epoch st.1.1 + Z.of_nat n)%Z
    ∧ fs st'.1.2 = fs st.1.2.
Proof.
  induction n as [|n IH]; intros st st'; simpl.
  - intros [= <-]. repeat split. lia.
  - destruct (GPTPretrain.fit_epoch dl M T st) as [st1|] eqn:Hep; simpl; [|done].
    apply GPTPretrain_fit_epoch_keeps in Hep as (Hc & He & Hf).
    intros (Hc' & He' & Hf')%IH. repeat split; [congruence|lia|congruence].
Qed.

Lemma GPT_epochs_keep dl M (n : nat) :
  ∀ st st',
    for_range n (GPT.fit_epoch dl M) st = Ok st' →
    GPT.checkpoint st'.1 = GPT.checkpoint st.1
    ∧ GPT.epoch st'.1 = (GPT.epoch st.1 + Z.of_nat n)%Z
    ∧ GPT.training st'.1 = GPT.training st.1
    ∧ fs st'.2 = fs st.2.
Proof.
  induction n as [|n IH]; intros st st'; simpl.
  - intros [= <-]. repeat split. lia.
  - destruct (GPT.fit_epoch dl M st) as [st1|] eqn:Hep; simpl; [|done].
    apply GPT_fit_epoch_keeps in Hep as (Hc & He & Ht & Hf).
    intros (Hc' & He' & Ht' & Hf')%IH. repeat split; [congruence|lia|congruence..].
Qed.

End FitFile.

(** X7.  A [fit] that returns, of either trainer, leaves the configured
    checkpoint as it was and has advanced the epoch counter by the number
    of epochs run, counted from the epoch of the checkpoint when its file
    existed and from the trainer's own otherwise.  With a configured
    checkpoint the only change to the file system is that file, which holds
    the state of the trainer returned, and the last line printed reports
    it; without one, no file is written. *)
Theorem fit_epochs_and_file `{!Backend} (bsz epochs mini_batch : Z) (sh : bool)
    (w : World) :
  (∀ (data : list (list token)) (self self' : GPTPretrain.t) (w' : World),
     GPTPretrain.fit data bsz epochs sh mini_batch self w = Ok (self', w') →
     GPTPretrain.checkpoint self' = GPTPretrain.checkpoint self
     ∧ GPTPretrain.epoch self'
       = (starting_epoch (GPTPretrain.checkpoint self) (GPTPretrain.epoch self) w
          + Z.max 0 epochs)%Z
     ∧ match GPTPretrain.checkpoint self with
       | Some c => fs w' = <[c := GPTPretrain_snapshot self']> (fs w)
                   ∧ last (stdout w') = Some (ModelSavedAt c)
       | None => fs w' = fs w
       end)
  ∧ (∀ (inputs : list (list token)) (labels : list (list Z)) pretrained_path
       (self self' : GPT.t) (w' : World),
       GPT.fit inputs labels pretrained_path bsz epochs mini_batch sh self w
       = Ok (self', w') →
       GPT.checkpoint self' = GPT.checkpoint self
       ∧ GPT.epoch self'
         = (starting_epoch (GPT.checkpoint self) (GPT.epoch self) w + Z.max 0 epochs)%Z
       ∧ match GPT.checkpoint self with
         | Some c => fs w' = <[c := GPT_snapshot self']> (fs w)
                     ∧ last (stdout w') = Some (ModelIsSavedAt c)
         | None => fs w' = fs w
         end).
Proof.
  split.
  - intros data self self' w'. unfold GPTPretrain.fit.
    destruct (match GPTPretrain.checkpoint self with
              | Some c => GPTPretrain.load_model (Some c) self w
              | None => Ok (self, w)
              end) as [[s1 w1]|] eqn:Hload; simpl; [|done].
    assert (GPTPretrain.checkpoint s1 = GPTPretrain.checkpoint self
            ∧ GPTPretrain.epoch s1
              = starting_epoch (GPTPretrain.checkpoint self) (GPTPretrain.epoch self) w
            ∧ fs w1 = fs w) as (Hc1 & He1 & Hf1).
    { destruct (GPTPretrain.checkpoint self) as [c|] eqn:Hck.
      - unfold GPTPretrain.load_model in Hload.
        destruct (GPTPretrain.__load_model c self w) as [s0|] eqn:E; simpl in Hload; [|done].
        injection Hload as <- <-. apply GPTPretrain__load_model_epoch in E. done.
      - by injection Hload as <- <-. }
    destruct (GPTPretrain.build_pretrain_dataset data bsz sh) as [dl|]; simpl; [|done].
    destruct (for_range _ _ _) as [[[s2 w2] index]|] eqn:Hloop; simpl; [|done].
    apply GPTPretrain_epochs_keep in Hloop as (Hc2 & He2 & Hf2). simpl in *.
    rewrite Hc2, Hc1.
    destruct (GPTPretrain.checkpoint self) as [c|]; intros [= <- <-].
    + split; [congruence|]. split; [lia|]. simpl.
      split; [by rewrite Hf2, Hf1|]. by rewrite last_snoc.
    + split; [congruence|]. split; [lia|]. by rewrite Hf2.
  - intros inputs labels pp self self' w'. unfold GPT.fit.
    destruct (match GPT.checkpoint self with
              | Some c => GPT.load_model (Some c) self w
              | None => Ok (self, w)
              end) as [[s1 w1]|] eqn:Hload; simpl; [|done].
    assert (GPT.checkpoint s1 = GPT.checkpoint self
            ∧ GPT.epoch s1 = starting_epoch (GPT.checkpoint self) (GPT.epoch self) w
            ∧ w1 = w) as (Hc1 & He1 & ->).
    { destruct (GPT.checkpoint self) as [c|] eqn:Hck.
      - unfold GPT.load_model in Hload.
        destruct (GPT.__load_model c self w) as [s0|] eqn:E; simpl in Hload; [|done].
        injection Hload as <- <-. apply GPT__load_model_epoch in E. done.
      - by injection Hload as <- <-. }
    destruct (if GPT.training s1 then Ok (s1, w)
              else GPT.load_pretrained_model pp s1 w) as [[s2 w2]|] eqn:Hpre;
      simpl; [|done].
    assert (GPT.checkpoint s2 = GPT.checkpoint s1 ∧ GPT.epoch s2 = GPT.epoch s1
            ∧ fs w2 = fs w) as (Hc2 & He2 & Hf2).
    { destruct (GPT.training s1).
      - by injection Hpre as <- <-.
      - unfold GPT.load_pretrained_model in Hpre.
        destruct (torch_load pp w) as [ckpt|]; simpl in Hpre; [|done].
        destruct (load_state_dict _ _ _) as [h|]; simpl in Hpre; [|done].
        by injection Hpre as <- <-. }
    destruct (GPT.sumary _ w2) as [[s3 w3]|] eqn:Hsum; simpl; [|done].
    assert (GPT.checkpoint s3 = GPT.checkpoint s1 ∧ GPT.epoch s3 = GPT.epoch s1
            ∧ fs w3 = fs w) as (Hc3 & He3 & Hf3).
    { unfold GPT.sumary in Hsum. simpl in Hsum. rewrite Hc2, Hc1 in Hsum.
      destruct (GPT.checkpoint self) as [c|] eqn:Hck.
      - unfold GPT.load_model in Hsum. simpl in Hsum.
        destruct (GPT.__load_model c _ w2) as [s0|] eqn:E; simpl in Hsum; [|done].
        injection Hsum as <- <-. apply GPT__load_model_epoch in E. simpl in *.
        split; [done|]. split; [|done].
        rewrite E, He2, He1. unfold starting_epoch. rewrite Hf2.
        by destruct (fs w !! c).
      - injection Hsum as <- <-. simpl. by rewrite Hc2, Hc1, He2. }
    destruct (GPT.build_dataset inputs labels bsz sh) as [dl|]; simpl; [|done].
    destruct (for_range _ _ _) as [[s4 w4]|] eqn:Hloop; simpl; [|done].
    apply GPT_epochs_keep in Hloop as (Hc4 & He4 & _ & Hf4). simpl in *.
    rewrite Hc4, Hc3, Hc1.
    destruct (GPT.checkpoint self) as [c|]; intros [= <- <-].
    + split; [congruence|]. split; [lia|]. simpl.
      split; [by rewrite Hf4, Hf3|]. by rewrite last_snoc.
    + split; [congruence|]. split; [lia|]. by rewrite Hf4.
Qed.

Lemma fit_epochs_and_file_witness :
  (∃ self' w',
     @GPTPretrain.fit tiny_backend (replicate 5 [1; 2; 3]%Z) 1 2 true 2
       (GPTPretrain.set_checkpoint (Some "run.pt") (tiny_pretrain 1 0)) empty_world
     = Ok (self', w')
     ∧ GPTPretrain.epoch self' = (0 + Z.max 0 2)%Z
     ∧ fs w' = <["run.pt" := GPTPretrain_snapshot self']> (fs empty_world))
  ∧ (∃ self' w',
       @GPT.fit tiny_backend [[1; 2]%Z] [[0]%Z] (Some "pretrain.pt") 1 2 2 true
         (tiny_gpt 1 0) tiny_world = Ok (self', w')
       ∧ GPT.epoch self' = (0 + Z.max 0 2)%Z
       ∧ fs w' = fs tiny_world).
Proof.
  split.
  - destruct (@fit_epochs_and_file tiny_backend 1 2 2 true empty_world) as [Hpre _].
    destruct (@GPTPretrain.fit tiny_backend (replicate 5 [1; 2; 3]%Z) 1 2 true 2
                (GPTPretrain.set_checkpoint (Some "run.pt") (tiny_pretrain 1 0))
                empty_world) as [[self' w']|e] eqn:E; [|vm_compute in E; discriminate E].
    apply Hpre in E as (_ & He & Hf & _). exists self', w'. auto.
  - destruct (@fit_epochs_and_file tiny_backend 1 2 2 true tiny_world) as [_ Hgpt].
    destruct (@GPT.fit tiny_backend [[1; 2]%Z] [[0]%Z] (Some "pretrain.pt") 1 2 2 true
                (tiny_gpt 1 0) tiny_world) as [[self' w']|e] eqn:E;
      [|vm_compute in E; discriminate E].
    apply Hgpt in E as (_ & He & Hf). exists self', w'. auto.
Defined.

(** ** The flag [training] and the configured checkpoint *)

Lemma thc_load_model path self w self' w' :
  trained_has_checkpoint self →
  GPT.load_model path self w = Ok (self', w') →
  trained_has_checkpoint self'.
Proof.
  intros Hinv Hload. pose proof Hload as [_ Hck]%GPT_load_model_keeps.
  apply GPT_load_model_target in Hload as [_ Hload].
  unfold trained_has_checkpoint. rewrite Hck.
  destruct (checkpoint_target path (GPT.checkpoint self)) as [p|] eqn:Ht; [eauto|].
  subst self'. intros Hflag. apply Hinv in Hflag.
  destruct path; simpl in Ht; [done|]. by rewrite Ht in Hflag.
Qed.

Lemma thc_load_pretrained_model path self w self' w' :
  trained_has_checkpoint self →
  GPT.load_pretrained_model path self w = Ok (self', w') →
  trained_has_checkpoint self'.
Proof.
  intros Hinv [Hflag Hck]%load_pretrained_model_keeps_flag.
  unfold trained_has_checkpoint. by rewrite Hflag, Hck.
Qed.

Lemma thc_sumary self w self' w' :
  trained_has_checkpoint self →
  GPT.sumary self w = Ok (self', w') →
  trained_has_checkpoint self'.
Proof.
  intros Hinv. unfold GPT.sumary.
  destruct (GPT.checkpoint self) as [c|] eqn:Hck.
  - destruct (GPT.load_model (Some c) self w) as [[s1 w1]|] eqn:E; simpl; [|done].
    intros [= <- <-]. by eapply thc_load_model.
  - simpl. by intros [= <- <-].
Qed.

(** X8.  The flag [training] is true only on a trainer with a configured
    checkpoint: the constructor establishes this, and [load_model],
    [save_model], [load_pretrained_model], [sumary], [train_step], [fit]
    and [predict] keep it.  So a trainer without a configured checkpoint
    always has the flag false, and its [fit] needs a [pretrained_path]. *)
Theorem training_flag_invariant `{!Backend} :
  (∀ m h opt lr ckpt w self w',
     GPT.__init__ m h opt lr ckpt w = Ok (self, w') → trained_has_checkpoint self)
  ∧ ∀ self,
      trained_has_checkpoint self →
      (∀ path w self' w',
         GPT.load_model path self w = Ok (self', w') → trained_has_checkpoint self')
      ∧ (∀ path w, trained_has_checkpoint (GPT.save_model path self w).1)
      ∧ (∀ path w self' w',
           GPT.load_pretrained_model path self w = Ok (self', w') →
           trained_has_checkpoint self')
      ∧ (∀ w self' w', GPT.sumary self w = Ok (self', w') → trained_has_checkpoint self')
      ∧ (∀ inputs labels, trained_has_checkpoint (GPT.train_step inputs labels self))
      ∧ (∀ inputs labels pretrained_path bsz epochs mini_batch shuffle_data w self' w',
           GPT.fit inputs labels pretrained_path bsz epochs mini_batch shuffle_data self w
           = Ok (self', w') →
           trained_has_checkpoint self')
      ∧ (∀ data limit_tokens end_token self' out,
           GPT.predict data limit_tokens end_token self = Ok (self', out) →
           trained_has_checkpoint self').
Proof.
  split.
  - intros m h opt lr ckpt w self w'. unfold GPT.__init__.
    destruct ckpt as [c|].
    + apply thc_load_model. by intros Hflag.
    + intros [= <- <-]. by intros Hflag.
  - intros self Hinv. split; [|split; [|split; [|split; [|split; [|split]]]]].
    + intros path w self' w'. by apply thc_load_model.
    + intros path w. unfold GPT.save_model, trained_has_checkpoint.
      destruct path as [p|], (GPT.checkpoint self) as [c|] eqn:Hck; simpl; eauto.
    + intros path w self' w'. by apply thc_load_pretrained_model.
    + intros w self' w'. by apply thc_sumary.
    + intros inputs labels. unfold trained_has_checkpoint.
      by destruct (GPT_train_step_keeps inputs labels self) as (-> & _ & -> & _).
    + intros inputs labels pp bsz epochs M sh w self' w'. unfold GPT.fit.
      destruct (match GPT.checkpoint self with
                | Some c => GPT.load_model (Some c) self w
                | None => Ok (self, w)
                end) as [[s1 w1]|] eqn:Hload; simpl; [|done].
      assert (trained_has_checkpoint s1) as H1.
      { destruct (GPT.checkpoint self).
        - by eapply thc_load_model.
        - by injection Hload as <- <-. }
      destruct (if GPT.training s1 then Ok (s1, w1)
                else GPT.load_pretrained_model pp s1 w1) as [[s2 w2]|] eqn:Hpre;
        simpl; [|done].
      assert (trained_has_checkpoint s2) as H2.
      { destruct (GPT.training s1).
        - by injection Hpre as <- <-.
        - by eapply thc_load_pretrained_model. }
      destruct (GPT.sumary _ w2) as [[s3 w3]|] eqn:Hsum; simpl; [|done].
      apply thc_sumary in Hsum; [|done].
      destruct (GPT.build_dataset inputs labels bsz sh) as [dl|]; simpl; [|done].
      destruct (for_range _ _ _) as [[s4 w4]|] eqn:Hloop; simpl; [|done].
      apply GPT_epochs_keep in Hloop as (Hc4 & _ & Ht4 & _). simpl in *.
      assert (trained_has_checkpoint s4) as H4.
      { unfold trained_has_checkpoint. by rewrite Hc4, Ht4. }
      by destruct (GPT.checkpoint s4); intros [= <- <-].
    + intros data N e self' out. unfold GPT.predict.
      destruct (GPT.predict_loop _ _ _ _); simpl; [|done]. by intros [= <- <-].
Qed.

Lemma training_flag_invariant_witness :
  ∃ self w',
    GPT.__init__ tiny_model (tiny_heap 1 true) SGD 6%Z (Some "gpt.pt") tiny_world
    = Ok (self, w')
    ∧ trained_has_checkpoint self
    ∧ trained_has_checkpoint (GPT.save_model None self w').1
    ∧ trained_has_checkpoint (@GPT.train_step tiny_backend [[1]%Z] [[0]%Z] self).
Proof.
  destruct (@training_flag_invariant tiny_backend) as [Hinit Hkeep].
  destruct (GPT.__init__ tiny_model (tiny_heap 1 true) SGD 6%Z (Some "gpt.pt") tiny_world)
    as [[self w']|e] eqn:E; [|vm_compute in E; discriminate E].
  exists self, w'. split; [done|].
  pose proof (Hinit _ _ _ _ _ _ _ _ E) as Hself.
  destruct (Hkeep self Hself) as (_ & Hsave & _ & _ & Hstep & _).
  auto.
Defined.

(** ** A whole [fit]: returning, and how much it reports *)

Lemma new_DataLoader_Ok {A} (ds : list A) (bsz : Z) (sh : bool) :
  (1 ≤ bsz)%Z → (sh = true → ds ≠ []) →
  new_DataLoader ds bsz sh = Ok {| dataset := ds; batch_size := bsz; shuffle := sh |}.
Proof.
  intros Hb Hne. unfold new_DataLoader. rewrite bool_decide_eq_false_2 by lia.
  destruct sh; [|done]. simpl. rewrite bool_decide_eq_false_2; [done|].
  intros Hl. apply Hne; [done|]. by apply length_zero_iff_nil.
Qed.

Lemma new_DataLoader_inv {A} (ds : list A) (bsz : Z) (sh : bool) (dl : DataLoader A) :
  new_DataLoader ds bsz sh = Ok dl →
  dl = {| dataset := ds; batch_size := bsz; shuffle := sh |}
  ∧ (1 ≤ bsz)%Z
  ∧ (sh = true → ds ≠ []).
Proof.
  unfold new_DataLoader. case_bool_decide as Hb; [done|].
  destruct sh; simpl.
  - case_bool_decide as Hl; [done|]. intros [= <-]. split; [done|]. split; [lia|].
    intros _ ->. by apply Hl.
  - intros [= <-]. split; [done|]. split; [lia|done].
Qed.

Lemma length_enumerate {A} (l : list A) (start : Z) :
  length (enumerate start l) = length l.
Proof. revert start. induction l as [|a l IH]; intros start; simpl; [done|]. by rewrite IH. Qed.

Lemma for_range_snoc {S} (body : S → result S) (n : nat) :
  ∀ s s1 s2,
    for_range n body s = Ok s1 → body s1 = Ok s2 → for_range (Datatypes.S n) body s = Ok s2.
Proof.
  induction n as [|n IH]; intros s s1 s2; simpl.
  - by intros [= <-] ->.
  - destruct (body s) as [s'|]; simpl; [|done]. apply IH.
Qed.

Lemma count_reports_other out line :
  is_progress line = false → count_reports (out ++ [line]) = count_reports out.
Proof.
  intros Hl. rewrite count_reports_app. unfold count_reports at 2.
  rewrite filter_cons_False by (by rewrite Hl). simpl. lia.
Qed.

Lemma windowed_loop_zeroed {St B : Type}
    (body : St * World → Z * B → result (St * World)) (M : Z) (zeroed : St → Prop)
    (bs : list B) :
  (∀ st index b,
     ∃ st', body st (index, b) = Ok st'
            ∧ step_reports zeroed M (Z.of_nat (length bs)) st st' index) →
  bs ≠ [] →
  ∀ st st', for_each body st (enumerate 0 bs) = Ok st' → zeroed st'.1.
Proof.
  intros Hstep Hne st st' Hloop.
  destruct (bs !! (length bs - 1)) as [b|] eqn:Hb.
  - destruct (windowed_loop_step body M (Z.of_nat (length bs)) zeroed Hstep bs st
                (length bs - 1) b Hb) as (st0 & st1 & _ & Hfull & Hrep).
    rewrite take_ge in Hfull by (rewrite length_enumerate; lia).
    rewrite Hloop in Hfull. injection Hfull as <-.
    unfold step_reports, window_closes in Hrep.
    assert (length bs ≠ 0) by (by destruct bs).
    rewrite (proj2 (Z.eqb_eq (Z.of_nat (length bs - 1)) (Z.of_nat (length bs) - 1)))
      in Hrep by lia.
    rewrite orb_true_r in Hrep. apply Hrep.
  - apply lookup_ge_None in Hb. destruct bs; [done|simpl in Hb; lia].
Qed.

Section Sampler.
Context `{!Backend}.

Lemma DataLoader_iter_length_sampled {A} (dl : DataLoader A) (w : World) :
  valid_sampler → (1 ≤ batch_size dl)%Z →
  Z.of_nat (length (DataLoader_iter dl w).1) = DataLoader_len dl.
Proof.
  intros Hs Hb. destruct (shuffle dl) eqn:Hsh; [|by apply DataLoader_iter_length].
  unfold DataLoader_iter, DataLoader_len. rewrite Hsh. simpl. unfold chunks.
  rewrite chunks_fuel_length by lia.
  assert (length (omap (λ i, dataset dl !! i) (shuffle_order (rng w) (length (dataset dl))))
          = length (dataset dl)) as ->.
  { rewrite (Hs (rng w) (length (dataset dl))). by rewrite omap_lookup_seq. }
  unfold ceil_div. by rewrite Z2Nat.id by lia.
Qed.

Lemma DataLoader_len_pos {A} (dl : DataLoader A) :
  (1 ≤ batch_size dl)%Z → dataset dl ≠ [] → (1 ≤ DataLoader_len dl)%Z.
Proof.
  intros Hb Hne. unfold DataLoader_len.
  assert (1 ≤ length (dataset dl)) by (destruct (dataset dl); [done|simpl; lia]).
  apply Z.div_le_lower_bound; lia.
Qed.

Lemma GPTPretrain_fit_epoch_run (dl : DataLoader (list token)) (M : Z)
    (st : GPTPretrain.t * World * option Z) :
  valid_sampler → (1 ≤ batch_size dl)%Z → (1 ≤ M)%Z → dataset dl ≠ [] →
  ∃ st',
    GPTPretrain.fit_epoch dl M (DataLoader_len dl) st = Ok st'
    ∧ Z.of_nat (count_reports (stdout st'.1.2))
      = (Z.of_nat (count_reports (stdout st.1.2)) + ceil_div (DataLoader_len dl) M)%Z
    ∧ GPTPretrain.entropy_loss st'.1.1 = f0
    ∧ GPTPretrain.perplexity st'.1.1 = f0.
Proof.
  intros Hs Hb HM Hne. destruct st as [[self w] index].
  pose proof (DataLoader_iter_length_sampled dl w Hs Hb) as Hlen.
  pose proof (DataLoader_len_pos dl Hb Hne) as Hpos.
  pose proof (DataLoader_iter_fs dl w) as [_ Hout].
  unfold GPTPretrain.fit_epoch. destruct (DataLoader_iter dl w) as [bs w1].
  simpl in *. rewrite <-Hlen in *.
  pose proof (GPTPretrain_fit_batch_step M (Z.of_nat (length bs)) ltac:(lia)) as Hstep.
  destruct (windowed_loop_count _ _ _ _ Hstep bs 0%Z (self, w1))
    as ([s1 w2] & Hloop & Hcount).
  assert (bs ≠ []) as Hbs by (destruct bs; [simpl in Hpos; lia|done]).
  pose proof (windowed_loop_zeroed _ _ _ bs Hstep Hbs _ _ Hloop) as [Hz1 Hz2].
  rewrite Hloop. simpl in *. destruct bs as [|b bs]; [done|].
  eexists. split; [reflexivity|]. simpl.
  rewrite Hcount, Nat2Z.inj_add, count_due_epoch, Hout by done. done.
Qed.

Lemma GPT_fit_epoch_run (dl : DataLoader (list token * list Z)) (M : Z)
    (st : GPT.t * World) :
  valid_sampler → (1 ≤ batch_size dl)%Z → (1 ≤ M)%Z →
  ∃ st',
    GPT.fit_epoch dl M st = Ok st'
    ∧ Z.of_nat (count_reports (stdout st'.2))
      = (Z.of_nat (count_reports (stdout st.2)) + ceil_div (DataLoader_len dl) M)%Z
    ∧ (dataset dl ≠ [] → GPT.entropy_loss st'.1 = f0).
Proof.
  intros Hs Hb HM. destruct st as [self w].
  pose proof (DataLoader_iter_length_sampled dl w Hs Hb) as Hlen.
  pose proof (DataLoader_iter_fs dl w) as [_ Hout].
  unfold GPT.fit_epoch.
  assert (dataset dl ≠ [] → (DataLoader_iter dl w).1 ≠ []) as Hbs.
  { intros Hne%(DataLoader_len_pos dl Hb). rewrite <-Hlen in Hne.
    destruct (DataLoader_iter dl w).1; [simpl in Hne; lia|done]. }
  destruct (DataLoader_iter dl w) as [bs w1]. simpl in *. rewrite <-Hlen.
  pose proof (GPT_fit_batch_step M (Z.of_nat (length bs)) ltac:(lia)) as Hstep.
  destruct (windowed_loop_count _ _ _ _ Hstep bs 0%Z (self, w1))
    as ([s1 w2] & Hloop & Hcount).
  rewrite Hloop. simpl in *. eexists. split; [reflexivity|]. simpl. split.
  - rewrite Hcount, Nat2Z.inj_add, count_due_epoch, Hout by done. done.
  - intros Hne. apply (windowed_loop_zeroed _ _ _ bs Hstep (Hbs Hne) _ _ Hloop).
Qed.

Lemma GPTPretrain_epochs_run (dl : DataLoader (list token)) (M : Z) (n : nat) :
  valid_sampler → (1 ≤ batch_size dl)%Z → (1 ≤ M)%Z → dataset dl ≠ [] →
  ∀ st,
    ∃ st',
      for_range n (GPTPretrain.fit_epoch dl M (DataLoader_len dl)) st = Ok st'
      ∧ Z.of_nat (count_reports (stdout st'.1.2))
        = (Z.of_nat (count_reports (stdout st.1.2))
           + Z.of_nat n * ceil_div (DataLoader_len dl) M)%Z
      ∧ (0 < n → GPTPretrain.entropy_loss st'.1.1 = f0
                 ∧ GPTPretrain.perplexity st'.1.1 = f0).
Proof.
  intros Hs Hb HM Hne. induction n as [|n IH]; intros st.
  - exists st. simpl. split; [done|]. split; lia.
  - destruct (IH st) as (st1 & Hrun & Hcount & _).
    destruct (GPTPretrain_fit_epoch_run dl M st1 Hs Hb HM Hne)
      as (st2 & Hep & Hcount2 & Hz1 & Hz2).
    exists st2. split; [by eapply for_range_snoc|]. split; [lia|done].
Qed.

Lemma GPT_epochs_run (dl : DataLoader (list token * list Z)) (M : Z) (n : nat) :
  valid_sampler → (1 ≤ batch_size dl)%Z → (1 ≤ M)%Z →
  ∀ st,
    ∃ st',
      for_range n (GPT.fit_epoch dl M) st = Ok st'
      ∧ Z.of_nat (count_reports (stdout st'.2))
        = (Z.of_nat (count_reports (stdout st.2))
           + Z.of_nat n * ceil_div (DataLoader_len dl) M)%Z
      ∧ (0 < n → dataset dl ≠ [] → GPT.entropy_loss st'.1 = f0).
Proof.
  intros Hs Hb HM. induction n as [|n IH]; intros st.
  - exists st. simpl. split; [done|]. split; lia.
  - destruct (IH st) as (st1 & Hrun & Hcount & _).
    destruct (GPT_fit_epoch_run dl M st1 Hs Hb HM) as (st2 & Hep & Hcount2 & Hz).
    exists st2. split; [by eapply for_range_snoc|]. split; [lia|auto].
Qed.

End Sampler.


Lemma tiny_valid_sampler : @valid_sampler tiny_backend.
Proof. intros r n. simpl. apply reverse_Permutation. Qed.


(** ** A [fit] that cannot finish *)

Section FitRaises.
Context `{!Backend}.

Lemma for_each_first_raises {S A} (body : S → A → result S) (s : S) (a : A)
    (l : list A) (e : exn) :
  body s a = Raise e → for_each body s (a :: l) = Raise e.
Proof. intros Hb. simpl. by rewrite Hb. Qed.

Lemma for_range_first_raises {S} (body : S → result S) (s : S) (n : nat) (e : exn) :
  0 < n → body s = Raise e → for_range n body s = Raise e.
Proof. intros Hn Hb. destruct n; [lia|]. simpl. by rewrite Hb. Qed.

Lemma DataLoader_iter_nonempty {A} (dl : DataLoader A) (w : World) :
  valid_sampler → (1 ≤ batch_size dl)%Z → dataset dl ≠ [] →
  (DataLoader_iter dl w).1 ≠ [].
Proof.
  intros Hs Hb Hne Hnil.
  pose proof (DataLoader_iter_length_sampled dl w Hs Hb) as Hlen.
  pose proof (DataLoader_len_pos dl Hb Hne). rewrite Hnil in Hlen. simpl in Hlen. lia.
Qed.

End FitRaises.

(** X10.  [GPTPretrain.fit] cannot run an epoch over an empty dataset: with
    no configured checkpoint, an unshuffled loader and at least one epoch,
    the loop body never binds [index] and computing [mean_loss] raises
    [UnboundLocalError], whatever [mini_batch] is. *)
Theorem pretrain_fit_empty_dataset `{!Backend} (self : GPTPretrain.t)
    (bsz epochs mini_batch : Z) (w : World) :
  GPTPretrain.checkpoint self = None →
  (1 ≤ bsz)%Z → (1 ≤ epochs)%Z →
  GPTPretrain.fit [] bsz epochs false mini_batch self w = Raise UnboundLocalError.
Proof.
  intros Hck Hb He. unfold GPTPretrain.fit. rewrite Hck. simpl.
  unfold GPTPretrain.build_pretrain_dataset, new_DataLoader.
  rewrite bool_decide_eq_false_2 by lia. simpl.
  rewrite (for_range_first_raises _ _ _ UnboundLocalError); [done|lia|done].
Qed.

Lemma pretrain_fit_empty_dataset_witness :
  @GPTPretrain.fit tiny_backend [] 4 1 false 2 (tiny_pretrain 1 0) empty_world
  = Raise UnboundLocalError.
Proof. apply (@pretrain_fit_empty_dataset tiny_backend); [reflexivity|lia|lia]. Defined.



(** ** Loading makes the trainer agree with the file *)

Lemma optimizer_load_state_dict_state sd o o' :
  optimizer_load_state_dict sd o = Ok o' → optimizer_state o' = sd.
Proof.
  unfold optimizer_load_state_dict. case_bool_decide as Hn; [|done].
  intros [= <-]. unfold optimizer_state. simpl. rewrite <-Hn. by destruct sd.
Qed.

Lemma load_state_dict_dom np sd (h h' : heap) :
  load_state_dict np sd h = Ok h' → dom sd = list_to_set np.*1.
Proof. unfold load_state_dict. case_bool_decide; [done|discriminate]. Qed.

Lemma GPTPretrain__load_model_existing path self w self' :
  is_Some (fs w !! path) →
  GPTPretrain.__load_model path self w = Ok self' →
  ∃ ckpt h o,
    fs w !! path = Some ckpt
    ∧ load_state_dict (GPTModel_named_parameters (GPTPretrain.model self))
        (model_state_dict ckpt) (GPTPretrain.params self) = Ok h
    ∧ optimizer_load_state_dict (optimizer_state_dict ckpt) (GPTPretrain.optimizer self)
      = Ok o
    ∧ self' = GPTPretrain.set_loaded h o (ck_epoch ckpt) self.
Proof.
  intros Hex. unfold GPTPretrain.__load_model. rewrite os_path_exists_true by done.
  destruct Hex as [ckpt Hck]. simpl. rewrite Hck. simpl.
  destruct (load_state_dict _ _ _) as [h|] eqn:Hh; simpl; [|done].
  destruct (optimizer_load_state_dict _ _) as [o|] eqn:Ho; simpl; [|done].
  intros [= <-]. by exists ckpt, h, o.
Qed.

Lemma GPTPretrain__load_model_snapshot path self w self' f :
  wf_params (GPTModel_named_parameters (GPTPretrain.model self)) (GPTPretrain.params self) →
  NoDup (parameters (GPTModel_named_parameters (GPTPretrain.model self))) →
  fs w !! path = Some f →
  GPTPretrain.__load_model path self w = Ok self' →
  GPTPretrain_snapshot self' = f
  ∧ ∀ i, requires_grad <$> GPTPretrain.params self' !! i
         = requires_grad <$> GPTPretrain.params self !! i.
Proof.
  intros Hwf Hids Hf Hload.
  apply GPTPretrain__load_model_existing in Hload
    as (ckpt & h & o & Hck & Hh & Ho & ->); [|eauto].
  rewrite Hf in Hck. injection Hck as <-.
  pose proof (load_state_dict_dom _ _ _ _ Hh) as Hdom.
  apply load_state_dict_Ok in Hh as ->.
  apply optimizer_load_state_dict_state in Ho. split.
  - unfold GPTPretrain_snapshot. simpl.
    rewrite state_dict_copy_state, Ho by done. by destruct f.
  - intros i. simpl. apply lookup_copy_state_flag.
Qed.

Lemma GPT__load_model_snapshot path self w self' f :
  wf_params (GPTFineTune_named_parameters (GPT.model self)) (GPT.params self) →
  NoDup (parameters (GPTFineTune_named_parameters (GPT.model self))) →
  fs w !! path = Some f →
  GPT.__load_model path self w = Ok self' →
  GPT_snapshot self' = f.
Proof.
  intros Hwf Hids Hf Hload.
  apply GPT__load_model_existing in Hload
    as (ckpt & h & o & Hck & Hh & Ho & ->); [|eauto].
  rewrite Hf in Hck. injection Hck as <-.
  pose proof (load_state_dict_dom _ _ _ _ Hh) as Hdom.
  apply load_state_dict_Ok in Hh as ->.
  apply optimizer_load_state_dict_state in Ho.
  unfold GPT_snapshot. simpl.
  rewrite state_dict_freeze_backbone, state_dict_copy_state, Ho by done. by destruct f.
Qed.

(** X12.  A load that returns has made the trainer agree with the file,
    whoever wrote it: when [load_model] acts on a path whose file exists, on
    a trainer whose parameters are distinct objects, what [save_model] would
    pickle afterwards is that file (state dictionary, optimizer state and
    epoch).  [GPTPretrain.load_model] changes no [requires_grad] in doing
    so.  [GPT.sumary] does the same load from the configured checkpoint:
    it is not a read-only report. *)
Theorem load_model_agrees_with_file (p : string) (f : checkpoint_file) (w : World) :
  fs w !! p = Some f →
  (∀ path (self self' : GPTPretrain.t) w',
     wf_params (GPTModel_named_parameters (GPTPretrain.model self))
       (GPTPretrain.params self) →
     NoDup (parameters (GPTModel_named_parameters (GPTPretrain.model self))) →
     checkpoint_target path (GPTPretrain.checkpoint self) = Some p →
     GPTPretrain.load_model path self w = Ok (self', w') →
     GPTPretrain_snapshot self' = f
     ∧ ∀ i, requires_grad <$> GPTPretrain.params self' !! i
            = requires_grad <$> GPTPretrain.params self !! i)
  ∧ (∀ (self self' : GPT.t) w',
       wf_params (GPTFineTune_named_parameters (GPT.model self)) (GPT.params self) →
       NoDup (parameters (GPTFineTune_named_parameters (GPT.model self))) →
       (∀ path,
          checkpoint_target path (GPT.checkpoint self) = Some p →
          GPT.load_model path self w = Ok (self', w') →
          GPT_snapshot self' = f)
       ∧ (GPT.checkpoint self = Some p →
          GPT.sumary self w = Ok (self', w') →
          GPT_snapshot self' = f ∧ stdout w' = stdout w ++ [Summary])).
Proof.
  intros Hf. split.
  - intros path self self' w' Hwf Hids Ht. unfold GPTPretrain.load_model.
    destruct path as [q|]; simpl in Ht.
    + injection Ht as ->.
      destruct (GPTPretrain.__load_model p self w) as [s1|] eqn:E; simpl; [|done].
      intros [= <- <-].
      by destruct (GPTPretrain__load_model_snapshot p self w s1 f).
    + rewrite Ht.
      destruct (GPTPretrain.__load_model p self w) as [s1|] eqn:E; simpl; [|done].
      intros [= <- <-].
      by destruct (GPTPretrain__load_model_snapshot p self w s1 f).
  - intros self self' w' Hwf Hids.
    assert (∀ path s' w1,
              checkpoint_target path (GPT.checkpoint self) = Some p →
              GPT.load_model path self w = Ok (s', w1) →
              GPT_snapshot s' = f ∧ w1 = w) as Hload.
    { intros path s' w1 Ht Hl. apply GPT_load_model_target in Hl as [-> Hl].
      rewrite Ht in Hl. destruct Hl as (s1 & Hs1 & ->). split; [|done].
      apply (GPT__load_model_snapshot p self w s1 f) in Hs1; [|done..].
      by destruct path. }
    split.
    + intros path Ht Hl. by apply (Hload path self' w') in Hl as [? _].
    + intros Hck. unfold GPT.sumary. rewrite Hck.
      destruct (GPT.load_model (Some p) self w) as [[s1 w1]|] eqn:E; simpl; [|done].
      intros [= <- <-]. by apply (Hload (Some p)) in E as [? ->].
Qed.

Lemma load_model_agrees_with_file_witness :
  (∃ self' w',
     GPTPretrain.load_model (Some "pretrain.pt") (tiny_pretrain 9 4) tiny_world
     = Ok (self', w')
     ∧ GPTPretrain_snapshot self' = GPTPretrain_snapshot (tiny_pretrain 5 2))
  ∧ (∃ self' w',
       GPT.sumary (GPT.set_checkpoint (Some "gpt.pt") (tiny_gpt 9 4)) tiny_world
       = Ok (self', w')
       ∧ GPT_snapshot self' = GPT_snapshot (tiny_gpt 7 3)).
Proof.
  split.
  - destruct (load_model_agrees_with_file "pretrain.pt"
                (GPTPretrain_snapshot (tiny_pretrain 5 2)) tiny_world) as [Hpre _];
      [vm_compute; reflexivity|].
    destruct (GPTPretrain.load_model (Some "pretrain.pt") (tiny_pretrain 9 4) tiny_world)
      as [[self' w']|e] eqn:E; [|vm_compute in E; discriminate E].
    exists self', w'. split; [done|].
    apply (Hpre (Some "pretrain.pt") (tiny_pretrain 9 4) self' w'); [| |done|done].
    + split; apply (bool_decide_unpack _); vm_compute; exact I.
    + apply (bool_decide_unpack _); vm_compute; exact I.
  - destruct (load_model_agrees_with_file "gpt.pt"
                (GPT_snapshot (tiny_gpt 7 3)) tiny_world) as [_ Hgpt];
      [vm_compute; reflexivity|].
    destruct (GPT.sumary (GPT.set_checkpoint (Some "gpt.pt") (tiny_gpt 9 4)) tiny_world)
      as [[self' w']|e] eqn:E; [|vm_compute in E; discriminate E].
    exists self', w'. split; [done|].
    destruct (Hgpt (GPT.set_checkpoint (Some "gpt.pt") (tiny_gpt 9 4)) self' w')
      as [_ Hsum].
    + split; apply (bool_decide_unpack _); vm_compute; exact I.
    + apply (bool_decide_unpack _); vm_compute; exact I.
    + by apply Hsum.
Defined.

(** ** Targets of sequences of any length *)

(** X13.  For a sequence of any length, [pretrain_step] derives inputs and
    labels of the same length that overlap: the inputs from their second
    token on are the labels up to their last but one.  A sequence that is
    not empty is its first token followed by the labels, and the inputs
    followed by its last token; a sequence of one token, or none, gives
    empty inputs and empty labels. *)
Theorem pretrain_targets_overlap (data : list (list token)) (b : nat)
    (row : list token) :
  data !! b = Some row →
  ∃ inputs labels,
    GPTPretrain.pretrain_inputs data !! b = Some inputs
    ∧ GPTPretrain.pretrain_labels data !! b = Some labels
    ∧ length inputs = length labels
    ∧ drop 1 inputs = take (length labels - 1) labels
    ∧ (∀ first rest, row = first :: rest →
         row = first :: labels ∧ ∃ final, row = inputs ++ [final])
    ∧ (length row ≤ 1 → inputs = [] ∧ labels = []).
Proof.
  intros Hb. exists (slice_to_last row), (slice_from_1 row).
  unfold GPTPretrain.pretrain_inputs, GPTPretrain.pretrain_labels.
  rewrite !list_lookup_fmap, Hb. simpl.
  split; [done|]. split; [done|].
  rewrite length_slice_to_last, length_slice_from_1.
  split; [done|]. unfold slice_to_last, slice_from_1.
  split; [|split].
  - destruct row as [|x [|y row']]; [done|done|].
    rewrite take_drop_commute. do 2 f_equal. simpl. lia.
  - intros first rest ->. split; [done|].
    destruct (last (first :: rest)) as [final|] eqn:Hl; [|by apply last_None in Hl].
    exists final. apply last_Some in Hl as [l' Hl]. rewrite Hl.
    rewrite length_app. simpl. rewrite Nat.add_sub. by rewrite take_app_length.
  - intros Hlen. destruct row as [|x [|y row]]; simpl in *; [done|done|lia].
Qed.

Lemma pretrain_targets_overlap_witness :
  ∃ inputs labels,
    GPTPretrain.pretrain_inputs [[5; 6; 7]%Z; [8]%Z] !! 1 = Some inputs
    ∧ GPTPretrain.pretrain_labels [[5; 6; 7]%Z; [8]%Z] !! 1 = Some labels
    ∧ inputs = [] ∧ labels = [].
Proof.
  destruct (pretrain_targets_overlap [[5; 6; 7]%Z; [8]%Z] 1 [8%Z])
    as (inputs & labels & H1 & H2 & _ & _ & _ & Hshort); [reflexivity|].
  exists inputs, labels. split; [done|]. split; [done|]. apply Hshort. simpl. lia.
Defined.

(** ** Constructing a trainer on a checkpoint path *)



(** * The reports of a whole [fit] *)

Lemma length_due_batches M T start n :
  length (due_batches M T start n) = count_due M T start n.
Proof.
  revert start. induction n as [|n IH]; intros start; simpl; [done|].
  rewrite length_app, IH. by destruct (window_closes start M T).
Qed.

Lemma mod_pred (b M : Z) :
  (1 ≤ M)%Z → ((b - 1) `mod` M = M - 1 ↔ b `mod` M = 0)%Z.
Proof.
  intros HM. split; intros Hm.
  - pose proof (Z.div_mod (b - 1) M ltac:(lia)) as Hdm. rewrite Hm in Hdm.
    symmetry. apply (Z.mod_unique b M ((b - 1) `div` M + 1)); lia.
  - pose proof (Z.div_mod b M ltac:(lia)) as Hdm. rewrite Hm in Hdm.
    symmetry. apply (Z.mod_unique (b - 1) M (b `div` M - 1)); lia.
Qed.

Lemma window_closes_spec (b M T : Z) :
  (1 ≤ M)%Z →
  window_closes (b - 1) M T = true ↔ (b `mod` M = 0 ∨ b = T)%Z.
Proof.
  intros HM. unfold window_closes.
  rewrite orb_true_iff, !Z.eqb_eq, mod_pred by done. lia.
Qed.

Lemma elem_of_due_batches M T start n b :
  b ∈ due_batches M T start n
  ↔ (start + 1 ≤ b ≤ start + Z.of_nat n)%Z ∧ window_closes (b - 1) M T = true.
Proof.
  revert start. induction n as [|n IH]; intros start; simpl.
  - rewrite elem_of_nil. lia.
  - rewrite elem_of_app, IH. destruct (window_closes start M T) eqn:Hw.
    + rewrite list_elem_of_singleton. split.
      * intros [->|[Hb Hc]]; [|split; [lia|done]].
        split; [lia|]. by replace (start + 1 - 1)%Z with start by lia.
      * intros [Hb Hc]. destruct (decide (b = start + 1)%Z); [by left|right].
        split; [lia|done].
    + rewrite elem_of_nil. split.
      * intros [[]|[Hb Hc]]. split; [lia|done].
      * intros [Hb Hc]. right. split; [|done].
        destruct (decide (b = start + 1)%Z) as [->|]; [|lia].
        replace (start + 1 - 1)%Z with start in Hc by lia. congruence.
Qed.

(** The loop of a [fit] over a body that prints as [step_prints] says. *)
Section Prints.
Context {St B : Type}.
Variable body : St * World → Z * B → result (St * World).
Variables M T : Z.
Variable ep : St → Z.
Variable zeroed : St → Prop.

Hypothesis body_prints :
  ∀ st index b,
    ∃ st', body st (index, b) = Ok st' ∧ step_prints ep zeroed M T st st' index.

Lemma loop_prints (bs : list B) :
  ∀ start st,
    ∃ st' out,
      for_each body st (enumerate start bs) = Ok st'
      ∧ stdout st'.2 = stdout st.2 ++ out
      ∧ ep st'.1 = ep st.1
      ∧ Forall2 (λ l b, is_progress l = true
                        ∧ report_epoch l = Some (ep st.1 + 1)%Z
                        ∧ report_batch l = Some b)
                out (due_batches M T start (length bs)).
Proof using body_prints.
  induction bs as [|b bs IH]; intros start st; simpl.
  - exists st, []. rewrite app_nil_r. repeat split. constructor.
  - destruct (body_prints st start b) as (st1 & -> & Hep & Hstep). simpl.
    destruct (IH (start + 1)%Z st1) as (st' & out & -> & Hout & Hep' & Hall).
    rewrite Hep in Hall. destruct (window_closes start M T).
    + destruct Hstep as [(line & Hp & He & Hb & Hline) _].
      exists st', (line :: out). split; [done|].
      split; [by rewrite Hout, Hline, <-app_assoc|]. split; [congruence|].
      simpl. by constructor.
    + exists st', out. split; [done|]. split; [congruence|]. split; [congruence|done].
Qed.
End Prints.

Section BodyPrints.
Context `{!Backend}.

Lemma GPTPretrain_fit_batch_prints M T :
  (M ≠ 0)%Z →
  ∀ st index b,
    ∃ st', GPTPretrain.fit_batch M T st (index, b) = Ok st'
           ∧ step_prints GPTPretrain.epoch
               (λ s, GPTPretrain.entropy_loss s = f0 ∧ GPTPretrain.perplexity s = f0)
               M T st st' index.
Proof.
  intros HM [self w] index b. unfold GPTPretrain.fit_batch, step_prints.
  rewrite report_due_Ok by done. simpl.
  destruct (GPTPretrain_pretrain_step_keeps b self) as (_ & He & _).
  destruct (window_closes index M T); eexists; (split; [reflexivity|]); simpl;
    (split; [done|]); [|done].
  split; [|done]. eexists. rewrite He. repeat split; reflexivity.
Qed.

Lemma GPT_fit_batch_prints M T :
  (M ≠ 0)%Z →
  ∀ st index b,
    ∃ st', GPT.fit_batch M T st (index, b) = Ok st'
           ∧ step_prints GPT.epoch (λ s, GPT.entropy_loss s = f0) M T st st' index.
Proof.
  intros HM [self w] index b. unfold GPT.fit_batch, step_prints.
  rewrite report_due_Ok by done. simpl.
  destruct (GPT_train_step_keeps b.*1 b.*2 self) as (_ & He & _).
  destruct (window_closes index M T); eexists; (split; [reflexivity|]); simpl;
    (split; [done|]); [|done].
  split; [|done]. eexists. rewrite He. repeat split; reflexivity.
Qed.

End BodyPrints.

Lemma due_batches_filter M T start n :
  (1 ≤ M)%Z →
  due_batches M T start n
  = filter (λ b, b `mod` M = 0 ∨ b = T)%Z (seqZ (start + 1) (Z.of_nat n)).
Proof.
  intros HM. revert start. induction n as [|n IH]; intros start; [done|].
  rewrite seqZ_cons by lia. simpl due_batches. rewrite IH.
  replace (Z.pred (Z.of_nat (S n))) with (Z.of_nat n) by lia.
  replace (Z.succ (start + 1)) with (start + 1 + 1)%Z by lia.
  pose proof (window_closes_spec (start + 1) M T HM) as Hspec.
  replace (start + 1 - 1)%Z with start in Hspec by lia.
  destruct (window_closes start M T).
  - rewrite filter_cons_True by (by apply Hspec). done.
  - rewrite filter_cons_False; [done|]. intros Hd. apply Hspec in Hd. done.
Qed.

Lemma due_batches_points M T :
  (1 ≤ M)%Z → (0 ≤ T)%Z → due_batches M T 0 (Z.to_nat T) = report_points M T.
Proof.
  intros HM HT. rewrite due_batches_filter by done. unfold report_points.
  by rewrite Z2Nat.id by done.
Qed.

Lemma length_report_points M T :
  (1 ≤ M)%Z → (0 ≤ T)%Z → Z.of_nat (length (report_points M T)) = ceil_div T M.
Proof.
  intros HM HT. rewrite <-due_batches_points, length_due_batches by done.
  rewrite <-(Z2Nat.id T) at 1 3 by done. by apply count_due_epoch.
Qed.

Lemma epoch_reports_length M T e out :
  (1 ≤ M)%Z → (0 ≤ T)%Z → epoch_reports M T e out →
  Z.of_nat (length out) = ceil_div T M.
Proof.
  intros HM HT Hout. unfold epoch_reports in Hout.
  apply Forall2_length in Hout. rewrite Hout. by apply length_report_points.
Qed.

Lemma DataLoader_len_nonneg {A} (dl : DataLoader A) :
  (1 ≤ batch_size dl)%Z → (0 ≤ DataLoader_len dl)%Z.
Proof. intros Hb. unfold DataLoader_len. apply Z.div_pos; lia. Qed.

Section EpochPrints.
Context `{!Backend}.

Lemma GPTPretrain_fit_epoch_prints (dl : DataLoader (list token)) (M : Z)
    (st st' : GPTPretrain.t * World * option Z) :
  valid_sampler → (1 ≤ batch_size dl)%Z → (1 ≤ M)%Z →
  GPTPretrain.fit_epoch dl M (DataLoader_len dl) st = Ok st' →
  ∃ out,
    stdout st'.1.2 = stdout st.1.2 ++ out
    ∧ GPTPretrain.epoch st'.1.1 = (GPTPretrain.epoch st.1.1 + 1)%Z
    ∧ epoch_reports M (DataLoader_len dl) (GPTPretrain.epoch st.1.1 + 1) out.
Proof.
  intros Hs Hb HM. destruct st as [[self w] index].
  pose proof (DataLoader_iter_length_sampled dl w Hs Hb) as Hlen.
  pose proof (DataLoader_len_nonneg dl Hb) as Hpos.
  pose proof (DataLoader_iter_fs dl w) as [_ Hout].
  unfold GPTPretrain.fit_epoch. destruct (DataLoader_iter dl w) as [bs w1].
  simpl in Hlen, Hout.
  destruct (loop_prints _ M (DataLoader_len dl) GPTPretrain.epoch _
              (GPTPretrain_fit_batch_prints M (DataLoader_len dl) ltac:(lia))
              bs 0%Z (self, w1))
    as ([s1 w2] & out & -> & Hprint & Hep & Hall).
  simpl in *. destruct (match bs with [] => index | _ => _ end); [|done].
  intros [= <-]. simpl. exists out. rewrite Hprint, Hout, Hep. split; [done|].
  split; [done|]. unfold epoch_reports.
  rewrite <-due_batches_points by (done || lia).
  by replace (Z.to_nat (DataLoader_len dl)) with (length bs) by lia.
Qed.

Lemma GPT_fit_epoch_prints (dl : DataLoader (list token * list Z)) (M : Z)
    (st st' : GPT.t * World) :
  valid_sampler → (1 ≤ batch_size dl)%Z → (1 ≤ M)%Z →
  GPT.fit_epoch dl M st = Ok st' →
  ∃ out,
    stdout st'.2 = stdout st.2 ++ out
    ∧ GPT.epoch st'.1 = (GPT.epoch st.1 + 1)%Z
    ∧ epoch_reports M (DataLoader_len dl) (GPT.epoch st.1 + 1) out.
Proof.
  intros Hs Hb HM. destruct st as [self w].
  pose proof (DataLoader_iter_length_sampled dl w Hs Hb) as Hlen.
  pose proof (DataLoader_len_nonneg dl Hb) as Hpos.
  pose proof (DataLoader_iter_fs dl w) as [_ Hout].
  unfold GPT.fit_epoch. destruct (DataLoader_iter dl w) as [bs w1].
  simpl in Hlen, Hout.
  destruct (loop_prints _ M (DataLoader_len dl) GPT.epoch _
              (GPT_fit_batch_prints M (DataLoader_len dl) ltac:(lia))
              bs 0%Z (self, w1))
    as ([s1 w2] & out & -> & Hprint & Hep & Hall).
  simpl in *. intros [= <-]. simpl. exists out. rewrite Hprint, Hout, Hep.
  split; [done|]. split; [done|]. unfold epoch_reports.
  rewrite <-due_batches_points by (done || lia).
  by replace (Z.to_nat (DataLoader_len dl)) with (length bs) by lia.
Qed.

Lemma GPTPretrain_epochs_prints (dl : DataLoader (list token)) (M : Z) (n : nat) :
  valid_sampler → (1 ≤ batch_size dl)%Z → (1 ≤ M)%Z →
  ∀ st st',
    for_range n (GPTPretrain.fit_epoch dl M (DataLoader_len dl)) st = Ok st' →
    ∃ outs : list (list out_line),
      stdout st'.1.2 = stdout st.1.2 ++ concat outs
      ∧ length outs = n
      ∧ ∀ (e : nat) out,
          outs !! e = Some out →
          epoch_reports M (DataLoader_len dl)
            (GPTPretrain.epoch st.1.1 + Z.of_nat e + 1) out.
Proof.
  intros Hs Hb HM. induction n as [|n IH]; intros st st'; simpl.
  - intros [= <-]. exists []. simpl. by rewrite app_nil_r.
  - destruct (GPTPretrain.fit_epoch dl M _ st) as [st1|] eqn:Hep; simpl; [|done].
    apply GPTPretrain_fit_epoch_prints in Hep as (out & Hout & He & Hrep); [|done..].
    intros (outs & Houts & Hlen & Hall)%IH. exists (out :: outs).
    split; [by rewrite Houts, Hout, <-app_assoc|]. split; [simpl; lia|].
    intros [|e] o; simpl.
    + intros [= <-]. by rewrite Z.add_0_r.
    + intros Ho%Hall. rewrite He in Ho.
      by replace (GPTPretrain.epoch st.1.1 + Z.of_nat (S e) + 1)%Z
        with (GPTPretrain.epoch st.1.1 + 1 + Z.of_nat e + 1)%Z by lia.
Qed.

Lemma GPT_epochs_prints (dl : DataLoader (list token * list Z)) (M : Z) (n : nat) :
  valid_sampler → (1 ≤ batch_size dl)%Z → (1 ≤ M)%Z →
  ∀ st st',
    for_range n (GPT.fit_epoch dl M) st = Ok st' →
    ∃ outs : list (list out_line),
      stdout st'.2 = stdout st.2 ++ concat outs
      ∧ length outs = n
      ∧ ∀ (e : nat) out,
          outs !! e = Some out →
          epoch_reports M (DataLoader_len dl) (GPT.epoch st.1 + Z.of_nat e + 1) out.
Proof.
  intros Hs Hb HM. induction n as [|n IH]; intros st st'; simpl.
  - intros [= <-]. exists []. simpl. by rewrite app_nil_r.
  - destruct (GPT.fit_epoch dl M st) as [st1|] eqn:Hep; simpl; [|done].
    apply GPT_fit_epoch_prints in Hep as (out & Hout & He & Hrep); [|done..].
    intros (outs & Houts & Hlen & Hall)%IH. exists (out :: outs).
    split; [by rewrite Houts, Hout, <-app_assoc|]. split; [simpl; lia|].
    intros [|e] o; simpl.
    + intros [= <-]. by rewrite Z.add_0_r.
    + intros Ho%Hall. rewrite He in Ho.
      by replace (GPT.epoch st.1 + Z.of_nat (S e) + 1)%Z
        with (GPT.epoch st.1 + 1 + Z.of_nat e + 1)%Z by lia.
Qed.

End EpochPrints.

Lemma GPT_load_pretrained_model_prints path self w self' w' :
  GPT.load_pretrained_model path self w = Ok (self', w') →
  stdout w' = stdout w ++ [LoadedPretrainedModel]
  ∧ fs w' = fs w
  ∧ GPT.checkpoint self' = GPT.checkpoint self
  ∧ GPT.epoch self' = GPT.epoch self.
Proof.
  unfold GPT.load_pretrained_model.
  destruct (torch_load path w) as [ckpt|]; simpl; [|done].
  destruct (load_state_dict _ _ _) as [h|]; simpl; [|done].
  by intros [= <- <-].
Qed.

Lemma GPT_sumary_prints self w self' w' :
  GPT.sumary self w = Ok (self', w') →
  stdout w' = stdout w ++ [Summary]
  ∧ GPT.checkpoint self' = GPT.checkpoint self
  ∧ GPT.epoch self' = starting_epoch (GPT.checkpoint self) (GPT.epoch self) w.
Proof.
  unfold GPT.sumary. destruct (GPT.checkpoint self) as [c|] eqn:Hck.
  - unfold GPT.load_model. simpl.
    destruct (GPT.__load_model c self w) as [s0|] eqn:E; simpl; [|done].
    intros [= <- <-]. simpl. split; [done|]. split; [done|].
    by apply GPT__load_model_epoch in E.
  - simpl. intros [= <- <-]. done.
Qed.



(** The reports of an epoch of five batches in windows of two, and of one
    of six. *)
Example report_points_tiny :
  report_points 2 5 = [2; 4; 5]%Z ∧ report_points 2 6 = [2; 4; 6]%Z
  ∧ report_points 1 3 = [1; 2; 3]%Z ∧ report_points 4 3 = [3]%Z.
Proof. vm_compute. auto. Qed.
